(** * JEE Genius Mock: exam session engine and scoring engine

    A shallow embedding of the logic of [src/components/TestInterface.tsx],
    [src/components/ResultScreen.tsx], [src/App.tsx], [types.ts] and
    [services/geminiService.ts], and the properties of the session engine,
    of the two scoring paths, of the charts, of the chapter controls and of
    the request plan of the question generator.

    Conventions of the embedding.
    - A JavaScript string is the list of its UTF-16 code units.
    - JavaScript numbers that only ever hold integers (indices, counters,
      seconds, scores) are [Z]; where the code divides or multiplies by a
      fraction (accuracy, percentage, the 0.8 of the verdict) the numbers
      are IEEE-754 binary64, computed with the executable model of the
      Standard Library ([SpecFloat]).
    - React state is passed explicitly.  Every state updater runs once and a
      render happens between two events (no StrictMode double invocation);
      the values a callback captured at an earlier render are explicit
      fields or arguments. *)

From Stdlib Require Import ZArith List String Ascii Bool Lia Permutation.
From Stdlib Require Import DecimalString FunInd Recdef.
From Stdlib Require DecimalPos DecimalZ.
From Stdlib Require Import SpecFloat.
Import ListNotations.

Local Open Scope Z_scope.

(* ================================================================== *)
(** ** JavaScript values *)

Module JS.

(** A JavaScript string: UTF-16 code units. *)
Definition jsstring := list N.

(** An ASCII literal as a JavaScript string. *)
Definition js (s : string) : jsstring :=
  map N_of_ascii (list_ascii_of_string s).

Definition eqb (a b : jsstring) : bool :=
  if list_eq_dec N.eq_dec a b then true else false.

(** [x || d] on a string: the empty string is falsy. *)
Definition truthy (s : jsstring) : bool :=
  match s with [] => false | _ :: _ => true end.

(** [WhiteSpace] and [LineTerminator] of ECMAScript, the code units that
    [String.prototype.trim] strips: TAB, LF, VT, FF, CR, SP, NBSP, U+1680,
    U+2000..U+200A, U+2028, U+2029, U+202F, U+205F, U+3000, U+FEFF. *)
Definition isWhiteSpace (c : N) : bool :=
  (existsb (N.eqb c)
     [9; 10; 11; 12; 13; 32; 160; 5760; 8232; 8233; 8239; 8287; 12288; 65279]
   || ((8192 <=? c) && (c <=? 8202)))%N.

Fixpoint trimStart (s : jsstring) : jsstring :=
  match s with
  | [] => []
  | c :: s' => if isWhiteSpace c then trimStart s' else s
  end.

Definition trimEnd (s : jsstring) : jsstring := rev (trimStart (rev s)).

Definition trim (s : jsstring) : jsstring := trimEnd (trimStart s).

(** [n.toString()] of an integer. *)
Definition toString (n : Z) : jsstring :=
  js (NilZero.string_of_int (Z.to_int n)).

(** [l[i]] for an integer [i]: [undefined] outside of the array. *)
Definition at_index {A : Type} (l : list A) (i : Z) : option A :=
  if i <? 0 then None else nth_error l (Z.to_nat i).

(** [l.find(p)]. *)
Definition find {A : Type} (p : A -> bool) (l : list A) : option A :=
  List.find p l.

(** A thrown [Error] object and its message. *)
Inductive Error := mkError (message : jsstring).

Definition message (e : Error) : jsstring :=
  match e with mkError m => m end.

(** *** Numbers (binary64) *)

Definition number := spec_float.

Definition prec : Z := 53.
Definition emax : Z := 1024.

(** The number whose value is the integer [z] (exact below 2^53). *)
Definition of_Z (z : Z) : number := binary_normalize prec emax z 0 false.

Definition div (x y : number) : number := SFdiv prec emax x y.
Definition mul (x y : number) : number := SFmul prec emax x y.

(** [x > y] and [x < y] on numbers; false on NaN. *)
Definition gt (x y : number) : bool := SFltb y x.
Definition lt (x y : number) : bool := SFltb x y.

(** The literal [0.8]: the binary64 number nearest to 8/10. *)
Definition lit_0_8 : number := div (of_Z 8) (of_Z 10).

(** [Math.round]: the integer nearest to [x], ties towards +infinity; NaN,
    the infinities, the zeros and the integers are returned as they are,
    and a result of zero takes the sign of [x]. *)
Definition Math_round (x : number) : number :=
  match x with
  | S754_finite s m e =>
      if 0 <=? e then x
      else
        (* |x| = m / 2^(-e); floor (x + 1/2) = floor ((2 v + d) / (2 d)) *)
        let d := 2 ^ (- e) in
        let v := if s then - Z.pos m else Z.pos m in
        let n := (2 * v + d) / (2 * d) in
        binary_normalize prec emax n 0 s
  | _ => x
  end.

End JS.

Import JS.

(* ================================================================== *)
(** ** [types.ts] *)

Inductive Subject := PHYSICS | CHEMISTRY | MATHS.

Inductive QuestionType := MCQ | NUMERICAL.

Inductive QuestionStatus :=
| NOT_VISITED
| NOT_ANSWERED
| ANSWERED
| MARKED_FOR_REVIEW
| ANSWERED_AND_MARKED.

Inductive Difficulty := Easy | Medium | Hard | Mixed.

Definition Subject_eqb (a b : Subject) : bool :=
  match a, b with
  | PHYSICS, PHYSICS | CHEMISTRY, CHEMISTRY | MATHS, MATHS => true
  | _, _ => false
  end.

Definition QuestionStatus_eqb (a b : QuestionStatus) : bool :=
  match a, b with
  | NOT_VISITED, NOT_VISITED
  | NOT_ANSWERED, NOT_ANSWERED
  | ANSWERED, ANSWERED
  | MARKED_FOR_REVIEW, MARKED_FOR_REVIEW
  | ANSWERED_AND_MARKED, ANSWERED_AND_MARKED => true
  | _, _ => false
  end.

(** [Question]; the fields that are only displayed (text, options, chapter,
    year, explanation, diagramSvg) play no part in the engines. *)
Record Question := mkQuestion {
  id : jsstring;
  correctAnswer : jsstring;
  type : QuestionType;
  subject : Subject
}.

Record UserResponse := mkUserResponse {
  questionId : jsstring;
  selectedOption : option jsstring;   (* [None] is [null] *)
  status : QuestionStatus;
  timeSpentSeconds : Z
}.

Record TestConfig := mkTestConfig {
  subjects : list Subject;
  chapters : list jsstring;
  questionCount : Z;
  durationMinutes : Z;
  difficulty : Difficulty
}.

Module TestHistoryItem.
Record t := mk {
  id : jsstring;
  date : jsstring;
  score : Z;
  maxScore : Z;
  accuracy : number;
  topics : jsstring;
  config : TestConfig
}.
End TestHistoryItem.

(** Object spread with one field replaced. *)
Definition with_status (r : UserResponse) (st : QuestionStatus) : UserResponse :=
  mkUserResponse (questionId r) (selectedOption r) st (timeSpentSeconds r).

Definition with_selection (r : UserResponse) (sel : option jsstring)
    (st : QuestionStatus) : UserResponse :=
  mkUserResponse (questionId r) sel st (timeSpentSeconds r).

Definition with_timeSpent (r : UserResponse) (t : Z) : UserResponse :=
  mkUserResponse (questionId r) (selectedOption r) (status r) t.

(* ================================================================== *)
(** ** The response table: [Record<string, UserResponse>]

    An object used as a map from question id to response.  Its own keys are
    enumerated in insertion order (question ids are of the form
    [q-<time>-<index>], never array indices), so the table is an association
    list without repeated keys. *)

Module Table.

Definition t := list (jsstring * UserResponse).

(** [tbl[k]] *)
Fixpoint lookup (k : jsstring) (tbl : t) : option UserResponse :=
  match tbl with
  | [] => None
  | (k', v) :: rest => if JS.eqb k k' then Some v else lookup k rest
  end.

(** [tbl[k] = v] and [{...tbl, [k]: v}]: an existing key keeps its place, a
    new key goes last. *)
Fixpoint set (k : jsstring) (v : UserResponse) (tbl : t) : t :=
  match tbl with
  | [] => [(k, v)]
  | (k', v') :: rest =>
      if JS.eqb k k' then (k', v) :: rest else (k', v') :: set k v rest
  end.

(** [Object.values(tbl)] *)
Definition values (tbl : t) : list UserResponse := map snd tbl.

End Table.

(* ================================================================== *)
(** ** [TestInterface.tsx]: the session engine *)

Module TestInterface.

(** The props [questions] and the component state.  [timerResponses] is the
    value of [responses] captured by the [handleFinishTest] that the running
    interval callback holds: the timer effect depends on
    [[currentIndex, questions]] only, so the callback is the one of the
    render at mount or at the last change of [currentIndex].  The flags
    [isPaletteOpen] and [activeTab] steer the display only and are not part
    of this state; what [navigateTo] does to the drawer is [Palette] below. *)
Record State := mkState {
  questions : list Question;
  currentIndex : Z;
  timeLeft : Z;
  responses : Table.t;
  timerResponses : Table.t
}.

(** The initializer of [responses] (lines 21-36). *)
Definition initialResponses (questions : list Question) : Table.t :=
  let initial :=
    fold_left
      (fun initial q =>
         Table.set (id q) (mkUserResponse (id q) None NOT_VISITED 0) initial)
      questions [] in
  match questions with
  | [] => initial
  | q0 :: _ =>
      match Table.lookup (id q0) initial with
      | Some r => Table.set (id q0) (with_status r NOT_ANSWERED) initial
      | None => initial   (* q0 was just entered *)
      end
  end.

(** The state at mount. *)
Definition mount (questions : list Question) (durationMinutes : Z) : State :=
  let initial := initialResponses questions in
  mkState questions 0 (durationMinutes * 60) initial initial.

(** [questions[currentIndex]] *)
Definition currentQuestion (s : State) : option Question :=
  at_index (questions s) (currentIndex s).

(** [handleFinishTest] of the current render: the argument of [onFinish]. *)
Definition handleFinishTest (s : State) : list UserResponse :=
  Table.values (responses s).

(** The updater passed to [setTimeLeft] by the interval callback; the
    second component tells whether it cleared the interval and called
    [handleFinishTest]. *)
Definition timeLeftUpdater (prev : Z) : Z * bool :=
  if prev <=? 1 then (0, true) else (prev - 1, false).

(** The updater passed to [setResponses] by the interval callback. *)
Definition trackTime (s : State) (prev : Table.t) : Table.t :=
  match currentQuestion s with
  | None => prev
  | Some currentQ =>
      match Table.lookup (id currentQ) prev with
      | None => prev
      | Some r =>
          Table.set (id currentQ)
            (with_timeSpent r (timeSpentSeconds r + 1)) prev
      end
  end.

(** One firing of the interval (lines 48-72): the new state and, when the
    time is up, the responses handed to [onFinish], which are the ones the
    interval callback captured. *)
Definition tick (s : State) : State * option (list UserResponse) :=
  let (timeLeft', expired) := timeLeftUpdater (timeLeft s) in
  let s' := mkState (questions s) (currentIndex s) timeLeft'
              (trackTime s (responses s)) (timerResponses s) in
  (s', if expired then Some (Table.values (timerResponses s)) else None).

Definition navigateTo (index : Z) (s : State) : State :=
  match at_index (questions s) index with
  | None => s
  | Some nextQ =>
      let responses' :=
        match Table.lookup (id nextQ) (responses s) with
        | None => responses s
        | Some nextRes =>
            let nextStatus :=
              if QuestionStatus_eqb (status nextRes) NOT_VISITED
              then NOT_ANSWERED else status nextRes in
            Table.set (id nextQ) (with_status nextRes nextStatus) (responses s)
        end in
      (* the timer effect runs again only when [currentIndex] changes *)
      let captured :=
        if index =? currentIndex s then timerResponses s else responses' in
      mkState (questions s) index (timeLeft s) responses' captured
  end.

(** The handlers below start with [questions[currentIndex].id], which
    throws a [TypeError] ([None]) when there is no current question. *)

Definition setResponses (s : State) (responses' : Table.t) : State :=
  mkState (questions s) (currentIndex s) (timeLeft s) responses'
    (timerResponses s).

Definition handleOptionSelect (option_ : jsstring) (s : State) : option State :=
  match currentQuestion s with
  | None => None
  | Some q =>
      let qId := id q in
      Some (setResponses s
        match Table.lookup qId (responses s) with
        | None => responses s
        | Some prev_qId =>
            Table.set qId
              (with_selection prev_qId (Some option_)
                 (if QuestionStatus_eqb (status prev_qId) MARKED_FOR_REVIEW
                  then ANSWERED_AND_MARKED else ANSWERED))
              (responses s)
        end)
  end.

Definition handleNumericalInput (val : jsstring) (s : State) : option State :=
  match currentQuestion s with
  | None => None
  | Some q =>
      let qId := id q in
      Some (setResponses s
        match Table.lookup qId (responses s) with
        | None => responses s
        | Some prev_qId =>
            Table.set qId
              (with_selection prev_qId (Some val)
                 (if 0 <? Z.of_nat (List.length val)
                  then (if QuestionStatus_eqb (status prev_qId) MARKED_FOR_REVIEW
                        then ANSWERED_AND_MARKED else ANSWERED)
                  else NOT_ANSWERED))
              (responses s)
        end)
  end.

Definition handleMarkForReview (s : State) : option State :=
  match currentQuestion s with
  | None => None
  | Some q =>
      let qId := id q in
      match Table.lookup qId (responses s) with
      | None => Some s
      | Some currentRes =>
          let newStatus := MARKED_FOR_REVIEW in
          let newStatus :=
            match selectedOption currentRes with
            | Some sel => if truthy sel then ANSWERED_AND_MARKED else newStatus
            | None => newStatus
            end in
          let newStatus :=
            if QuestionStatus_eqb (status currentRes) MARKED_FOR_REVIEW
            then NOT_ANSWERED
            else if QuestionStatus_eqb (status currentRes) ANSWERED_AND_MARKED
            then ANSWERED
            else newStatus in
          Some (setResponses s
                  (Table.set qId (with_status currentRes newStatus)
                     (responses s)))
      end
  end.

Definition handleClearResponse (s : State) : option State :=
  match currentQuestion s with
  | None => None
  | Some q =>
      let qId := id q in
      Some (setResponses s
        match Table.lookup qId (responses s) with
        | None => responses s
        | Some prev_qId =>
            Table.set qId
              (with_selection prev_qId None
                 (if QuestionStatus_eqb (status prev_qId) ANSWERED_AND_MARKED
                  then MARKED_FOR_REVIEW else NOT_ANSWERED))
              (responses s)
        end)
  end.

(** [questions.findIndex(q => q.subject === subject)] *)
Fixpoint findIndex (p : Question -> bool) (l : list Question) : Z :=
  match l with
  | [] => -1
  | q :: l' =>
      if p q then 0
      else let i := findIndex p l' in if i =? -1 then -1 else i + 1
  end.

Definition handleTabChange (subject_ : Subject) (s : State) : State :=
  let index := findIndex (fun q => Subject_eqb (subject q) subject_) (questions s) in
  if negb (index =? -1) then navigateTo index s else s.

Inductive Key := ArrowRight | ArrowLeft.

Definition handleKeyDown (key : Key) (s : State) : State :=
  match key with
  | ArrowRight =>
      navigateTo (Z.min (Z.of_nat (List.length (questions s)) - 1) (currentIndex s + 1)) s
  | ArrowLeft => navigateTo (Z.max 0 (currentIndex s - 1)) s
  end.

End TestInterface.

(* ================================================================== *)
(** ** [ResultScreen.tsx]: the scoring engine *)

Module ResultScreen.

(** The [status] of an analysed question: ['correct' | 'wrong' | 'skipped']. *)
Inductive Outcome := Correct | Wrong | Skipped.

(** The counters the [questions.map] callback updates (lines 26-30). *)
Record Counters := mkCounters {
  correct : Z;
  incorrect : Z;
  score : Z;
  unattempted : Z;
  totalTime : Z
}.

Definition zero : Counters := mkCounters 0 0 0 0 0.

(** The answer check of lines 43-49 for a response with a selection. *)
Definition isCorrect (q : Question) (selected : jsstring) : bool :=
  match type q with
  | MCQ => JS.eqb selected (correctAnswer q)
  | NUMERICAL => JS.eqb (trim selected) (trim (correctAnswer q))
  end.

(** [responses.find(r => r.questionId === q.id)] *)
Definition responseOf (responses : list UserResponse) (q : Question)
    : option UserResponse :=
  JS.find (fun r => JS.eqb (questionId r) (id q)) responses.

(** The selection that the check of line 41 lets through:
    [res && res.selectedOption !== null]. *)
Definition selectionOf (res : option UserResponse) : option jsstring :=
  match res with
  | Some r => selectedOption r
  | None => None
  end.

(** The outcome the callback assigns to [q]. *)
Definition outcome (responses : list UserResponse) (q : Question) : Outcome :=
  match selectionOf (responseOf responses q) with
  | Some selected => if isCorrect q selected then Correct else Wrong
  | None => Skipped
  end.

(** One run of the callback of [questions.map] on the counters. *)
Definition analyze (responses : list UserResponse) (c : Counters)
    (q : Question) : Counters :=
  let res := responseOf responses q in
  let timeSpent :=
    match res with Some r => timeSpentSeconds r | None => 0 end in
  let totalTime' := totalTime c + timeSpent in
  match selectionOf res with
  | Some selected =>
      if isCorrect q selected
      then mkCounters (correct c + 1) (incorrect c) (score c + 4)
             (unattempted c) totalTime'
      else mkCounters (correct c) (incorrect c + 1) (score c - 1)
             (unattempted c) totalTime'
  | None =>
      mkCounters (correct c) (incorrect c) (score c) (unattempted c + 1)
        totalTime'
  end.

Definition counters (questions : list Question)
    (responses : list UserResponse) : Counters :=
  fold_left (analyze responses) questions zero.

(** [analyzedQuestions]: each question with its outcome. *)
Definition analyzedQuestions (questions : list Question)
    (responses : list UserResponse) : list (Question * Outcome) :=
  map (fun q => (q, outcome responses q)) questions.

(** [attempted > 0 ? Math.round((correct / attempted) * 100) : 0] *)
Definition accuracyOf (correct attempted : Z) : number :=
  if 0 <? attempted
  then Math_round (mul (div (of_Z correct) (of_Z attempted)) (of_Z 100))
  else of_Z 0.

(** The values derived at lines 67-71. *)
Record Report := mkReport {
  totalQuestions : Z;
  attempted : Z;
  r_correct : Z;
  r_incorrect : Z;
  r_unattempted : Z;
  r_score : Z;
  maxScore : Z;
  accuracy : number;
  percentage : number
}.

Definition report (questions : list Question)
    (responses : list UserResponse) : Report :=
  let c := counters questions responses in
  let totalQuestions := Z.of_nat (List.length questions) in
  let attempted := correct c + incorrect c in
  let maxScore := totalQuestions * 4 in
  mkReport totalQuestions attempted (correct c) (incorrect c) (unattempted c)
    (score c) maxScore
    (accuracyOf (correct c) attempted)
    (Math_round (mul (div (of_Z (score c)) (of_Z maxScore)) (of_Z 100))).

(** The titles [getVerdict] can return. *)
Inductive Verdict :=
| Godlike
| ExcellentPerformance
| CautiousSniper
| GuessworkHazard
| CriticalCondition
| BalancedEffort.

Definition getVerdict (r : Report) : Verdict :=
  if r_score r =? maxScore r then Godlike
  else if gt (accuracy r) (of_Z 85) && gt (percentage r) (of_Z 70)
  then ExcellentPerformance
  else if gt (accuracy r) (of_Z 85) && lt (percentage r) (of_Z 50)
  then CautiousSniper
  else if lt (accuracy r) (of_Z 60)
          && gt (of_Z (attempted r)) (mul (of_Z (totalQuestions r)) lit_0_8)
  then GuessworkHazard
  else if r_score r <? 0 then CriticalCondition
  else BalancedEffort.

End ResultScreen.

(* ================================================================== *)
(** ** [App.tsx]: start of a test, end of a test, history *)

Module App.

Inductive AppView :=
| ViewHome | ViewConfig | ViewLoading | ViewTest | ViewResult | ViewHistory.

(** The state of [App] that the test flow reads or writes. *)
Record State := mkState {
  view : AppView;
  isFullSyllabus : bool;
  config : TestConfig;
  questions : list Question;
  responses : list UserResponse;
  error : option jsstring;
  testHistory : list TestHistoryItem.t
}.

(** What a handler does: the state setters it calls, in order, and the
    writes of [localStorage] under the key ['jee_genius_history']. *)
Inductive Effect :=
| setView (v : AppView)
| setError (e : option jsstring)
| setQuestions (qs : list Question)
| setConfig (c : TestConfig)
| setResponses (rs : list UserResponse)
| setTestHistory (h : list TestHistoryItem.t)
| localStorage_setItem (h : list TestHistoryItem.t).

(** [Date.now()] and [new Date().toLocaleDateString()] at a call. *)
Record Clock := mkClock { now : Z; localeDate : jsstring }.

(** How the promise of [generateQuestions] settles. *)
Inductive Generated :=
| Resolved (generatedQuestions : list Question)
| Rejected (err : Error).

Definition saveHistory (newHistory : list TestHistoryItem.t) : list Effect :=
  let cappedHistory := firstn 50 newHistory in
  [setTestHistory cappedHistory; localStorage_setItem cappedHistory].

(** [startTest]: the effects before the [await] and the effects after it.
    [st] is the state of the render whose [startTest] is called. *)
Definition startTest (st : State) (testConfig : TestConfig)
    (generated : Generated) : list Effect * list Effect :=
  let finalConfig :=
    mkTestConfig (subjects testConfig)
      (if isFullSyllabus st then [] else chapters testConfig)
      (questionCount testConfig) (durationMinutes testConfig)
      (difficulty testConfig) in
  let try : list Effect + Error :=
    match generated with
    | Resolved generatedQuestions =>
        if Z.of_nat (List.length generatedQuestions) =? 0
        then inr (mkError (js "No questions were generated. Please try again."))
        else inl [setQuestions generatedQuestions; setConfig finalConfig;
                  setView ViewTest]
    | Rejected err => inr err
    end in
  ([setView ViewLoading; setError None],
   match try with
   | inl done => done
   | inr err =>
       [setError (Some (if truthy (message err) then message err
                        else js "Something went wrong."));
        setView ViewConfig]
   end).

(** The loop of lines 161-176: [correct] and [score]. *)
Definition summarize (userResponses : list UserResponse)
    (acc : Z * Z) (q : Question) : Z * Z :=
  let '(correct, score) := acc in
  match JS.find (fun res => JS.eqb (questionId res) (id q)) userResponses with
  | Some r =>
      match selectedOption r with
      | Some selected =>
          let isCorrect :=
            match type q with
            | MCQ => JS.eqb selected (correctAnswer q)
            | NUMERICAL => JS.eqb (trim selected) (trim (correctAnswer q))
            end in
          if isCorrect then (correct + 1, score + 4) else (correct, score - 1)
      | None => (correct, score)
      end
  | None => (correct, score)
  end.

Definition isAnswered (r : UserResponse) : bool :=
  match selectedOption r with Some _ => true | None => false end.

(** The history entry built at lines 161-191. *)
Definition historyItem (st : State) (clock : Clock)
    (userResponses : list UserResponse) : TestHistoryItem.t :=
  let '(correct, score) :=
    fold_left (summarize userResponses) (questions st) (0, 0) in
  let maxScore := Z.of_nat (List.length (questions st)) * 4 in
  let answered := Z.of_nat (List.length (filter isAnswered userResponses)) in
  let accuracy :=
    if 0 <? answered
    then Math_round (mul (div (of_Z correct) (of_Z answered)) (of_Z 100))
    else of_Z 0 in
  let chapterCount := Z.of_nat (List.length (chapters (config st))) in
  TestHistoryItem.mk
    (toString (now clock)) (localeDate clock) score maxScore accuracy
    (if 0 <? chapterCount then toString chapterCount ++ js " Chapters"
     else js "Full Syllabus")
    (config st).

(** [handleTestFinish] of the render with state [st]. *)
Definition handleTestFinish (st : State) (clock : Clock)
    (userResponses : list UserResponse) : list Effect :=
  [setResponses userResponses]
  ++ saveHistory (historyItem st clock userResponses :: testHistory st)
  ++ [setView ViewResult].

End App.

(* ================================================================== *)
(** ** The running program: [App], [localStorage] and the mounted test *)

Module Program.

Import App.

(** [session] is the state of the mounted [TestInterface], which [App]
    renders exactly when [view] is ['test']. *)
Record System := mkSystem {
  app : App.State;
  localStorage : option (list TestHistoryItem.t);
  session : option TestInterface.State
}.

Definition perform (w : App.State * option (list TestHistoryItem.t))
    (e : Effect) : App.State * option (list TestHistoryItem.t) :=
  let (st, stored) := w in
  match e with
  | setView v =>
      (mkState v (isFullSyllabus st) (config st) (questions st) (responses st)
         (error st) (testHistory st), stored)
  | setError e =>
      (mkState (view st) (isFullSyllabus st) (config st) (questions st)
         (responses st) e (testHistory st), stored)
  | setQuestions qs =>
      (mkState (view st) (isFullSyllabus st) (config st) qs (responses st)
         (error st) (testHistory st), stored)
  | setConfig c =>
      (mkState (view st) (isFullSyllabus st) c (questions st) (responses st)
         (error st) (testHistory st), stored)
  | setResponses rs =>
      (mkState (view st) (isFullSyllabus st) (config st) (questions st) rs
         (error st) (testHistory st), stored)
  | setTestHistory h =>
      (mkState (view st) (isFullSyllabus st) (config st) (questions st)
         (responses st) (error st) h, stored)
  | localStorage_setItem h => (st, Some h)
  end.

(** The render of [App] after a state change (lines 251-254): the test
    interface is kept while the view is ['test'], mounted when the view
    becomes ['test'], and unmounted otherwise. *)
Definition render (mounted : option TestInterface.State) (st : App.State)
    : option TestInterface.State :=
  match view st with
  | ViewTest =>
      match mounted with
      | Some s => Some s
      | None =>
          Some (TestInterface.mount (questions st) (durationMinutes (config st)))
      end
  | _ => None
  end.

(** A batch of effects followed by the render. *)
Definition commit (effects : list Effect) (sys : System) : System :=
  let (st, stored) := fold_left perform effects (app sys, localStorage sys) in
  mkSystem st stored (render (session sys) st).

Definition withSession (sys : System) (s : TestInterface.State) : System :=
  mkSystem (app sys) (localStorage sys) (Some s).

(** What can happen to the program. *)
Inductive Event :=
| StartTest (testConfig : TestConfig) (generated : Generated)
| Tick (clock : Clock)
| NavigateTo (index : Z)
| KeyDown (key : TestInterface.Key)
| TabChange (subject_ : Subject)
| OptionSelect (option_ : jsstring)
| NumericalInput (val : jsstring)
| MarkForReview
| ClearResponse
| SubmitTest (clock : Clock).

(** The calls of [onFinish], by origin. *)
Inductive Signal :=
| Expired (userResponses : list UserResponse)
| Submitted (userResponses : list UserResponse).

(** A handler that threw before any state update leaves the state as it is. *)
Definition orElse (s : TestInterface.State) (r : option TestInterface.State)
    : TestInterface.State :=
  match r with Some s' => s' | None => s end.

(** One event.  The timer and the controls of the test exist only while the
    test interface is mounted. *)
Definition step (sys : System) (e : Event) : System * list Signal :=
  match e with
  | StartTest testConfig generated =>
      let (before, after) := startTest (app sys) testConfig generated in
      (commit after (commit before sys), [])
  | _ =>
      match session sys with
      | None => (sys, [])
      | Some s =>
          match e with
          | Tick clock =>
              let (s', finished) := TestInterface.tick s in
              match finished with
              | Some userResponses =>
                  (commit (handleTestFinish (app sys) clock userResponses)
                     (withSession sys s'),
                   [Expired userResponses])
              | None => (withSession sys s', [])
              end
          | SubmitTest clock =>
              let userResponses := TestInterface.handleFinishTest s in
              (commit (handleTestFinish (app sys) clock userResponses) sys,
               [Submitted userResponses])
          | NavigateTo index =>
              (withSession sys (TestInterface.navigateTo index s), [])
          | KeyDown key =>
              (withSession sys (TestInterface.handleKeyDown key s), [])
          | TabChange subject_ =>
              (withSession sys (TestInterface.handleTabChange subject_ s), [])
          | OptionSelect option_ =>
              (withSession sys
                 (orElse s (TestInterface.handleOptionSelect option_ s)), [])
          | NumericalInput val =>
              (withSession sys
                 (orElse s (TestInterface.handleNumericalInput val s)), [])
          | MarkForReview =>
              (withSession sys (orElse s (TestInterface.handleMarkForReview s)),
               [])
          | ClearResponse =>
              (withSession sys (orElse s (TestInterface.handleClearResponse s)),
               [])
          | StartTest _ _ => (sys, [])
          end
      end
  end.

Fixpoint run (sys : System) (events : list Event) : System * list Signal :=
  match events with
  | [] => (sys, [])
  | e :: rest =>
      let (sys', out) := step sys e in
      let (sys'', out') := run sys' rest in
      (sys'', out ++ out')
  end.

Definition isTick (e : Event) : bool :=
  match e with Tick _ => true | _ => false end.

Definition isExpired (sg : Signal) : bool :=
  match sg with Expired _ => true | Submitted _ => false end.

(** The events that neither start nor submit a test. *)
Definition inSession (e : Event) : bool :=
  match e with StartTest _ _ | SubmitTest _ => false | _ => true end.

End Program.

(* ================================================================== *)
(** ** A program to run: the initial state of [App] and sample data *)

Module Sample.

Import App Program.

(** The initial [config] of [App] (lines 42-48). *)
Definition defaultConfig : TestConfig :=
  mkTestConfig [PHYSICS; CHEMISTRY; MATHS] [] 15 45 Mixed.

(** The program at the first render of [App]: the home view, an empty
    [localStorage], nothing mounted. *)
Definition boot : System :=
  mkSystem (mkState ViewHome false defaultConfig [] [] None []) None None.

Definition clock1 : Clock := mkClock 1762117200000 (js "11/2/2026").
Definition clock2 : Clock := mkClock 1762117200750 (js "11/2/2026").

Definition numericalQ : Question :=
  mkQuestion (js "q-1762117100000-0") (js "5.4") NUMERICAL PHYSICS.

Definition mcqQ : Question :=
  mkQuestion (js "q-1762117100000-1") (js "2") MCQ CHEMISTRY.

(** A paper of [n] MCQs whose right answer is option 2, and an answer sheet
    for it: the first [right] questions answered 2, the next [wrong] ones
    answered 0, the next [blank] ones left without a selection. *)
Definition question (i : nat) : Question :=
  mkQuestion (js "q-1762117100000-" ++ toString (Z.of_nat i)) (js "2") MCQ
    PHYSICS.

Definition paper (n : nat) : list Question := map question (seq 0 n).

Definition answer (sel : option jsstring) (i : nat) : UserResponse :=
  mkUserResponse (id (question i)) sel
    (match sel with Some _ => ANSWERED | None => NOT_ANSWERED end) 30.

Definition sheet (right wrong blank : nat) : list UserResponse :=
  map (answer (Some (js "2"))) (seq 0 right)
  ++ map (answer (Some (js "0"))) (seq right wrong)
  ++ map (answer None) (seq (right + wrong) blank).

End Sample.


(* ================================================================== *)
(** ** Measures used in the statements *)

Module Scoring.

Import ResultScreen.

Definition Outcome_eqb (a b : Outcome) : bool :=
  match a, b with
  | Correct, Correct | Wrong, Wrong | Skipped, Skipped => true
  | _, _ => false
  end.

(** The number of questions with a given outcome. *)
Fixpoint countOutcome (o : Outcome) (responses : list UserResponse)
    (questions : list Question) : Z :=
  match questions with
  | [] => 0
  | q :: rest =>
      (if Outcome_eqb (outcome responses q) o then 1 else 0)
      + countOutcome o responses rest
  end.

End Scoring.

(** The verdict bands in the order of the specification: perfect score;
    high accuracy and high score; high accuracy and low score; low accuracy
    with a high attempt rate; negative score.  The thresholds are those of
    [getVerdict]. *)
Module Bands.

Import ResultScreen.

Definition perfectScore (r : Report) : bool := r_score r =? maxScore r.
Definition highAccuracy (r : Report) : bool := gt (accuracy r) (of_Z 85).
Definition highScore (r : Report) : bool := gt (percentage r) (of_Z 70).
Definition lowScore (r : Report) : bool := lt (percentage r) (of_Z 50).
Definition lowAccuracy (r : Report) : bool := lt (accuracy r) (of_Z 60).
Definition highAttemptRate (r : Report) : bool :=
  gt (of_Z (attempted r)) (mul (of_Z (totalQuestions r)) lit_0_8).
Definition negativeScore (r : Report) : bool := r_score r <? 0.

Definition Band : Type := (Report -> bool) * Verdict.

Definition bands : list Band :=
  [ (perfectScore, Godlike);
    ((fun r => highAccuracy r && highScore r), ExcellentPerformance);
    ((fun r => highAccuracy r && lowScore r), CautiousSniper);
    ((fun r => lowAccuracy r && highAttemptRate r), GuessworkHazard);
    (negativeScore, CriticalCondition) ].

(** The verdict of the first band that matches, else the default. *)
Fixpoint firstMatch (bs : list Band) (r : Report) : Verdict :=
  match bs with
  | [] => BalancedEffort
  | (matches, verdict) :: rest =>
      if matches r then verdict else firstMatch rest r
  end.

End Bands.

(** Measures on runs of the program and on tables. *)
Module Measures.

Import Program.

(** The number of firings of the timer among the events. *)
Definition ticksOf (events : list Event) : Z :=
  Z.of_nat (List.length (filter isTick events)).

(** The number of [expired] signals among the calls of [onFinish]. *)
Definition expirations (out : list Signal) : Z :=
  Z.of_nat (List.length (filter isExpired out)).

(** The events that do not start another test. *)
Definition sameTest (e : Event) : bool :=
  match e with StartTest _ _ => false | _ => true end.

(** The sum of [timeSpentSeconds] over the response table. *)
Fixpoint totalTimeSpent (tbl : Table.t) : Z :=
  match tbl with
  | [] => 0
  | (_, r) :: rest => timeSpentSeconds r + totalTimeSpent rest
  end.

(** The state of the mounted test interface after an event that leaves it
    mounted. *)
Definition sessionAfter (e : Event) (s : TestInterface.State)
    : TestInterface.State :=
  match e with
  | Tick _ => fst (TestInterface.tick s)
  | NavigateTo index => TestInterface.navigateTo index s
  | KeyDown key => TestInterface.handleKeyDown key s
  | TabChange subject_ => TestInterface.handleTabChange subject_ s
  | OptionSelect option_ =>
      orElse s (TestInterface.handleOptionSelect option_ s)
  | NumericalInput val => orElse s (TestInterface.handleNumericalInput val s)
  | MarkForReview => orElse s (TestInterface.handleMarkForReview s)
  | ClearResponse => orElse s (TestInterface.handleClearResponse s)
  | StartTest _ _ | SubmitTest _ => s
  end.

(** A test interface for the questions [qs] that shows a question, with an
    entry in the table for every question. *)
Definition ready (qs : list Question) (s : TestInterface.State) : Prop :=
  TestInterface.questions s = qs
  /\ (exists q, TestInterface.currentQuestion s = Some q)
  /\ (forall q, In q qs ->
                Table.lookup (id q) (TestInterface.responses s) <> None).

(** Exactly one response per question, with matching ids: the ids of the
    responses are the ids of the questions, each of them once. *)
Definition oneResponsePerQuestion (questions : list Question)
    (responses : list UserResponse) : Prop :=
  NoDup (map id questions)
  /\ Permutation (map questionId responses) (map id questions).

End Measures.

(* ================================================================== *)
(** ** The status model as a function of one entry

    Every event of a test rewrites at most one entry of the table, the one
    of its target question, by a function of that entry alone. *)

Module StatusModel.

Import Program.

(** The visit of [navigateTo] (lines 91-93). *)
Definition visit (r : UserResponse) : UserResponse :=
  with_status r
    (if QuestionStatus_eqb (status r) NOT_VISITED then NOT_ANSWERED
     else status r).

(** The entry written by the updater of each event. *)
Definition entryAfter (e : Event) (r : UserResponse) : UserResponse :=
  match e with
  | Tick _ => with_timeSpent r (timeSpentSeconds r + 1)
  | NavigateTo _ | KeyDown _ | TabChange _ => visit r
  | OptionSelect option_ =>
      with_selection r (Some option_)
        (if QuestionStatus_eqb (status r) MARKED_FOR_REVIEW
         then ANSWERED_AND_MARKED else ANSWERED)
  | NumericalInput val =>
      with_selection r (Some val)
        (if 0 <? Z.of_nat (List.length val)
         then (if QuestionStatus_eqb (status r) MARKED_FOR_REVIEW
               then ANSWERED_AND_MARKED else ANSWERED)
         else NOT_ANSWERED)
  | MarkForReview =>
      with_status r
        (if QuestionStatus_eqb (status r) MARKED_FOR_REVIEW then NOT_ANSWERED
         else if QuestionStatus_eqb (status r) ANSWERED_AND_MARKED
         then ANSWERED
         else match selectedOption r with
              | Some sel =>
                  if truthy sel then ANSWERED_AND_MARKED
                  else MARKED_FOR_REVIEW
              | None => MARKED_FOR_REVIEW
              end)
  | ClearResponse =>
      with_selection r None
        (if QuestionStatus_eqb (status r) ANSWERED_AND_MARKED
         then MARKED_FOR_REVIEW else NOT_ANSWERED)
  | StartTest _ _ | SubmitTest _ => r
  end.

(** The index an event navigates to, if it navigates. *)
Definition destination (e : Event) (s : TestInterface.State) : option Z :=
  match e with
  | NavigateTo index => Some index
  | KeyDown TestInterface.ArrowRight =>
      Some (Z.min (Z.of_nat (List.length (TestInterface.questions s)) - 1)
              (TestInterface.currentIndex s + 1))
  | KeyDown TestInterface.ArrowLeft =>
      Some (Z.max 0 (TestInterface.currentIndex s - 1))
  | TabChange subject_ =>
      let index :=
        TestInterface.findIndex (fun q => Subject_eqb (subject q) subject_)
          (TestInterface.questions s) in
      if negb (index =? -1) then Some index else None
  | _ => None
  end.

(** The question whose entry an event rewrites. *)
Definition target (e : Event) (s : TestInterface.State) : option Question :=
  match e with
  | StartTest _ _ | SubmitTest _ => None
  | NavigateTo _ | KeyDown _ | TabChange _ =>
      match destination e s with
      | Some index => at_index (TestInterface.questions s) index
      | None => None
      end
  | _ => TestInterface.currentQuestion s
  end.

(** The statuses that show an answer. *)
Definition showsAnswer (st : QuestionStatus) : bool :=
  match st with
  | ANSWERED | ANSWERED_AND_MARKED => true
  | _ => false
  end.

(** A selection that counts as one for the interface: a non-empty string. *)
Definition hasSelection (r : UserResponse) : bool :=
  match selectedOption r with
  | Some sel => truthy sel
  | None => false
  end.

(** An entry whose status agrees with its selection, and which has neither
    selection nor time while it is not visited. *)
Definition coherent (r : UserResponse) : Prop :=
  showsAnswer (status r) = hasSelection r
  /\ (status r = NOT_VISITED ->
      selectedOption r = None /\ timeSpentSeconds r = 0).

(** The events a candidate can cause: the option buttons pass the index of
    an option, never the empty string. *)
Definition fromControls (e : Event) : bool :=
  match e with
  | OptionSelect option_ => truthy option_
  | StartTest _ _ => false
  | _ => true
  end.

(** The events that leave the current question where it is. *)
Definition stationary (e : Event) : bool :=
  match e with
  | Tick _ | OptionSelect _ | NumericalInput _ | MarkForReview
  | ClearResponse => true
  | _ => false
  end.

(** The entry of the question on display, if any, is a visited one. *)
Definition currentVisited (s : TestInterface.State) : Prop :=
  forall q r,
    TestInterface.currentQuestion s = Some q ->
    Table.lookup (id q) (TestInterface.responses s) = Some r ->
    status r <> NOT_VISITED.

(** A property of every entry of the table. *)
Definition allEntries (P : UserResponse -> Prop) (tbl : Table.t) : Prop :=
  Forall (fun kv => P (snd kv)) tbl.

(** Every entry of the table is filed under its own [questionId]. *)
Definition keyed (tbl : Table.t) : Prop :=
  Forall (fun kv => questionId (snd kv) = fst kv) tbl.

End StatusModel.

(** The drawer of the question palette (lines 17, 102): [navigateTo]
    closes it, unless it returned early on an index without a question. *)
Module Palette.

Definition isPaletteOpenAfter (index : Z) (s : TestInterface.State)
    (isPaletteOpen : bool) : bool :=
  match at_index (TestInterface.questions s) index with
  | None => isPaletteOpen
  | Some _ => false
  end.

End Palette.

(** The percentage of the specification, on exact fractions. *)
Module Percent.

(** [round(correct / attempted * 100)] on the exact quotient, a half
    rounded up as [Math.round] rounds it. *)
Definition roundedPercent (correct attempted : Z) : Z :=
  (200 * correct + attempted) / (2 * attempted).

(** The exact percentage lies half-way between two integers. *)
Definition isTie (correct attempted : Z) : bool :=
  (200 * correct) mod (2 * attempted) =? attempted.

(** The same number, bit for bit. *)
Definition same (x y : number) : bool :=
  match x, y with
  | S754_zero s, S754_zero s' => Bool.eqb s s'
  | S754_infinity s, S754_infinity s' => Bool.eqb s s'
  | S754_nan, S754_nan => true
  | S754_finite s m e, S754_finite s' m' e' =>
      Bool.eqb s s' && Pos.eqb m m' && Z.eqb e e'
  | _, _ => false
  end.

(** The accuracy of the code against the exact percentage, for every
    number of correct answers out of [attempted]: equal, or at a tie one
    less. *)
Definition accuracyChecked (attempted : nat) : bool :=
  forallb
    (fun correct : nat =>
       let c := Z.of_nat correct in
       let a := Z.of_nat attempted in
       same (ResultScreen.accuracyOf c a) (of_Z (roundedPercent c a))
       || (isTie c a
           && same (ResultScreen.accuracyOf c a)
                (of_Z (roundedPercent c a - 1))))
    (seq 0 (S attempted)).

End Percent.

(** A short test to run the statements on: two questions, one minute. *)
Module Walkthrough.

Import App Program Measures.

Definition cfg : TestConfig := mkTestConfig [PHYSICS] [] 2 1 Mixed.

Definition started : System :=
  fst (step Sample.boot (StartTest cfg (Resolved (Sample.paper 2)))).

Definition events : list Event :=
  [Tick Sample.clock1; OptionSelect (js "2"); MarkForReview;
   NavigateTo 1; Tick Sample.clock1; NumericalInput (js "7");
   NumericalInput (js ""); Tick Sample.clock1].

Definition after : TestInterface.State :=
  fold_left (fun s e => sessionAfter e s) events
    (TestInterface.mount (Sample.paper 2) 1).

End Walkthrough.

(** The sum of a list of integers. *)
Fixpoint sumList (l : list Z) : Z :=
  match l with
  | [] => 0
  | x :: rest => x + sumList rest
  end.

(* ================================================================== *)
(** ** [services/geminiService.ts]: the request plan and the assembly of
    the questions

    The call of the model is outside: what it answers to a batch request is
    an input, [None] when the call or the parsing of its answer throws. *)

Module GeminiService.

(** [Math.floor]; NaN, the infinities, the zeros and the integers are
    returned as they are. *)
Definition Math_floor (x : number) : number :=
  match x with
  | S754_finite s m e =>
      if 0 <=? e then x
      else
        let d := 2 ^ (- e) in
        let v := if s then - Z.pos m else Z.pos m in
        binary_normalize prec emax (v / d) 0 s
  | _ => x
  end.

(** The integer that an integer-valued number holds. *)
Definition toInteger (x : number) : Z :=
  match x with
  | S754_finite s m e =>
      let v := if s then - Z.pos m else Z.pos m in
      if 0 <=? e then v * 2 ^ e else v / 2 ^ (- e)
  | _ => 0
  end.

(** [distributeCount] (lines 78-86).  [Math.floor(total / parts)] and
    [total % parts] on integers are the floored quotient and the remainder
    with the sign of [total]; the loop adds one to the first [remainder]
    slots. *)
Definition distributeCount (total : Z) (parts : nat) : list Z :=
  let base := total / Z.of_nat parts in
  let remainder := Z.rem total (Z.of_nat parts) in
  map (fun i => if Z.of_nat i <? remainder then base + 1 else base)
    (seq 0 parts).

(** The split of a subject's share (lines 215-216): 80% MCQ, at least one. *)
Definition totalMcq (subTotal : Z) : Z :=
  Z.max 1 (toInteger (Math_floor (mul (of_Z subTotal) lit_0_8))).

Definition totalNum (subTotal : Z) : Z :=
  Z.max 0 (subTotal - totalMcq subTotal).

Definition BATCH_SIZE : Z := 10.

(** The sizes of the batches that one [while] loop requests (lines 227-232
    and 235-240). *)
Function batchSizes (remaining : Z) {measure Z.to_nat remaining} : list Z :=
  if 0 <? remaining
  then let currentBatchSize := Z.min remaining BATCH_SIZE in
       currentBatchSize :: batchSizes (remaining - currentBatchSize)
  else [].
Proof.
  intros remaining H. apply Z.ltb_lt in H. unfold BATCH_SIZE. lia.
Defined.

(** A batch request: [generateBatch(subject, mcqCount, numCount, ...)]. *)
Record Request := mkRequest {
  req_subject : Subject;
  mcqCount : Z;
  numCount : Z
}.

(** The requests of one subject: its MCQ batches, then its numerical ones. *)
Definition subjectRequests (sub : Subject) (subTotal : Z) : list Request :=
  map (fun size => mkRequest sub size 0) (batchSizes (totalMcq subTotal))
  ++ map (fun size => mkRequest sub 0 size) (batchSizes (totalNum subTotal)).

Section WithSyllabus.

(** [SYLLABUS] of [constants.ts]: the chapters of each subject. *)
Variable SYLLABUS : Subject -> list jsstring.

(** The requests that [generateQuestions] makes (lines 194-242), in order. *)
Definition requests (config : TestConfig) : list Request :=
  let activeSubjects := subjects config in
  if Z.of_nat (List.length activeSubjects) =? 0 then []
  else
    let counts :=
      distributeCount (questionCount config) (List.length activeSubjects) in
    flat_map
      (fun '(sub, subTotal) =>
         if subTotal =? 0 then []
         else
           let subChapters :=
             filter (fun c => existsb (JS.eqb c) (SYLLABUS sub))
               (chapters config) in
           if (0 <? Z.of_nat (List.length (chapters config)))
              && (Z.of_nat (List.length subChapters) =? 0)
           then []
           else subjectRequests sub subTotal)
      (combine activeSubjects counts).

End WithSyllabus.

(** A question as the model returns it: any field may be missing. *)
Record PartialQuestion := mkPartial {
  p_correctAnswer : option jsstring;
  p_type : option QuestionType;
  p_subject : option Subject
}.

Definition hasType (t : QuestionType) (q : PartialQuestion) : bool :=
  match p_type q, t with
  | Some MCQ, MCQ | Some NUMERICAL, NUMERICAL => true
  | _, _ => false
  end.

(** [l.slice(0, n)] *)
Definition slice0 {A : Type} (n : Z) (l : list A) : list A :=
  if 0 <=? n then firstn (Z.to_nat n) l
  else firstn (List.length l - Z.to_nat (- n)) l.

(** What [generateBatch] returns (lines 176-190): the first [mcqCount] MCQs
    of the answer, then its first [numCount] numericals; nothing when the
    call or the parsing threw. *)
Definition generateBatch (reply : option (list PartialQuestion))
    (request : Request) : list PartialQuestion :=
  match reply with
  | Some questions =>
      slice0 (mcqCount request) (filter (hasType MCQ) questions)
      ++ slice0 (numCount request) (filter (hasType NUMERICAL) questions)
  | None => []
  end.

(** The completion of lines 248-256; [now idx] is [Date.now()] at the
    element of index [idx]. *)
Definition complete (firstSubject : Subject) (now : nat -> Z) (idx : nat)
    (q : PartialQuestion) : Question :=
  mkQuestion
    (js "q-" ++ toString (now idx) ++ js "-" ++ toString (Z.of_nat idx))
    (match p_correctAnswer q with
     | Some a => if truthy a then a else js "0"
     | None => js "0"
     end)
    (match p_type q with Some t => t | None => MCQ end)
    (match p_subject q with Some s => s | None => firstSubject end).

(** [results.flat().map((q, idx) => ...)] *)
Definition assemble (firstSubject : Subject) (now : nat -> Z)
    (results : list (list PartialQuestion)) : list Question :=
  let flat := List.concat results in
  map (fun '(idx, q) => complete firstSubject now idx q)
    (combine (seq 0 (List.length flat)) flat).

(** [generateQuestions]: [replies] are the answers to the requests, in the
    order of the requests. *)
Definition generateQuestions (SYLLABUS : Subject -> list jsstring)
    (config : TestConfig) (now : nat -> Z)
    (replies : list (option (list PartialQuestion))) : list Question :=
  match subjects config with
  | [] => []
  | firstSubject :: _ =>
      assemble firstSubject now
        (map (fun '(request, reply) => generateBatch reply request)
           (combine (requests SYLLABUS config) replies))
  end.

End GeminiService.

(* ================================================================== *)
(** ** [App.tsx]: the chapter selection of the configuration view *)

Module ConfigView.

Definition withChapters (prev : TestConfig) (chapters' : list jsstring)
    : TestConfig :=
  mkTestConfig (subjects prev) chapters' (questionCount prev)
    (durationMinutes prev) (difficulty prev).

Definition includes (l : list jsstring) (c : jsstring) : bool :=
  existsb (JS.eqb c) l.

(** [toggleChapter] (lines 316-325) as a function of the configuration. *)
Definition toggleChapter (isFullSyllabus : bool) (ch : jsstring)
    (prev : TestConfig) : TestConfig :=
  if isFullSyllabus then prev
  else
    let exists_ := includes (chapters prev) ch in
    withChapters prev
      (if exists_
       then filter (fun c => negb (JS.eqb c ch)) (chapters prev)
       else chapters prev ++ [ch]).

(** [handleSubjectAll] (lines 327-337); [SYLLABUS] is the table of
    [constants.ts]. *)
Definition handleSubjectAll (SYLLABUS : Subject -> list jsstring)
    (isFullSyllabus : bool) (sub : Subject) (select : bool)
    (prev : TestConfig) : TestConfig :=
  if isFullSyllabus then prev
  else
    let subChapters := SYLLABUS sub in
    let otherChapters :=
      filter (fun c => negb (includes subChapters c)) (chapters prev) in
    withChapters prev
      (if select then otherChapters ++ subChapters else otherChapters).

(** The effect on [questionsPerSubject] (lines 72-85) as a function of the
    configuration. *)
Definition questionsPerSubjectEffect (questionsPerSubject : Z)
    (prev : TestConfig) : TestConfig :=
  let totalQuestions := questionsPerSubject * 3 in
  let duration := 45 in
  let duration := if questionsPerSubject =? 15 then 90 else duration in
  let duration := if questionsPerSubject =? 25 then 180 else duration in
  mkTestConfig (subjects prev) (chapters prev) totalQuestions duration
    (difficulty prev).

(** The state of [App] that the chapter controls read or write. *)
Record State := mkState {
  isFullSyllabus : bool;
  config : TestConfig
}.

(** [handleSetFullSyllabus] (lines 339-344) *)
Definition handleSetFullSyllabus (isFull : bool) (st : State) : State :=
  mkState isFull
    (if isFull then withChapters (config st) [] else config st).

(** [handleRandomSelect] (lines 346-354); [selected] is what the shuffle
    picked. *)
Definition handleRandomSelect (selected : list jsstring) (st : State)
    : State :=
  mkState false (withChapters (config st) selected).

(** [handleCustomStart] (lines 151-155), on this state. *)
Definition handleCustomStart (st : State) : State :=
  mkState false (withChapters (config st) []).

(** What the candidate can do to the selection of chapters. *)
Inductive Action :=
| ToggleChapter (ch : jsstring)
| SubjectAll (sub : Subject) (select : bool)
| SetFullSyllabus (isFull : bool)
| RandomSelect (selected : list jsstring)
| CustomStart
| SetQuestionsPerSubject (questionsPerSubject : Z).

Definition act (SYLLABUS : Subject -> list jsstring) (a : Action)
    (st : State) : State :=
  match a with
  | ToggleChapter ch =>
      mkState (isFullSyllabus st)
        (toggleChapter (isFullSyllabus st) ch (config st))
  | SubjectAll sub select =>
      mkState (isFullSyllabus st)
        (handleSubjectAll SYLLABUS (isFullSyllabus st) sub select (config st))
  | SetFullSyllabus isFull => handleSetFullSyllabus isFull st
  | RandomSelect selected => handleRandomSelect selected st
  | CustomStart => handleCustomStart st
  | SetQuestionsPerSubject questionsPerSubject =>
      mkState (isFullSyllabus st)
        (questionsPerSubjectEffect questionsPerSubject (config st))
  end.

(** The state of [useState] at lines 37-48. *)
Definition initial : State :=
  mkState false (mkTestConfig [PHYSICS; CHEMISTRY; MATHS] [] 15 45 Mixed).

End ConfigView.

(* ================================================================== *)
(** ** [ResultScreen.tsx]: the charts by subject *)

Module Charts.

Import ResultScreen.

Definition subjects_ : list Subject := [PHYSICS; CHEMISTRY; MATHS].

(** The value of the enum [Subject]. *)
Definition subjectName (sub : Subject) : jsstring :=
  match sub with
  | PHYSICS => js "Physics"
  | CHEMISTRY => js "Chemistry"
  | MATHS => js "Mathematics"
  end.

Definition hasOutcome (o : Outcome) (a : Question * Outcome) : bool :=
  match snd a, o with
  | Correct, Correct | Wrong, Wrong | Skipped, Skipped => true
  | _, _ => false
  end.

(** [analyzedQuestions.filter(q => q.subject === sub)] *)
Definition subQs (analyzed : list (Question * Outcome)) (sub : Subject)
    : list (Question * Outcome) :=
  filter (fun a => Subject_eqb (subject (fst a)) sub) analyzed.

Definition count (o : Outcome) (l : list (Question * Outcome)) : Z :=
  Z.of_nat (List.length (filter (hasOutcome o) l)).

Record Bar := mkBar {
  name : jsstring;
  bar_Correct : Z;
  bar_Wrong : Z;
  bar_Skipped : Z
}.

(** [barData] (lines 108-116) *)
Definition barData (questions : list Question)
    (responses : list UserResponse) : list Bar :=
  map (fun sub =>
         let l := subQs (analyzedQuestions questions responses) sub in
         mkBar (firstn 4 (subjectName sub))
           (count Correct l) (count Wrong l) (count Skipped l))
    subjects_.

Record Spoke := mkSpoke {
  spoke_subject : Subject;
  spoke_accuracy : number;
  fullMark : Z
}.

(** [radarData] (lines 94-105) *)
Definition radarData (questions : list Question)
    (responses : list UserResponse) : list Spoke :=
  map (fun sub =>
         let l := subQs (analyzedQuestions questions responses) sub in
         let subAttempted :=
           Z.of_nat (List.length
                       (filter (fun a => negb (hasOutcome Skipped a)) l)) in
         let subCorrect := count Correct l in
         mkSpoke sub (accuracyOf subCorrect subAttempted) 100)
    subjects_.

End Charts.
(* ================================================================== *)
(** * Properties *)

(** ** Strings and the response table *)

Lemma eqb_eq (a b : jsstring) : JS.eqb a b = true <-> a = b.
Proof.
  unfold JS.eqb. destruct (list_eq_dec N.eq_dec a b); split; congruence.
Qed.

Lemma eqb_refl (a : jsstring) : JS.eqb a a = true.
Proof. now apply eqb_eq. Qed.

Lemma eqb_neq (a b : jsstring) : JS.eqb a b = false <-> a <> b.
Proof.
  unfold JS.eqb. destruct (list_eq_dec N.eq_dec a b); split; congruence.
Qed.

Module TableFacts.

Import Table.

Lemma lookup_set_same k v tbl : lookup k (set k v tbl) = Some v.
Proof.
  induction tbl as [|[k' v'] rest IH]; simpl.
  - now rewrite eqb_refl.
  - destruct (JS.eqb k k') eqn:E; simpl; rewrite E; auto.
Qed.

Lemma lookup_set_other k k' v tbl :
  k <> k' -> lookup k (set k' v tbl) = lookup k tbl.
Proof.
  intros Hne. induction tbl as [|[k2 v2] rest IH]; simpl.
  - apply eqb_neq in Hne. now rewrite Hne.
  - destruct (JS.eqb k' k2) eqn:E; simpl.
    + apply eqb_eq in E. subst k2.
      apply eqb_neq in Hne. now rewrite Hne.
    + now rewrite IH.
Qed.

Lemma lookup_set k k' v tbl :
  lookup k (set k' v tbl) = if JS.eqb k k' then Some v else lookup k tbl.
Proof.
  destruct (JS.eqb k k') eqn:E.
  - apply eqb_eq in E. subst. apply lookup_set_same.
  - apply eqb_neq in E. now apply lookup_set_other.
Qed.

End TableFacts.

(* ================================================================== *)
(** ** Status model: selections *)

Section Selection.

Import TestInterface TableFacts.

Variable s : State.
Variable q : Question.
Variable r : UserResponse.
Hypothesis Hcurrent : currentQuestion s = Some q.
Hypothesis Hentry : Table.lookup (id q) (responses s) = Some r.

(** What [handleOptionSelect] writes at the current position. *)
Lemma handleOptionSelect_entry (v : jsstring) :
  exists s',
    handleOptionSelect v s = Some s'
    /\ Table.lookup (id q) (responses s')
       = Some (with_selection r (Some v)
                 (match status r with
                  | MARKED_FOR_REVIEW => ANSWERED_AND_MARKED
                  | _ => ANSWERED
                  end)).
Proof.
  unfold handleOptionSelect. rewrite Hcurrent, Hentry.
  eexists; split; [reflexivity|]. simpl.
  rewrite lookup_set_same. now destruct (status r).
Qed.

(** What [handleNumericalInput] writes at the current position: the text
    itself, also when it is empty. *)
Lemma handleNumericalInput_entry (val : jsstring) :
  exists s',
    handleNumericalInput val s = Some s'
    /\ Table.lookup (id q) (responses s')
       = Some (with_selection r (Some val)
                 (match val, status r with
                  | [], _ => NOT_ANSWERED
                  | _ :: _, MARKED_FOR_REVIEW => ANSWERED_AND_MARKED
                  | _ :: _, _ => ANSWERED
                  end)).
Proof.
  unfold handleNumericalInput. rewrite Hcurrent, Hentry.
  eexists; split; [reflexivity|]. simpl.
  rewrite lookup_set_same. destruct val as [|c val']; [reflexivity|].
  replace (0 <? Z.of_nat (List.length (c :: val'))) with true
    by (symmetry; apply Z.ltb_lt; simpl List.length; lia).
  now destruct (status r).
Qed.

End Selection.

Section SelectionRuns.

Import App Program Sample.

(** C1, on the code.  A test with one NUMERICAL question whose answer is
    5.4: the candidate types 5, deletes it, and submits.  The empty text is
    stored as the selection (not [null]) with status NOT_ANSWERED, and the
    scoring engine counts the question as attempted and wrong: incorrect 1,
    unattempted 0, score -1.  With a mark set before typing, the mark is
    lost as well (status NOT_ANSWERED, not MARKED_FOR_REVIEW). *)
Theorem empty_numerical_input_is_scored_as_wrong :
  let typedAndDeleted :=
    [StartTest defaultConfig (Resolved [numericalQ]);
     NumericalInput (js "5"); NumericalInput (js ""); SubmitTest clock1] in
  let marked :=
    [StartTest defaultConfig (Resolved [numericalQ]);
     MarkForReview; NumericalInput (js "5"); NumericalInput (js "");
     SubmitTest clock1] in
  let st := app (fst (run boot typedAndDeleted)) in
  let st' := app (fst (run boot marked)) in
  let report := ResultScreen.report (questions st) (responses st) in
  responses st = [mkUserResponse (id numericalQ) (Some []) NOT_ANSWERED 0]
  /\ ResultScreen.outcome (responses st) numericalQ = ResultScreen.Wrong
  /\ ResultScreen.r_incorrect report = 1
  /\ ResultScreen.r_unattempted report = 0
  /\ ResultScreen.r_score report = -1
  /\ map TestHistoryItem.score (testHistory st) = [-1]
  /\ responses st' = [mkUserResponse (id numericalQ) (Some []) NOT_ANSWERED 0].
Proof. vm_compute. repeat split; reflexivity. Qed.

(** C2, on the code.  A test with one MCQ: the candidate marks it, picks
    option 1 (status ANSWERED_AND_MARKED), then picks option 2.  The second
    selection is stored, but the status becomes ANSWERED: the mark of a
    question in ANSWERED_AND_MARKED is dropped.  The same happens at the
    second key stroke of a numerical answer. *)
Theorem reselecting_a_marked_answer_drops_the_mark :
  let once :=
    [StartTest defaultConfig (Resolved [mcqQ]);
     MarkForReview; OptionSelect (js "1")] in
  let twice := once ++ [OptionSelect (js "2")] in
  let typed :=
    [StartTest defaultConfig (Resolved [numericalQ]);
     MarkForReview; NumericalInput (js "5"); NumericalInput (js "5.")] in
  let table events :=
    match session (fst (run boot events)) with
    | Some s => Table.values (TestInterface.responses s)
    | None => []
    end in
  table once = [mkUserResponse (id mcqQ) (Some (js "1")) ANSWERED_AND_MARKED 0]
  /\ table twice = [mkUserResponse (id mcqQ) (Some (js "2")) ANSWERED 0]
  /\ table typed = [mkUserResponse (id numericalQ) (Some (js "5.")) ANSWERED 0].
Proof. vm_compute. repeat split; reflexivity. Qed.

End SelectionRuns.

(* ================================================================== *)
(** ** Scoring engine *)

Module ScoringFacts.

Import ResultScreen Scoring.

Lemma countOutcome_nonneg o responses questions :
  0 <= countOutcome o responses questions.
Proof.
  induction questions as [|q rest IH]; simpl; [lia|].
  destruct (Outcome_eqb _ _); lia.
Qed.

Lemma countOutcome_total responses questions :
  countOutcome Correct responses questions
  + countOutcome Wrong responses questions
  + countOutcome Skipped responses questions
  = Z.of_nat (List.length questions).
Proof.
  induction questions as [|q rest IH]; [reflexivity|].
  cbn [countOutcome List.length]. rewrite Nat2Z.inj_succ.
  destruct (outcome responses q); cbn [Outcome_eqb]; lia.
Qed.

(** The counters after the loop, from any starting value. *)
Lemma fold_analyze responses questions : forall c,
  let c' := fold_left (analyze responses) questions c in
  correct c' = correct c + countOutcome Correct responses questions
  /\ incorrect c' = incorrect c + countOutcome Wrong responses questions
  /\ unattempted c' = unattempted c + countOutcome Skipped responses questions
  /\ score c' = score c + 4 * countOutcome Correct responses questions
                - 1 * countOutcome Wrong responses questions.
Proof.
  induction questions as [|q rest IH]; intros c;
    cbn [fold_left countOutcome].
  - repeat split; lia.
  - specialize (IH (analyze responses c q)).
    destruct IH as (Hc & Hi & Hu & Hs). cbv zeta in *.
    rewrite Hc, Hi, Hu, Hs. clear Hc Hi Hu Hs.
    unfold analyze, outcome.
    destruct (selectionOf (responseOf responses q)) as [selected|].
    + destruct (isCorrect q selected);
        cbn [correct incorrect unattempted score Outcome_eqb];
        repeat split; lia.
    + cbn [correct incorrect unattempted score Outcome_eqb];
        repeat split; lia.
Qed.

End ScoringFacts.

Section ScoringTheorems.

Import ResultScreen Scoring ScoringFacts Percent.

Lemma same_eq (x y : number) : same x y = true -> x = y.
Proof.
  destruct x as [s | s | | s m e], y as [s' | s' | | s' m' e'];
    cbn [same]; try discriminate; try reflexivity.
  - intros H. apply Bool.eqb_prop in H. now subst.
  - intros H. apply Bool.eqb_prop in H. now subst.
  - intros H. apply andb_prop in H as [H He].
    apply andb_prop in H as [Hs Hm].
    apply Bool.eqb_prop in Hs. apply Pos.eqb_eq in Hm. apply Z.eqb_eq in He.
    now subst.
Qed.

Lemma accuracy_checked_to_100 :
  forallb accuracyChecked (seq 1 100) = true.
Proof. vm_compute. reflexivity. Qed.

(** Up to 100 attempted questions the accuracy of the code is the exactly
    rounded percentage, or one less where the exact percentage is a tie. *)
Lemma accuracyOf_rounded (correct attempted : Z) :
  0 <= correct <= attempted -> 0 < attempted <= 100 ->
  accuracyOf correct attempted = of_Z (roundedPercent correct attempted)
  \/ (isTie correct attempted = true
      /\ accuracyOf correct attempted
         = of_Z (roundedPercent correct attempted - 1)).
Proof.
  intros Hc Ha.
  assert (Hin : In (Z.to_nat attempted) (seq 1 100)) by (apply in_seq; lia).
  pose proof (proj1 (forallb_forall _ _) accuracy_checked_to_100 _ Hin)
    as Hrow.
  unfold accuracyChecked in Hrow. rewrite forallb_forall in Hrow.
  assert (Hin' : In (Z.to_nat correct) (seq 0 (S (Z.to_nat attempted))))
    by (apply in_seq; lia).
  specialize (Hrow _ Hin'). cbv zeta in Hrow.
  rewrite !Z2Nat.id in Hrow by lia.
  apply orb_prop in Hrow as [Hsame | Htie].
  - left. now apply same_eq.
  - right. apply andb_prop in Htie as [Htie Hsame].
    split; [exact Htie | now apply same_eq].
Qed.

(** C4, as the code has it.  The report counts the questions by outcome;
    the score is 4 per correct question minus 1 per wrong one, skipped
    questions add nothing; maxScore is 4 per question; accuracy is 0 when
    nothing was attempted and else [Math.round] of the binary64 product of
    the binary64 quotient correct / attempted and 100.  Up to 100 attempted
    questions that is the exactly rounded percentage, except that at an
    exact tie it can be one less.  For 15 questions with 10 correct and 3
    wrong: score 37, maxScore 60, attempted 13, 2 unattempted,
    accuracy 77. *)
Theorem report_score_and_accuracy (questions : list Question)
    (responses : list UserResponse) :
  let r := report questions responses in
  let right := countOutcome Correct responses questions in
  let wrong := countOutcome Wrong responses questions in
  let skipped := countOutcome Skipped responses questions in
  r_correct r = right /\ r_incorrect r = wrong /\ r_unattempted r = skipped
  /\ totalQuestions r = Z.of_nat (List.length questions)
  /\ right + wrong + skipped = totalQuestions r
  /\ attempted r = right + wrong
  /\ r_score r = 4 * right - 1 * wrong
  /\ maxScore r = totalQuestions r * 4
  /\ accuracy r
     = (if attempted r =? 0 then of_Z 0
        else Math_round (mul (div (of_Z right) (of_Z (attempted r))) (of_Z 100)))
  /\ (totalQuestions r = 15 -> right = 10 -> wrong = 3 ->
      r_score r = 37 /\ maxScore r = 60 /\ attempted r = 13
      /\ r_unattempted r = 2 /\ accuracy r = of_Z 77)
  /\ (0 < attempted r <= 100 ->
      accuracy r = of_Z (roundedPercent right (attempted r))
      \/ (isTie right (attempted r) = true
          /\ accuracy r = of_Z (roundedPercent right (attempted r) - 1))).
Proof.
  intros r right wrong skipped.
  destruct (fold_analyze responses questions zero) as (Hc & Hi & Hu & Hs).
  cbv zeta in Hc, Hi, Hu, Hs.
  cbn [zero correct incorrect unattempted score] in Hc, Hi, Hu, Hs.
  rewrite Z.add_0_l in Hc, Hi, Hu. 
  pose proof (countOutcome_total responses questions) as Htot.
  pose proof (countOutcome_nonneg Correct responses questions) as Hr.
  pose proof (countOutcome_nonneg Wrong responses questions) as Hw.
  assert (E1 : r_correct r = right) by exact Hc.
  assert (E2 : r_incorrect r = wrong) by exact Hi.
  assert (E3 : r_unattempted r = skipped) by exact Hu.
  assert (E4 : totalQuestions r = Z.of_nat (List.length questions))
    by reflexivity.
  assert (E5 : attempted r = right + wrong).
  { unfold r, report. cbn [attempted]. unfold counters. now rewrite Hc, Hi. }
  assert (E6 : r_score r = 4 * right - 1 * wrong).
  { unfold r, report. cbn [r_score]. unfold counters. rewrite Hs.
    subst right wrong. lia. }
  assert (E7 : maxScore r = totalQuestions r * 4) by reflexivity.
  assert (E8 : accuracy r
     = (if attempted r =? 0 then of_Z 0
        else Math_round (mul (div (of_Z right) (of_Z (attempted r))) (of_Z 100)))).
  { unfold r at 1. unfold report. cbn [accuracy]. unfold accuracyOf.
    fold (counters questions responses).
    change (correct (counters questions responses)
            + incorrect (counters questions responses)) with (attempted r).
    change (correct (counters questions responses)) with (r_correct r).
    rewrite E1.
    destruct (attempted r =? 0) eqn:E0.
    - apply Z.eqb_eq in E0. rewrite E0. reflexivity.
    - apply Z.eqb_neq in E0.
      replace (0 <? attempted r) with true; [reflexivity|].
      symmetry. apply Z.ltb_lt. subst right wrong. lia. }
  fold right wrong skipped in Htot.
  assert (E9 : right + wrong + skipped = totalQuestions r)
    by (rewrite E4; exact Htot).
  do 9 (split; [assumption|]).
  split.
  - intros H15 Hr10 Hw3.
    repeat split; try lia.
    rewrite E8, E5, Hr10, Hw3. vm_compute. reflexivity.
  - intros Hattempted.
    assert (E10 : accuracy r = accuracyOf right (attempted r)).
    { unfold r at 1. unfold report. cbn [accuracy].
      fold (counters questions responses).
      change (correct (counters questions responses)
              + incorrect (counters questions responses)) with (attempted r).
      change (correct (counters questions responses)) with (r_correct r).
      now rewrite E1. }
    rewrite E10. apply accuracyOf_rounded; [|exact Hattempted].
    subst right wrong. lia.
Qed.

End ScoringTheorems.

Section NumericalMatch.

Import ResultScreen.

(** C7.  A NUMERICAL question with a selection is judged correct exactly
    when the selection and the correct answer are the same string once
    both are trimmed, and wrong otherwise; against the answer 5.4 the text
    "5.4 " is correct and the text "5.40" is wrong. *)
Theorem numerical_answers_are_compared_trimmed
    (responses : list UserResponse) (q : Question) (r : UserResponse)
    (selected : jsstring)
    (Htype : type q = NUMERICAL)
    (Hres : responseOf responses q = Some r)
    (Hsel : selectedOption r = Some selected) :
  (outcome responses q = Correct <-> trim selected = trim (correctAnswer q))
  /\ (outcome responses q = Wrong <-> trim selected <> trim (correctAnswer q))
  /\ (correctAnswer q = js "5.4" ->
      (selected = js "5.4 " -> outcome responses q = Correct)
      /\ (selected = js "5.40" -> outcome responses q = Wrong)).
Proof.
  assert (Hout : outcome responses q
                 = if JS.eqb (trim selected) (trim (correctAnswer q))
                   then Correct else Wrong).
  { unfold outcome, selectionOf, isCorrect. now rewrite Hres, Hsel, Htype. }
  rewrite Hout.
  destruct (JS.eqb (trim selected) (trim (correctAnswer q))) eqn:E.
  - pose proof E as E'. apply eqb_eq in E'.
    split; [tauto|]. split; [split; [discriminate | tauto]|].
    intros Hans. split; [reflexivity|].
    intros Hs. rewrite Hans, Hs in E. vm_compute in E. discriminate.
  - pose proof E as E'. apply eqb_neq in E'.
    split; [split; [discriminate | tauto]|]. split; [tauto|].
    intros Hans. split; [|reflexivity].
    intros Hs. rewrite Hans, Hs in E. vm_compute in E. discriminate.
Qed.

Lemma numerical_answers_are_compared_trimmed_witness :
  let responses := [mkUserResponse (id Sample.numericalQ) (Some (js "5.4 "))
                      ANSWERED 12] in
  outcome responses Sample.numericalQ = Correct
  <-> trim (js "5.4 ") = trim (correctAnswer Sample.numericalQ).
Proof.
  intros responses.
  apply (numerical_answers_are_compared_trimmed responses Sample.numericalQ
           (mkUserResponse (id Sample.numericalQ) (Some (js "5.4 ")) ANSWERED 12)
           (js "5.4 ")); reflexivity.
Defined.

End NumericalMatch.

Section Verdict.

Import ResultScreen Bands.

Lemma firstMatch_earliest (r : Report) (bs : list Band) :
  forall (i : nat) (matches : Report -> bool) (verdict : Verdict),
    nth_error bs i = Some (matches, verdict) ->
    matches r = true ->
    (forall j m v, (j < i)%nat -> nth_error bs j = Some (m, v) -> m r = false) ->
    firstMatch bs r = verdict.
Proof.
  induction bs as [|[m0 v0] rest IH]; intros i matches verdict Hi Hm Hbefore.
  - destruct i; discriminate.
  - destruct i as [|i]; simpl in *.
    + injection Hi as -> ->. now rewrite Hm.
    + rewrite (Hbefore 0%nat m0 v0); [|lia|reflexivity].
      apply (IH i matches verdict Hi Hm).
      intros j m v Hj. apply (Hbefore (S j)). lia.
Qed.

Lemma firstMatch_none (r : Report) (bs : list Band) :
  (forall m v, In (m, v) bs -> m r = false) -> firstMatch bs r = BalancedEffort.
Proof.
  induction bs as [|[m0 v0] rest IH]; intros Hnone; simpl; [reflexivity|].
  rewrite (Hnone m0 v0) by now left.
  apply IH. intros m v Hin. apply (Hnone m v). now right.
Qed.

(** C8.  [getVerdict] is the first match over the ordered bands: perfect
    score, high accuracy and high score, high accuracy and low score
    ("cautious"), low accuracy with a high attempt rate ("guesswork"),
    negative score ("critical"), else the default ("balanced").  A result
    that matches a band and none before it gets that band's verdict,
    whatever later bands it matches as well. *)
Theorem getVerdict_first_match_wins (r : Report) :
  getVerdict r = firstMatch bands r
  /\ map snd bands = [Godlike; ExcellentPerformance; CautiousSniper;
                      GuessworkHazard; CriticalCondition]
  /\ (forall i matches verdict,
        nth_error bands i = Some (matches, verdict) ->
        matches r = true ->
        (forall j m v, (j < i)%nat -> nth_error bands j = Some (m, v) ->
                       m r = false) ->
        getVerdict r = verdict)
  /\ ((forall m v, In (m, v) bands -> m r = false) ->
      getVerdict r = BalancedEffort).
Proof.
  assert (H : getVerdict r = firstMatch bands r) by reflexivity.
  split; [exact H|]. split; [reflexivity|]. split.
  - intros i matches verdict Hi Hm Hbefore. rewrite H.
    now apply (firstMatch_earliest r bands i matches verdict).
  - intros Hnone. rewrite H. now apply firstMatch_none.
Qed.

(** A lone question answered right is a perfect score and also has high
    accuracy and a high score: the first band decides. *)
Lemma getVerdict_first_match_wins_witness :
  let r := report (Sample.paper 1) (Sample.sheet 1 0 0) in
  perfectScore r = true
  /\ highAccuracy r && highScore r = true
  /\ getVerdict r = Godlike.
Proof.
  intros r. split; [reflexivity|]. split; [reflexivity|].
  destruct (getVerdict_first_match_wins r) as (_ & _ & Hfirst & _).
  apply (Hfirst 0%nat perfectScore Godlike); [reflexivity|reflexivity|].
  intros j m v Hj. lia.
Defined.

(** Five questions, all answered wrong: the result matches the guesswork
    band and the negative-score band, and is classified as guesswork. *)
Example guesswork_before_critical :
  let r := report (Sample.paper 5) (Sample.sheet 0 5 0) in
  lowAccuracy r && highAttemptRate r = true
  /\ negativeScore r = true
  /\ getVerdict r = GuessworkHazard.
Proof. vm_compute. repeat split; reflexivity. Qed.

End Verdict.

Section ScoringExamples.

Import ResultScreen Sample.

(** A 15-question paper with 10 right, 3 wrong and 2 blank answers: the
    accuracy is 77, the exactly rounded percentage. *)
Lemma report_score_and_accuracy_witness :
  let r := report (paper 15) (sheet 10 3 2) in
  (r_score r = 37 /\ maxScore r = 60 /\ attempted r = 13
   /\ r_unattempted r = 2 /\ accuracy r = of_Z 77)
  /\ (accuracy r = of_Z (Percent.roundedPercent 10 13)
      \/ (Percent.isTie 10 13 = true
          /\ accuracy r = of_Z (Percent.roundedPercent 10 13 - 1))).
Proof.
  intros r.
  destruct (report_score_and_accuracy (paper 15) (sheet 10 3 2))
    as (_ & _ & _ & _ & _ & _ & _ & _ & _ & H & Hexact).
  split; [apply H; reflexivity|].
  assert (Hattempted : 0 < attempted r <= 100)
    by (vm_compute; split; [reflexivity | discriminate]).
  exact (Hexact Hattempted).
Defined.

(** C4 as stated, with the percentage rounded exactly, fails: with 23
    correct answers out of 40 attempted the exact percentage is 57.5, which
    rounds to 58, and the report shows 57. *)
Lemma exact_rounding_fails_at_23_of_40 :
  let r := report (paper 40) (sheet 23 17 0) in
  r_correct r = 23 /\ attempted r = 40
  /\ 2 * (100 * r_correct r) = (2 * 57 + 1) * attempted r
  /\ Percent.roundedPercent (r_correct r) (attempted r) = 58
  /\ accuracy r = of_Z 57
  /\ accuracy r
     <> of_Z (Percent.roundedPercent (r_correct r) (attempted r)).
Proof.
  vm_compute. repeat split; try reflexivity. discriminate.
Qed.

(** The accuracy is rounded from the binary64 product: 23 right answers
    out of 40 attempted give 57.49999999999999 and so 57. *)
Example accuracy_23_of_40 : accuracyOf 23 40 = of_Z 57.
Proof. vm_compute. reflexivity. Qed.

End ScoringExamples.

(* ================================================================== *)
(** ** Initialization *)

Module InitFacts.

Import TestInterface TableFacts.

Definition fresh (k : jsstring) : UserResponse :=
  mkUserResponse k None NOT_VISITED 0.

Definition hasId (k : jsstring) (questions : list Question) : bool :=
  existsb (fun q => JS.eqb k (id q)) questions.

Lemma hasId_In (q : Question) (questions : list Question) :
  In q questions -> hasId (id q) questions = true.
Proof.
  intros Hin. apply existsb_exists. exists q. split; [exact Hin|].
  apply eqb_refl.
Qed.

(** The table after the [forEach], starting from any table. *)
Lemma lookup_forEach (k : jsstring) (questions : list Question) :
  forall acc : Table.t,
    Table.lookup k
      (fold_left
         (fun initial q =>
            Table.set (id q) (mkUserResponse (id q) None NOT_VISITED 0) initial)
         questions acc)
    = if hasId k questions then Some (fresh k) else Table.lookup k acc.
Proof.
  induction questions as [|q rest IH]; intros acc; simpl; [reflexivity|].
  rewrite IH, lookup_set.
  destruct (JS.eqb k (id q)) eqn:E; simpl.
  - apply eqb_eq in E. subst k. now destruct (hasId (id q) rest).
  - reflexivity.
Qed.

Lemma lookup_initialResponses (k : jsstring) (q0 : Question)
    (rest : list Question) :
  Table.lookup k (initialResponses (q0 :: rest))
  = if JS.eqb k (id q0)
    then Some (mkUserResponse (id q0) None NOT_ANSWERED 0)
    else if hasId k rest then Some (fresh k) else None.
Proof.
  unfold initialResponses. cbv zeta.
  rewrite lookup_forEach.
  replace (hasId (id q0) (q0 :: rest)) with true
    by (unfold hasId; simpl existsb; now rewrite eqb_refl).
  rewrite lookup_set, lookup_forEach.
  destruct (JS.eqb k (id q0)) eqn:E; [reflexivity|].
  unfold hasId. simpl existsb. now rewrite E.
Qed.

End InitFacts.

Section Initialization.

Import App Program TestInterface InitFacts.

(** C9.  [startTest] on an empty question set throws, ends in the
    configuration view with the error message, and mounts no test
    interface.  On a non-empty set it mounts one, on those questions, at
    the first question and with the full time on the clock, and the
    response table of the mounted interface holds, for every question, a
    response without selection and without time, with status NOT_ANSWERED
    under the id of the first question and NOT_VISITED under every other
    id, and nothing else. *)
Theorem session_initialization :
  (forall (sys : System) (testConfig : TestConfig),
     let sys' := fst (step sys (StartTest testConfig (Resolved []))) in
     session sys' = None
     /\ view (app sys') = ViewConfig
     /\ error (app sys')
        = Some (js "No questions were generated. Please try again.")
     /\ App.questions (app sys') = App.questions (app sys))
  /\ (forall (sys : System) (testConfig : TestConfig) (q0 : Question)
             (rest : list Question),
        let sys' :=
          fst (step sys (StartTest testConfig (Resolved (q0 :: rest)))) in
        view (app sys') = ViewTest
        /\ error (app sys') = None
        /\ exists s : TestInterface.State,
             session sys' = Some s
             /\ TestInterface.questions s = q0 :: rest
             /\ currentIndex s = 0
             /\ timeLeft s = durationMinutes testConfig * 60
             /\ (forall k : jsstring,
                   Table.lookup k (TestInterface.responses s)
                   = if hasId k (q0 :: rest)
                     then Some (mkUserResponse k None
                                  (if JS.eqb k (id q0) then NOT_ANSWERED
                                   else NOT_VISITED) 0)
                     else None)).
Proof.
  split.
  - intros [[v full cfg qs rs err hist] stored mounted] testConfig.
    cbv zeta. repeat split.
  - intros [[v full cfg qs rs err hist] stored mounted] testConfig q0 rest.
    cbv zeta. split; [reflexivity|]. split; [reflexivity|].
    exists (mount (q0 :: rest) (durationMinutes testConfig)).
    split; [reflexivity|]. split; [reflexivity|]. split; [reflexivity|].
    split; [reflexivity|].
    intros k. cbn [mount TestInterface.responses].
    rewrite lookup_initialResponses.
    unfold hasId. simpl existsb.
    destruct (JS.eqb k (id q0)) eqn:E; simpl.
    + apply eqb_eq in E. now subst k.
    + reflexivity.
Qed.

Lemma session_initialization_witness :
  let qs := Sample.paper 3 in
  let sys := fst (step Sample.boot (StartTest Sample.defaultConfig (Resolved qs))) in
  exists s : TestInterface.State,
    session sys = Some s
    /\ map (fun q => option_map status
                       (Table.lookup (id q) (TestInterface.responses s))) qs
       = [Some NOT_ANSWERED; Some NOT_VISITED; Some NOT_VISITED].
Proof.
  intros qs sys.
  destruct session_initialization as [_ H].
  destruct (H Sample.boot Sample.defaultConfig (Sample.question 0)
              [Sample.question 1; Sample.question 2])
    as (_ & _ & s & Hs & _ & _ & _ & Ht).
  exists s. split; [exact Hs|].
  subst qs.
  change (Sample.paper 3)
    with [Sample.question 0; Sample.question 1; Sample.question 2].
  cbn [map]. rewrite !Ht. reflexivity.
Defined.

End Initialization.

(* ================================================================== *)
(** ** The two scoring paths *)

Module PathFacts.

Import ResultScreen Scoring ScoringFacts Measures.

(** The loop of [handleTestFinish] computes the [correct] and [score] of
    the loop of [ResultScreen]. *)
Lemma fold_summarize (responses : list UserResponse)
    (questions : list Question) :
  forall (c : Counters),
    fold_left (App.summarize responses) questions (correct c, score c)
    = (correct (fold_left (analyze responses) questions c),
       score (fold_left (analyze responses) questions c)).
Proof.
  induction questions as [|q rest IH]; intros c; [reflexivity|].
  cbn [fold_left]. rewrite <- IH. f_equal.
  unfold App.summarize, analyze, responseOf, selectionOf, isCorrect, JS.find.
  destruct (List.find _ responses) as [r|]; [|reflexivity].
  destruct (selectedOption r) as [selected|]; [|reflexivity].
  destruct (type q);
    match goal with |- context [if ?b then _ else _] => destruct b end;
    reflexivity.
Qed.

(** Whether the response found for the id [k] has a selection. *)
Definition answeredAt (responses : list UserResponse) (k : jsstring) : bool :=
  match JS.find (fun r => JS.eqb (questionId r) k) responses with
  | Some r => App.isAnswered r
  | None => false
  end.

Lemma attempted_by_id (responses : list UserResponse)
    (questions : list Question) :
  countOutcome Correct responses questions
  + countOutcome Wrong responses questions
  = Z.of_nat (List.length (filter (answeredAt responses) (map id questions))).
Proof.
  induction questions as [|q rest IH]; [reflexivity|].
  cbn [countOutcome map filter].
  unfold outcome at 1 2, answeredAt at 1, selectionOf, responseOf, App.isAnswered.
  destruct (JS.find _ responses) as [r|].
  - destruct (selectedOption r) as [selected|].
    + cbn [List.length]. rewrite Nat2Z.inj_succ.
      destruct (isCorrect q selected); cbn [Outcome_eqb]; lia.
    + cbn [Outcome_eqb]. lia.
  - cbn [Outcome_eqb]. lia.
Qed.

Lemma filter_length_perm {A : Type} (f : A -> bool) (l l' : list A) :
  Permutation l l' -> List.length (filter f l) = List.length (filter f l').
Proof.
  induction 1 as [|x l l' _ IH|x y l|l l' l'' _ IH1 _ IH2]; simpl.
  - reflexivity.
  - destruct (f x); simpl; congruence.
  - destruct (f x), (f y); reflexivity.
  - congruence.
Qed.

(** With distinct ids, every response is the one found for its own id. *)
Lemma find_own_id (responses : list UserResponse) :
  NoDup (map questionId responses) ->
  forall r, In r responses ->
    JS.find (fun r' => JS.eqb (questionId r') (questionId r)) responses
    = Some r.
Proof.
  unfold JS.find.
  induction responses as [|r0 rest IH]; intros Hnd r Hin; [contradiction|].
  inversion Hnd as [|? ? Hnotin Hnd']; subst. simpl.
  destruct Hin as [->|Hin]; [now rewrite eqb_refl|].
  destruct (JS.eqb (questionId r0) (questionId r)) eqn:E.
  - apply eqb_eq in E. exfalso. apply Hnotin. rewrite E.
    now apply in_map.
  - now apply IH.
Qed.

Lemma filter_map_own {A B : Type} (key : A -> B) (f : B -> bool)
    (g : A -> bool) (l : list A) :
  (forall a, In a l -> f (key a) = g a) ->
  List.length (filter f (map key l)) = List.length (filter g l).
Proof.
  induction l as [|a l IH]; intros H; simpl; [reflexivity|].
  rewrite (H a) by now left.
  assert (IH' := IH (fun a' Ha' => H a' (or_intror Ha'))).
  destruct (g a); simpl; now rewrite IH'.
Qed.

(** Under a one-to-one pairing the two denominators agree. *)
Lemma attempted_is_answered (questions : list Question)
    (responses : list UserResponse) :
  oneResponsePerQuestion questions responses ->
  countOutcome Correct responses questions
  + countOutcome Wrong responses questions
  = Z.of_nat (List.length (filter App.isAnswered responses)).
Proof.
  intros [Hnd Hperm]. rewrite attempted_by_id. f_equal.
  rewrite <- (filter_length_perm _ _ _ Hperm).
  apply filter_map_own. intros r Hin. unfold answeredAt.
  rewrite find_own_id; [reflexivity| |exact Hin].
  apply (Permutation_NoDup (Permutation_sym Hperm) Hnd).
Qed.

End PathFacts.

Section TwoPaths.

Import App ResultScreen Scoring ScoringFacts Measures PathFacts.

(** C10.  For questions and responses paired one to one by id, the history
    entry built by [handleTestFinish] carries the score, the maxScore and
    the accuracy of the report of [ResultScreen]. *)
Theorem history_summary_agrees_with_report (st : App.State) (clock : Clock)
    (userResponses : list UserResponse)
    (Hone : oneResponsePerQuestion (questions st) userResponses) :
  let item := historyItem st clock userResponses in
  let r := report (questions st) userResponses in
  TestHistoryItem.score item = r_score r
  /\ TestHistoryItem.accuracy item = accuracy r
  /\ TestHistoryItem.maxScore item = maxScore r.
Proof.
  cbv zeta. unfold historyItem.
  change (0, 0) with (correct zero, score zero).
  rewrite fold_summarize. fold (counters (questions st) userResponses).
  cbn [TestHistoryItem.score TestHistoryItem.accuracy TestHistoryItem.maxScore].
  split; [reflexivity|]. split; [|reflexivity].
  unfold report. cbn [accuracy]. unfold accuracyOf.
  destruct (fold_analyze userResponses (questions st) zero)
    as (Hc & Hi & _ & _).
  cbv zeta in Hc, Hi. cbn [zero correct incorrect] in Hc, Hi.
  rewrite Z.add_0_l in Hc, Hi.
  fold (counters (questions st) userResponses) in Hc, Hi.
  rewrite <- (attempted_is_answered _ _ Hone), <- Hc, <- Hi.
  reflexivity.
Qed.

Lemma history_summary_agrees_with_report_witness :
  let st := mkState ViewTest false Sample.defaultConfig (Sample.paper 3) []
              None [] in
  let item := historyItem st Sample.clock1 (Sample.sheet 1 1 1) in
  let r := report (Sample.paper 3) (Sample.sheet 1 1 1) in
  TestHistoryItem.score item = r_score r
  /\ TestHistoryItem.accuracy item = accuracy r
  /\ TestHistoryItem.maxScore item = maxScore r.
Proof.
  intros st.
  apply (history_summary_agrees_with_report st Sample.clock1
           (Sample.sheet 1 1 1)).
  split.
  - vm_compute. repeat constructor; simpl; intuition discriminate.
  - apply Permutation_refl.
Defined.

(** Without the pairing the paths part: if two questions carry one id, the
    table has one response for both, the report counts two attempts and the
    history one, and the history shows an accuracy of 200. *)
Example paths_differ_on_a_repeated_id :
  let questions := [Sample.question 0; Sample.question 0] in
  let st := mkState ViewTest false Sample.defaultConfig questions [] None [] in
  let userResponses := Sample.sheet 1 0 0 in
  accuracy (report questions userResponses) = of_Z 100
  /\ TestHistoryItem.accuracy (historyItem st Sample.clock1 userResponses)
     = of_Z 200.
Proof. vm_compute. split; reflexivity. Qed.

End TwoPaths.

(* ================================================================== *)
(** ** Steps of the program *)

Module ProgramFacts.

Import App Program Measures TestInterface TableFacts.

(** What [handleTestFinish] leaves behind, whatever was mounted. *)
Lemma commit_handleTestFinish (st : App.State) (clock : Clock)
    (userResponses : list UserResponse) (sys : System) :
  let sys' := commit (handleTestFinish st clock userResponses) sys in
  session sys' = None
  /\ view (app sys') = ViewResult
  /\ App.responses (app sys') = userResponses
  /\ testHistory (app sys')
     = firstn 50 (historyItem st clock userResponses :: testHistory st)
  /\ localStorage sys'
     = Some (firstn 50 (historyItem st clock userResponses :: testHistory st))
  /\ App.questions (app sys') = App.questions (app sys).
Proof.
  destruct sys as [[v full cfg qs rs err hist] stored mounted].
  cbv zeta. unfold commit, handleTestFinish, saveHistory.
  cbn [app localStorage session fold_left perform List.app view isFullSyllabus
       config App.questions App.responses error testHistory render].
  repeat split.
Qed.

Lemma step_unmounted (sys : System) (e : Event) :
  session sys = None -> sameTest e = true -> step sys e = (sys, []).
Proof.
  intros Hs He. destruct e; try discriminate; unfold step; now rewrite Hs.
Qed.

Lemma run_unmounted (events : list Event) (sys : System) :
  session sys = None -> forallb sameTest events = true ->
  run sys events = (sys, []).
Proof.
  intros Hs. induction events as [|e rest IH]; intros Hev; [reflexivity|].
  simpl in Hev. apply andb_prop in Hev as [He Hrest].
  cbn [run]. rewrite (step_unmounted sys e Hs He), (IH Hrest). reflexivity.
Qed.

Lemma step_tick_expiring (sys : System) (s : State) (clock : Clock) :
  session sys = Some s -> timeLeft s <= 1 ->
  step sys (Tick clock)
  = (commit (handleTestFinish (app sys) clock (Table.values (timerResponses s)))
       (withSession sys (fst (tick s))),
     [Expired (Table.values (timerResponses s))]).
Proof.
  intros Hs Hle. unfold step. rewrite Hs. unfold tick, timeLeftUpdater.
  replace (timeLeft s <=? 1) with true by (symmetry; apply Z.leb_le; lia).
  reflexivity.
Qed.

Lemma step_submit (sys : System) (s : State) (clock : Clock) :
  session sys = Some s ->
  step sys (SubmitTest clock)
  = (commit (handleTestFinish (app sys) clock (handleFinishTest s)) sys,
     [Submitted (handleFinishTest s)]).
Proof. intros Hs. unfold step. now rewrite Hs. Qed.

(** An event that leaves the test mounted acts on the test interface only. *)
Lemma step_mounted (sys : System) (s : State) (e : Event) :
  session sys = Some s -> inSession e = true ->
  (isTick e = true -> 1 < timeLeft s) ->
  step sys e = (withSession sys (sessionAfter e s), []).
Proof.
  intros Hs He Htick. destruct e; try discriminate;
    unfold step; rewrite Hs; try reflexivity.
  specialize (Htick eq_refl). unfold sessionAfter, tick, timeLeftUpdater.
  replace (timeLeft s <=? 1) with false by (symmetry; apply Z.leb_gt; lia).
  reflexivity.
Qed.

Lemma navigateTo_timeLeft (index : Z) (s : State) :
  timeLeft (navigateTo index s) = timeLeft s.
Proof. unfold navigateTo. now destruct (at_index (questions s) index). Qed.

Lemma sessionAfter_timeLeft (e : Event) (s : State) :
  timeLeft (sessionAfter e s)
  = if isTick e then fst (timeLeftUpdater (timeLeft s)) else timeLeft s.
Proof.
  destruct e; cbn [sessionAfter isTick]; try reflexivity.
  - unfold tick. now destruct (timeLeftUpdater (timeLeft s)).
  - apply navigateTo_timeLeft.
  - destruct key; apply navigateTo_timeLeft.
  - unfold handleTabChange. destruct (negb _); [apply navigateTo_timeLeft|easy].
  - unfold handleOptionSelect. now destruct (currentQuestion s).
  - unfold handleNumericalInput. now destruct (currentQuestion s).
  - unfold handleMarkForReview. destruct (currentQuestion s); [|easy].
    now destruct (Table.lookup _ _).
  - unfold handleClearResponse. now destruct (currentQuestion s).
Qed.

Lemma ticksOf_cons (e : Event) (events : list Event) :
  ticksOf (e :: events) = (if isTick e then 1 else 0) + ticksOf events.
Proof.
  unfold ticksOf. cbn [filter]. destruct (isTick e); [|reflexivity].
  cbn [List.length]. lia.
Qed.

Lemma ticksOf_nonneg (events : list Event) : 0 <= ticksOf events.
Proof. unfold ticksOf. lia. Qed.

Lemma withSession_twice (sys : System) (s s' : State) :
  withSession (withSession sys s) s' = withSession sys s'.
Proof. reflexivity. Qed.

(** While fewer ticks have fired than seconds were left, the test stays
    mounted, nothing is signalled, and every tick took one second off. *)
Lemma run_mounted (events : list Event) :
  forall (sys : System) (s : State),
    session sys = Some s ->
    forallb inSession events = true ->
    ticksOf events < timeLeft s ->
    let s' := fold_left (fun s e => sessionAfter e s) events s in
    run sys events = (withSession sys s', [])
    /\ timeLeft s' = timeLeft s - ticksOf events.
Proof.
  induction events as [|e rest IH]; intros sys s Hs Hev Hticks.
  - cbn [run fold_left]. unfold ticksOf. cbn.
    split; [|lia]. destruct sys as [a l m]. cbn in Hs. subst m. reflexivity.
  - simpl in Hev. apply andb_prop in Hev as [He Hrest].
    rewrite ticksOf_cons in Hticks.
    pose proof (ticksOf_nonneg rest) as Hnn.
    assert (Hrun : isTick e = true -> 1 < timeLeft s).
    { intros Ht. rewrite Ht in Hticks. lia. }
    assert (Hleft : timeLeft (sessionAfter e s)
                    = timeLeft s - (if isTick e then 1 else 0)).
    { rewrite sessionAfter_timeLeft. destruct (isTick e) eqn:Ht; [|lia].
      specialize (Hrun eq_refl). unfold timeLeftUpdater.
      replace (timeLeft s <=? 1) with false
        by (symmetry; apply Z.leb_gt; lia).
      reflexivity. }
    destruct (IH (withSession sys (sessionAfter e s)) (sessionAfter e s)
                eq_refl Hrest) as [Hr Ht]; [lia|].
    cbv zeta. cbn [run fold_left].
    rewrite (step_mounted sys s e Hs He Hrun), Hr, withSession_twice.
    split; [reflexivity|]. rewrite Ht, Hleft, ticksOf_cons. lia.
Qed.

End ProgramFacts.

(* ================================================================== *)
(** ** Time accounting on the table *)

Module TimeFacts.

Import Program Measures TestInterface TableFacts.

Lemma totalTimeSpent_set (k : jsstring) (v : UserResponse) (tbl : Table.t) :
  totalTimeSpent (Table.set k v tbl)
  = totalTimeSpent tbl
    - match Table.lookup k tbl with
      | Some old => timeSpentSeconds old
      | None => 0
      end
    + timeSpentSeconds v.
Proof.
  induction tbl as [|[k' v'] rest IH]; cbn [Table.set Table.lookup totalTimeSpent].
  - lia.
  - destruct (JS.eqb k k'); cbn [totalTimeSpent]; lia.
Qed.

(** [tbl'] has an entry wherever [tbl] has one, and [delta] more seconds. *)
Definition extends (delta : Z) (tbl tbl' : Table.t) : Prop :=
  (forall k, Table.lookup k tbl <> None -> Table.lookup k tbl' <> None)
  /\ totalTimeSpent tbl' = totalTimeSpent tbl + delta.

Lemma extends_refl (tbl : Table.t) : extends 0 tbl tbl.
Proof. split; [auto | lia]. Qed.

Lemma extends_set (delta : Z) (k : jsstring) (old v : UserResponse)
    (tbl : Table.t) :
  Table.lookup k tbl = Some old ->
  timeSpentSeconds v = timeSpentSeconds old + delta ->
  extends delta tbl (Table.set k v tbl).
Proof.
  intros Hold Htime. split.
  - intros k' Hk'. rewrite lookup_set. now destruct (JS.eqb k' k).
  - rewrite totalTimeSpent_set, Hold. lia.
Qed.

Create HintDb tables.

#[local] Hint Resolve extends_refl : tables.
#[local] Hint Extern 1 (extends 0 _ (Table.set _ _ _)) =>
  (eapply extends_set; [eassumption | cbn; lia]) : tables.

(** The state is as it was. *)
Ltac unchanged :=
  split; [reflexivity
        | split; [first [tauto | intros [? ?]; discriminate | intros _; eauto]
                 | apply extends_refl]].

Lemma navigateTo_table (index : Z) (s : State) :
  questions (navigateTo index s) = questions s
  /\ ((exists q, currentQuestion s = Some q) ->
      exists q, currentQuestion (navigateTo index s) = Some q)
  /\ extends 0 (responses s) (responses (navigateTo index s)).
Proof.
  unfold navigateTo.
  destruct (at_index (questions s) index) as [nextQ|] eqn:Hat.
  - cbn [questions responses]. split; [reflexivity|]. split.
    + intros _. exists nextQ. exact Hat.
    + destruct (Table.lookup (id nextQ) (responses s)) eqn:Hl;
        auto with tables.
  - unchanged.
Qed.

(** Every event but a tick keeps the questions, keeps a current question,
    keeps the entries and adds no time. *)
Lemma sessionAfter_table (e : Event) (s : State) :
  isTick e = false ->
  questions (sessionAfter e s) = questions s
  /\ ((exists q, currentQuestion s = Some q) ->
      exists q, currentQuestion (sessionAfter e s) = Some q)
  /\ extends 0 (responses s) (responses (sessionAfter e s)).
Proof.
  intros Hnt. destruct e; try discriminate; cbn [sessionAfter];
    try (unchanged; fail).
  - apply navigateTo_table.
  - destruct key; apply navigateTo_table.
  - unfold handleTabChange. destruct (negb _);
      [apply navigateTo_table | unchanged].
  - unfold handleOptionSelect, currentQuestion.
    destruct (at_index (questions s) (currentIndex s)) as [q|] eqn:Hq;
      cbn [orElse]; [|unchanged].
    cbn [setResponses questions currentIndex responses].
    rewrite Hq. split; [reflexivity|]. split; [eauto|].
    destruct (Table.lookup (id q) (responses s)) eqn:Hl; auto with tables.
  - unfold handleNumericalInput, currentQuestion.
    destruct (at_index (questions s) (currentIndex s)) as [q|] eqn:Hq;
      cbn [orElse]; [|unchanged].
    cbn [setResponses questions currentIndex responses].
    rewrite Hq. split; [reflexivity|]. split; [eauto|].
    destruct (Table.lookup (id q) (responses s)) eqn:Hl; auto with tables.
  - unfold handleMarkForReview, currentQuestion.
    destruct (at_index (questions s) (currentIndex s)) as [q|] eqn:Hq;
      cbn [orElse]; [|unchanged].
    destruct (Table.lookup (id q) (responses s)) eqn:Hl; cbn [orElse];
      [|unchanged].
    cbn [setResponses questions currentIndex responses].
    rewrite Hq. split; [reflexivity|]. split; [eauto|]. auto with tables.
  - unfold handleClearResponse, currentQuestion.
    destruct (at_index (questions s) (currentIndex s)) as [q|] eqn:Hq;
      cbn [orElse]; [|unchanged].
    cbn [setResponses questions currentIndex responses].
    rewrite Hq. split; [reflexivity|]. split; [eauto|].
    destruct (Table.lookup (id q) (responses s)) eqn:Hl; auto with tables.
Qed.

Lemma at_index_In {A : Type} (l : list A) (i : Z) (a : A) :
  at_index l i = Some a -> In a l.
Proof.
  unfold at_index. destruct (i <? 0); [discriminate|]. apply nth_error_In.
Qed.

(** A tick credits one second to the entry of the current question and
    touches nothing else. *)
Lemma tick_table (qs : list Question) (s : State) :
  ready qs s ->
  exists q r,
    currentQuestion s = Some q
    /\ Table.lookup (id q) (responses s) = Some r
    /\ responses (fst (tick s))
       = Table.set (id q) (with_timeSpent r (timeSpentSeconds r + 1))
           (responses s)
    /\ questions (fst (tick s)) = questions s
    /\ currentQuestion (fst (tick s)) = Some q
    /\ extends 1 (responses s) (responses (fst (tick s))).
Proof.
  intros (Hqs & [q Hq] & Hentries).
  assert (Hin : In q qs).
  { rewrite <- Hqs. apply (at_index_In _ (currentIndex s)). exact Hq. }
  destruct (Table.lookup (id q) (responses s)) as [r|] eqn:Hl;
    [|now apply Hentries in Hin].
  assert (Hres : responses (fst (tick s))
                 = Table.set (id q) (with_timeSpent r (timeSpentSeconds r + 1))
                     (responses s)).
  { unfold tick. destruct (timeLeftUpdater (timeLeft s)).
    cbn [fst responses]. unfold trackTime. now rewrite Hq, Hl. }
  exists q, r. split; [exact Hq|]. split; [exact Hl|]. split; [exact Hres|].
  split; [|split].
  - unfold tick. now destruct (timeLeftUpdater (timeLeft s)).
  - unfold tick. now destruct (timeLeftUpdater (timeLeft s)).
  - rewrite Hres. eapply extends_set; [exact Hl | reflexivity].
Qed.

Lemma sessionAfter_ready (qs : list Question) (e : Event) (s : State) :
  ready qs s ->
  ready qs (sessionAfter e s)
  /\ totalTimeSpent (responses (sessionAfter e s))
     = totalTimeSpent (responses s) + (if isTick e then 1 else 0).
Proof.
  intros Hready. destruct (isTick e) eqn:Ht.
  - destruct e; try discriminate. cbn [sessionAfter].
    destruct (tick_table qs s Hready) as (q & r & _ & _ & _ & Hq & Hc & Hext & Htot).
    destruct Hready as (Hqs & _ & Hentries).
    split; [|exact Htot]. split; [congruence|]. split; [eauto|].
    intros q' Hin. apply Hext. now apply Hentries.
  - destruct (sessionAfter_table e s Ht) as (Hq & Hc & Hext & Htot).
    destruct Hready as (Hqs & Hcur & Hentries).
    split; [|exact Htot]. split; [congruence|]. split; [auto|].
    intros q' Hin. apply Hext. now apply Hentries.
Qed.

Lemma fold_sessionAfter_ready (qs : list Question) (events : list Event) :
  forall s : State,
    ready qs s ->
    let s' := fold_left (fun s e => sessionAfter e s) events s in
    ready qs s'
    /\ totalTimeSpent (responses s')
       = totalTimeSpent (responses s) + ticksOf events.
Proof.
  induction events as [|e rest IH]; intros s Hready; cbn [fold_left].
  - split; [exact Hready|]. unfold ticksOf. cbn. lia.
  - destruct (sessionAfter_ready qs e s Hready) as [Hr Ht].
    destruct (IH _ Hr) as [Hr' Ht']. cbv zeta in Hr', Ht'.
    split; [exact Hr'|].
    rewrite Ht', Ht, ProgramFacts.ticksOf_cons. lia.
Qed.

(** The table at mount: an entry per question, no time spent. *)
Lemma mount_ready (q0 : Question) (rest : list Question) (d : Z) :
  ready (q0 :: rest) (mount (q0 :: rest) d).
Proof.
  split; [reflexivity|]. split; [now exists q0|].
  intros q Hin. cbn [mount responses].
  rewrite InitFacts.lookup_initialResponses.
  destruct (JS.eqb (id q) (id q0)) eqn:E; [discriminate|].
  destruct Hin as [<-|Hin]; [now rewrite eqb_refl in E|].
  now rewrite (InitFacts.hasId_In q rest Hin).
Qed.

Definition untimed (kv : jsstring * UserResponse) : Prop :=
  timeSpentSeconds (snd kv) = 0.

Lemma set_untimed (k : jsstring) (v : UserResponse) (tbl : Table.t) :
  timeSpentSeconds v = 0 -> Forall untimed tbl ->
  Forall untimed (Table.set k v tbl).
Proof.
  intros Hv. induction 1 as [|[k' v'] rest Hkv Hrest IH]; cbn [Table.set].
  - now repeat constructor.
  - destruct (JS.eqb k k'); constructor; auto.
Qed.

Lemma lookup_untimed (k : jsstring) (r : UserResponse) (tbl : Table.t) :
  Forall untimed tbl -> Table.lookup k tbl = Some r -> timeSpentSeconds r = 0.
Proof.
  induction 1 as [|[k' v'] rest Hkv Hrest IH]; cbn [Table.lookup];
    [discriminate|].
  destruct (JS.eqb k k'); [|exact IH]. intros [= <-]. exact Hkv.
Qed.

Lemma untimed_total (tbl : Table.t) :
  Forall untimed tbl -> totalTimeSpent tbl = 0.
Proof.
  induction 1 as [|[k' v'] rest Hkv Hrest IH]; cbn [totalTimeSpent];
    [reflexivity|].
  unfold untimed in Hkv. cbn [snd] in Hkv. lia.
Qed.

Lemma initialResponses_untimed (qs : list Question) :
  Forall untimed (initialResponses qs).
Proof.
  unfold initialResponses. cbv zeta.
  assert (H : forall (l : list Question) (acc : Table.t),
             Forall untimed acc ->
             Forall untimed
               (fold_left
                  (fun initial q =>
                     Table.set (id q)
                       (mkUserResponse (id q) None NOT_VISITED 0) initial)
                  l acc)).
  { induction l as [|q l IH]; intros acc Hacc; cbn [fold_left]; [exact Hacc|].
    apply IH. now apply set_untimed. }
  specialize (H qs [] (Forall_nil _)).
  destruct qs as [|q0 rest]; [exact H|].
  destruct (Table.lookup (id q0) _) as [r|] eqn:Hl; [|exact H].
  apply set_untimed; [|exact H].
  cbn [with_status timeSpentSeconds]. now apply (lookup_untimed _ _ _ H Hl).
Qed.

End TimeFacts.

(* ================================================================== *)
(** ** The end of a test *)

Module FinishFacts.

Import App Program Measures TestInterface ProgramFacts.

Lemma inSession_sameTest (e : Event) : inSession e = true -> sameTest e = true.
Proof. now destruct e. Qed.

Lemma forallb_inSession_sameTest (events : list Event) :
  forallb inSession events = true -> forallb sameTest events = true.
Proof.
  intros H. apply forallb_forall. intros e He.
  apply inSession_sameTest. revert e He. now apply forallb_forall.
Qed.

(** A submit, or the tick that finds at most one second left, calls
    [onFinish] once and unmounts the test. *)
Lemma step_finishing (sys : System) (s : State) (e : Event) :
  session sys = Some s -> sameTest e = true ->
  inSession e = false \/ (isTick e = true /\ timeLeft s <= 1) ->
  exists sys' sg,
    step sys e = (sys', [sg]) /\ session sys' = None
    /\ isExpired sg = isTick e.
Proof.
  intros Hs Hsame [Hout | [Htick Hle]].
  - destruct e; try discriminate.
    rewrite (step_submit sys s clock Hs). eexists _, _.
    split; [reflexivity|]. split; [|reflexivity].
    apply commit_handleTestFinish.
  - destruct e; try discriminate.
    rewrite (step_tick_expiring sys s clock Hs Hle). eexists _, _.
    split; [reflexivity|]. split; [|reflexivity].
    apply commit_handleTestFinish.
Qed.

Lemma sessionAfter_nonneg (e : Event) (s : State) :
  0 <= timeLeft s -> 0 <= timeLeft (sessionAfter e s).
Proof.
  intros H. rewrite sessionAfter_timeLeft. destruct (isTick e); [|exact H].
  unfold timeLeftUpdater. destruct (Z.leb_spec (timeLeft s) 1); cbn; lia.
Qed.

(** Within one test: the remaining time of a mounted test is never
    negative, [onFinish] is called at most once, and not at all while the
    test is mounted. *)
Lemma run_same_test (events : list Event) :
  forall (sys : System) (s : State),
    session sys = Some s ->
    forallb sameTest events = true ->
    0 <= timeLeft s ->
    (forall s', session (fst (run sys events)) = Some s' -> 0 <= timeLeft s')
    /\ (List.length (snd (run sys events)) <= 1)%nat
    /\ (session (fst (run sys events)) <> None -> snd (run sys events) = []).
Proof.
  induction events as [|e rest IH]; intros sys s Hs Hev Hnn.
  - cbn [run fst snd]. split; [|split; [cbn; lia | reflexivity]].
    intros s' Hs'. congruence.
  - simpl in Hev. apply andb_prop in Hev as [He Hrest]. cbn [run].
    assert (Hcases : (inSession e = true /\ (isTick e = true -> 1 < timeLeft s))
                     \/ (inSession e = false
                         \/ (isTick e = true /\ timeLeft s <= 1))).
    { destruct (inSession e); [|now right; left].
      destruct (isTick e); [|left; split; [reflexivity | discriminate]].
      destruct (Z.leb_spec (timeLeft s) 1); [right; right | left]; auto. }
    destruct Hcases as [[Hin Hrun] | Hfin].
    + rewrite (step_mounted sys s e Hs Hin Hrun).
      destruct (IH (withSession sys (sessionAfter e s)) (sessionAfter e s)
                  eq_refl Hrest (sessionAfter_nonneg e s Hnn))
        as (Ha & Hb & Hc).
      destruct (run (withSession sys (sessionAfter e s)) rest) as [sys'' out].
      cbn [fst snd List.app] in *. auto.
    + destruct (step_finishing sys s e Hs He Hfin) as (sys' & sg & Hst & Hnone & _).
      rewrite Hst, (run_unmounted rest sys' Hnone Hrest). cbn [fst snd List.app].
      split; [intros s' Hs'; congruence|]. split; [cbn; lia|].
      intros Hne. now rewrite Hnone in Hne.
Qed.

(** Once as many ticks have fired as seconds were left (and at least one),
    the timer has called [onFinish] exactly once and the test is unmounted. *)
Lemma run_expires (events : list Event) :
  forall (sys : System) (s : State),
    session sys = Some s ->
    forallb inSession events = true ->
    timeLeft s <= ticksOf events -> 1 <= ticksOf events ->
    exists sys' userResponses,
      run sys events = (sys', [Expired userResponses])
      /\ session sys' = None.
Proof.
  induction events as [|e rest IH]; intros sys s Hs Hev Hle Hone.
  - unfold ticksOf in Hone. cbn in Hone. lia.
  - simpl in Hev. apply andb_prop in Hev as [He Hrest].
    rewrite ticksOf_cons in Hle, Hone. cbn [run].
    destruct (isTick e) eqn:Ht.
    + destruct (Z.leb_spec (timeLeft s) 1) as [Hlast | Hmore].
      * destruct e; try discriminate.
        rewrite (step_tick_expiring sys s clock Hs Hlast).
        rewrite run_unmounted;
          [| apply commit_handleTestFinish
           | now apply forallb_inSession_sameTest].
        eexists _, _. split; [reflexivity|]. apply commit_handleTestFinish.
      * rewrite (step_mounted sys s e Hs He (fun _ => Hmore)).
        destruct (IH (withSession sys (sessionAfter e s)) (sessionAfter e s)
                    eq_refl Hrest) as (sys' & rs & Hr & Hnone).
        { rewrite sessionAfter_timeLeft, Ht. unfold timeLeftUpdater.
          destruct (Z.leb_spec (timeLeft s) 1); cbn [fst]; lia. }
        { lia. }
        rewrite Hr. now exists sys', rs.
    + rewrite (step_mounted sys s e Hs He) by (rewrite Ht; discriminate).
      destruct (IH (withSession sys (sessionAfter e s)) (sessionAfter e s)
                  eq_refl Hrest) as (sys' & rs & Hr & Hnone).
      { rewrite sessionAfter_timeLeft, Ht. lia. }
      { lia. }
      rewrite Hr. now exists sys', rs.
Qed.

Lemma expirations_le_length (out : list Signal) :
  expirations out <= Z.of_nat (List.length out).
Proof.
  unfold expirations. apply inj_le. apply filter_length_le.
Qed.

End FinishFacts.

Section Timer.

Import App Program Measures TestInterface ProgramFacts FinishFacts.

(** C5.  A test mounted with [durationMinutes] has
    [totalSeconds = durationMinutes * 60] on its clock.  Over the events of
    that test: while fewer than [totalSeconds] ticks have fired, the
    remaining time is [totalSeconds] minus the number of ticks; the
    remaining time of the mounted test is never negative; the timer calls
    [onFinish] at most once, and exactly once when the ticks reach
    [totalSeconds]; after that the test is unmounted and further ticks do
    nothing. *)
Theorem timer_countdown (questions : list Question) (durationMinutes : Z)
    (sys : System) (events : list Event)
    (Hmounted : session sys = Some (mount questions durationMinutes))
    (Hduration : 0 <= durationMinutes)
    (Hevents : forallb sameTest events = true) :
  let totalSeconds := durationMinutes * 60 in
  let ticks := ticksOf events in
  let sys' := fst (run sys events) in
  let out := snd (run sys events) in
  (forallb inSession events = true -> ticks < totalSeconds ->
   exists s', session sys' = Some s'
              /\ timeLeft s' = totalSeconds - ticks /\ out = [])
  /\ (forall s', session sys' = Some s' -> 0 <= timeLeft s')
  /\ expirations out <= 1
  /\ (forallb inSession events = true -> totalSeconds <= ticks -> 1 <= ticks ->
      expirations out = 1 /\ session sys' = None)
  /\ (session sys' = None ->
      forall more, forallb sameTest more = true ->
                   run sys' more = (sys', [])).
Proof.
  intros totalSeconds ticks sys' out.
  assert (Hleft : timeLeft (mount questions durationMinutes) = totalSeconds)
    by reflexivity.
  destruct (run_same_test events sys _ Hmounted Hevents) as (Hnn & Hlen & _);
    [rewrite Hleft; unfold totalSeconds; lia|].
  split; [|split; [exact Hnn | split; [|split]]].
  - intros Hin Hlt.
    destruct (run_mounted events sys _ Hmounted Hin) as [Hr Ht];
      [now rewrite Hleft|].
    cbv zeta in Hr, Ht. unfold sys', out. rewrite Hr. cbn [fst snd].
    eexists. split; [reflexivity|]. split; [|reflexivity].
    now rewrite Ht, Hleft.
  - pose proof (expirations_le_length out). fold out in Hlen. lia.
  - intros Hin Hge Hone.
    destruct (run_expires events sys _ Hmounted Hin) as (sys1 & rs & Hr & Hn);
      [now rewrite Hleft | exact Hone |].
    unfold sys', out. rewrite Hr. cbn [fst snd]. split; [reflexivity|exact Hn].
  - intros Hnone more Hmore. now apply run_unmounted.
Qed.

Lemma timer_countdown_witness :
  let cfg := mkTestConfig [PHYSICS] [] 2 1 Mixed in
  let sys := fst (step Sample.boot (StartTest cfg (Resolved (Sample.paper 2)))) in
  let events := [Tick Sample.clock1; NavigateTo 1; Tick Sample.clock1;
                 OptionSelect (js "2"); Tick Sample.clock1] in
  exists s', session (fst (run sys events)) = Some s'
             /\ timeLeft s' = 1 * 60 - ticksOf events
             /\ snd (run sys events) = [].
Proof.
  intros cfg sys events.
  destruct (timer_countdown (Sample.paper 2) 1 sys events) as (H & _);
    [reflexivity | lia | reflexivity |].
  apply H; reflexivity.
Defined.

(** A one-minute test left alone: the sixtieth tick is the one that calls
    [onFinish], and it is the only one. *)
Example sixty_ticks_expire_once :
  let cfg := mkTestConfig [PHYSICS] [] 2 1 Mixed in
  let sys := fst (step Sample.boot (StartTest cfg (Resolved (Sample.paper 2)))) in
  map (fun n => expirations (snd (run sys (repeat (Tick Sample.clock1) n))))
    [59; 60; 61; 90]%nat
  = [0; 1; 1; 1].
Proof. vm_compute. reflexivity. Qed.

End Timer.

Section TimeAccounting.

Import App Program Measures TestInterface TableFacts ProgramFacts TimeFacts.

(** While the test is running.  In a test on a non-empty question set,
    after any events of the test with [N] ticks (fewer than the seconds on
    the clock, so that the test is still mounted) the [timeSpentSeconds] of
    the table add up to [N]; and the next tick, expiring or not, adds one
    second to the entry of the question at the current position and changes
    no other entry. *)
Theorem time_accounting (questions : list Question) (durationMinutes : Z)
    (sys : System) (events : list Event)
    (Hquestions : questions <> [])
    (Hmounted : session sys = Some (mount questions durationMinutes))
    (Hevents : forallb inSession events = true)
    (Hmounted_after : ticksOf events < durationMinutes * 60) :
  exists s',
    session (fst (run sys events)) = Some s'
    /\ totalTimeSpent (responses s') = ticksOf events
    /\ (exists q r,
          currentQuestion s' = Some q
          /\ Table.lookup (id q) (responses s') = Some r
          /\ forall k,
               Table.lookup k (responses (fst (tick s')))
               = if JS.eqb k (id q)
                 then Some (with_timeSpent r (timeSpentSeconds r + 1))
                 else Table.lookup k (responses s'))
    /\ totalTimeSpent (responses (fst (tick s'))) = ticksOf events + 1.
Proof.
  destruct questions as [|q0 rest]; [contradiction|].
  destruct (run_mounted events sys _ Hmounted Hevents) as [Hr _];
    [exact Hmounted_after|].
  cbv zeta in Hr. rewrite Hr. cbn [fst session withSession].
  destruct (fold_sessionAfter_ready (q0 :: rest) events _
              (mount_ready q0 rest durationMinutes)) as [Hready Htotal].
  cbv zeta in Hready, Htotal.
  set (s' := fold_left (fun s e => sessionAfter e s) events
               (mount (q0 :: rest) durationMinutes)) in *.
  assert (Hzero : totalTimeSpent (responses (mount (q0 :: rest) durationMinutes))
                  = 0).
  { apply untimed_total. apply initialResponses_untimed. }
  rewrite Hzero in Htotal.
  destruct (tick_table _ s' Hready) as (q & r & Hq & Hl & Hres & _ & _ & _ & Ht).
  exists s'. split; [reflexivity|]. split; [lia|]. split; [|lia].
  exists q, r. split; [exact Hq|]. split; [exact Hl|].
  intros k. rewrite Hres. apply lookup_set.
Qed.

Lemma time_accounting_witness :
  let cfg := mkTestConfig [PHYSICS] [] 2 1 Mixed in
  let sys := fst (step Sample.boot (StartTest cfg (Resolved (Sample.paper 2)))) in
  let events := [Tick Sample.clock1; NavigateTo 1; Tick Sample.clock1;
                 OptionSelect (js "2"); Tick Sample.clock1] in
  exists s', session (fst (run sys events)) = Some s'
             /\ totalTimeSpent (responses s') = 3
             /\ map timeSpentSeconds (Table.values (responses s')) = [1; 2].
Proof.
  intros cfg sys events.
  destruct (time_accounting (Sample.paper 2) 1 sys events)
    as (s' & Hs' & Htotal & _); [discriminate | reflexivity | reflexivity | reflexivity |].
  exists s'. split; [exact Hs'|]. split; [exact Htotal|].
  vm_compute in Hs'. injection Hs' as <-. reflexivity.
Defined.

(** What the expiring tick hands to [onFinish] is the table its callback
    captured at the last change of question, not the table of the moment:
    a one-minute test answered and left on its first question is submitted
    by the timer without the answer and without any time. *)
Example expiry_submits_the_captured_table :
  let cfg := mkTestConfig [PHYSICS] [] 1 1 Mixed in
  let sys := fst (step Sample.boot (StartTest cfg (Resolved (Sample.paper 1)))) in
  let events := OptionSelect (js "2") :: repeat (Tick Sample.clock1) 60 in
  snd (run sys events)
  = [Expired [mkUserResponse (id (Sample.question 0)) None NOT_ANSWERED 0]].
Proof. vm_compute. reflexivity. Qed.

(** C6 fails on a test that runs out of time.  A one-minute test on two
    questions: one tick on the first question, then the second question
    until the time is up.  Sixty ticks have fired, and the table that the
    expiring tick hands to [onFinish], which [App] stores and the result
    screen adds up, holds one second in all: it is the table that the
    interval callback captured at the change of question.  The submit
    button one tick earlier hands over the table of the moment, with all
    59 seconds. *)
Theorem expiry_submits_a_table_that_lost_ticks :
  let sys :=
    fst (step Sample.boot
           (StartTest (mkTestConfig [PHYSICS] [] 2 1 Mixed)
              (Resolved (Sample.paper 2)))) in
  let before :=
    [Tick Sample.clock1; NavigateTo 1] ++ repeat (Tick Sample.clock1) 58 in
  let expired := run sys (before ++ [Tick Sample.clock1]) in
  let submitted := run sys (before ++ [SubmitTest Sample.clock1]) in
  ticksOf (before ++ [Tick Sample.clock1]) = 60
  /\ (exists payload,
        snd expired = [Expired payload]
        /\ App.responses (app (fst expired)) = payload
        /\ map timeSpentSeconds payload = [1; 0]
        /\ ResultScreen.totalTime
             (ResultScreen.counters (Sample.paper 2) payload) = 1)
  /\ ticksOf (before ++ [SubmitTest Sample.clock1]) = 59
  /\ (exists payload,
        snd submitted = [Submitted payload]
        /\ map timeSpentSeconds payload = [1; 58]).
Proof.
  cbv zeta. split; [vm_compute; reflexivity|]. split.
  - eexists. split; [vm_compute; reflexivity|].
    split; vm_compute; [reflexivity|]. split; reflexivity.
  - split; [vm_compute; reflexivity|].
    eexists. split; vm_compute; reflexivity.
Qed.

End TimeAccounting.
Section Finish.

Import App Program Measures TestInterface ProgramFacts.

(** C3.  From every state of a running test, submitting twice leaves the
    program exactly where submitting once leaves it, and [onFinish] has
    been called once: the first submit hands the values of the table to
    [handleTestFinish], which stores them, puts one entry in front of the
    history (cut to 50), writes the history to [localStorage] and shows
    the result view, so that the test interface is unmounted; the second
    submit, and any later event of the test, finds no test interface,
    changes nothing and calls nothing.  The report on display is the one
    of the submitted responses, and the history has one new entry, not
    two. *)
Theorem explicit_finish (sys : System) (s : State) (c1 c2 : Clock)
    (later : list Event)
    (Hmounted : session sys = Some s)
    (Hlater : forallb sameTest later = true) :
  let payload := Table.values (responses s) in
  let once := run sys [SubmitTest c1] in
  let twice := run sys [SubmitTest c1; SubmitTest c2] in
  twice = once
  /\ snd twice = [Submitted payload]
  /\ session (fst twice) = None
  /\ view (app (fst twice)) = ViewResult
  /\ App.responses (app (fst twice)) = payload
  /\ ResultScreen.report (App.questions (app (fst twice)))
       (App.responses (app (fst twice)))
     = ResultScreen.report (App.questions (app sys)) payload
  /\ testHistory (app (fst twice))
     = firstn 50 (historyItem (app sys) c1 payload :: testHistory (app sys))
  /\ localStorage (fst twice) = Some (testHistory (app (fst twice)))
  /\ step (fst once) (SubmitTest c2) = (fst once, [])
  /\ run (fst twice) later = (fst twice, []).
Proof.
  cbv zeta. cbn [run].
  rewrite (step_submit sys s c1 Hmounted).
  destruct (commit_handleTestFinish (app sys) c1 (handleFinishTest s) sys)
    as (Hnone & Hview & Hres & Hhist & Hstore & Hqs).
  cbv zeta in Hnone, Hview, Hres, Hhist, Hstore, Hqs.
  set (sys1 := commit (handleTestFinish (app sys) c1 (handleFinishTest s))
                 sys) in *.
  assert (Hsecond : step sys1 (SubmitTest c2) = (sys1, []))
    by (now apply step_unmounted).
  rewrite Hsecond. cbn [fst snd List.app].
  split; [reflexivity|]. split; [reflexivity|]. split; [exact Hnone|].
  split; [exact Hview|]. split; [exact Hres|].
  split; [rewrite Hres, Hqs; reflexivity|].
  split; [exact Hhist|]. split; [now rewrite Hstore, Hhist|].
  split; [reflexivity|].
  now apply run_unmounted.
Qed.

Lemma explicit_finish_witness :
  let started :=
    fst (step Sample.boot
           (StartTest Sample.defaultConfig (Resolved (Sample.paper 2)))) in
  run started [SubmitTest Sample.clock1; SubmitTest Sample.clock2]
  = run started [SubmitTest Sample.clock1]
  /\ List.length
       (testHistory
          (app
             (fst (run started
                     [SubmitTest Sample.clock1; SubmitTest Sample.clock2]))))
     = 1%nat.
Proof.
  intros started.
  destruct (explicit_finish started (mount (Sample.paper 2) 45)
              Sample.clock1 Sample.clock2 [Tick Sample.clock2] eq_refl
              eq_refl)
    as (Hsame & _ & _ & _ & _ & _ & Hhist & _).
  split; [exact Hsame|].
  rewrite Hhist. reflexivity.
Defined.

End Finish.

(* ================================================================== *)
(** ** The table, entry by entry *)

Module EntryFacts.

Import Program Measures TestInterface TableFacts StatusModel ProgramFacts
       FinishFacts.

Lemma navigateTo_responses (index : Z) (s : State) :
  responses (navigateTo index s)
  = match at_index (questions s) index with
    | Some q =>
        match Table.lookup (id q) (responses s) with
        | Some r => Table.set (id q) (visit r) (responses s)
        | None => responses s
        end
    | None => responses s
    end.
Proof.
  unfold navigateTo. destruct (at_index (questions s) index) as [q|];
    [|reflexivity].
  cbn [responses]. now destruct (Table.lookup (id q) (responses s)).
Qed.

(** An event rewrites the entry of its target, and nothing else. *)
Lemma sessionAfter_responses (e : Event) (s : State) :
  responses (sessionAfter e s)
  = match target e s with
    | Some q =>
        match Table.lookup (id q) (responses s) with
        | Some r => Table.set (id q) (entryAfter e r) (responses s)
        | None => responses s
        end
    | None => responses s
    end.
Proof.
  destruct e; cbn [sessionAfter target destination entryAfter];
    try reflexivity.
  - unfold tick. destruct (timeLeftUpdater (timeLeft s)). cbn [fst responses].
    unfold trackTime. reflexivity.
  - apply navigateTo_responses.
  - destruct key; cbn [handleKeyDown]; apply navigateTo_responses.
  - unfold handleTabChange. destruct (negb _); [apply navigateTo_responses|].
    reflexivity.
  - unfold handleOptionSelect.
    destruct (currentQuestion s) as [q|]; cbn [orElse]; [|reflexivity].
    cbn [setResponses responses].
    now destruct (Table.lookup (id q) (responses s)).
  - unfold handleNumericalInput.
    destruct (currentQuestion s) as [q|]; cbn [orElse]; [|reflexivity].
    cbn [setResponses responses].
    now destruct (Table.lookup (id q) (responses s)).
  - unfold handleMarkForReview.
    destruct (currentQuestion s) as [q|]; cbn [orElse]; [|reflexivity].
    destruct (Table.lookup (id q) (responses s)) as [r|]; cbn [orElse];
      [|reflexivity].
    reflexivity.
  - unfold handleClearResponse.
    destruct (currentQuestion s) as [q|]; cbn [orElse]; [|reflexivity].
    cbn [setResponses responses].
    now destruct (Table.lookup (id q) (responses s)).
Qed.

Lemma navigateTo_questions (index : Z) (s : State) :
  questions (navigateTo index s) = questions s.
Proof. unfold navigateTo. now destruct (at_index (questions s) index). Qed.

Lemma sessionAfter_questions (e : Event) (s : State) :
  questions (sessionAfter e s) = questions s.
Proof.
  destruct e; cbn [sessionAfter]; try reflexivity.
  - unfold tick. now destruct (timeLeftUpdater (timeLeft s)).
  - apply navigateTo_questions.
  - destruct key; apply navigateTo_questions.
  - unfold handleTabChange. destruct (negb _);
      [apply navigateTo_questions | reflexivity].
  - unfold handleOptionSelect. now destruct (currentQuestion s).
  - unfold handleNumericalInput. now destruct (currentQuestion s).
  - unfold handleMarkForReview. destruct (currentQuestion s); [|easy].
    now destruct (Table.lookup _ _).
  - unfold handleClearResponse. now destruct (currentQuestion s).
Qed.

Lemma navigateTo_currentIndex (index : Z) (s : State) :
  currentIndex (navigateTo index s)
  = match at_index (questions s) index with
    | Some _ => index
    | None => currentIndex s
    end.
Proof. unfold navigateTo. now destruct (at_index (questions s) index). Qed.

(** Where the test interface stands after an event. *)
Lemma sessionAfter_currentIndex (e : Event) (s : State) :
  currentIndex (sessionAfter e s)
  = match destination e s with
    | Some index =>
        match at_index (questions s) index with
        | Some _ => index
        | None => currentIndex s
        end
    | None => currentIndex s
    end.
Proof.
  destruct e; cbn [sessionAfter destination]; try reflexivity.
  - unfold tick. now destruct (timeLeftUpdater (timeLeft s)).
  - apply navigateTo_currentIndex.
  - destruct key; apply navigateTo_currentIndex.
  - unfold handleTabChange. destruct (negb _);
      [apply navigateTo_currentIndex | reflexivity].
  - unfold handleOptionSelect. now destruct (currentQuestion s).
  - unfold handleNumericalInput. now destruct (currentQuestion s).
  - unfold handleMarkForReview. destruct (currentQuestion s); [|easy].
    now destruct (Table.lookup _ _).
  - unfold handleClearResponse. now destruct (currentQuestion s).
Qed.

(** The test interface that is mounted after some events of a test is the
    one the events produce from the first. *)
Lemma run_session (events : list Event) :
  forall (sys : System) (s s' : State),
    session sys = Some s ->
    forallb sameTest events = true ->
    session (fst (run sys events)) = Some s' ->
    s' = fold_left (fun s e => sessionAfter e s) events s
    /\ snd (run sys events) = [].
Proof.
  induction events as [|e rest IH]; intros sys s s' Hs Hev Hafter.
  - cbn in Hafter. cbn. split; [congruence | reflexivity].
  - simpl in Hev. apply andb_prop in Hev as [He Hrest].
    cbn [run fold_left] in *.
    assert (Hcases : (inSession e = true /\ (isTick e = true -> 1 < timeLeft s))
                     \/ (inSession e = false
                         \/ (isTick e = true /\ timeLeft s <= 1))).
    { destruct (inSession e); [|now right; left].
      destruct (isTick e); [|left; split; [reflexivity | discriminate]].
      destruct (Z.leb_spec (timeLeft s) 1); [right; right | left]; auto. }
    destruct Hcases as [[Hin Hrun] | Hfin].
    + rewrite (step_mounted sys s e Hs Hin Hrun) in *.
      specialize (IH (withSession sys (sessionAfter e s)) (sessionAfter e s) s'
                    eq_refl Hrest).
      destruct (run (withSession sys (sessionAfter e s)) rest) as [sys'' out].
      cbn [fst snd List.app] in *. auto.
    + destruct (step_finishing sys s e Hs He Hfin)
        as (sys1 & sg & Hst & Hnone & _).
      rewrite Hst, (run_unmounted rest sys1 Hnone Hrest) in Hafter.
      cbn [fst] in Hafter. congruence.
Qed.

End EntryFacts.

(* ================================================================== *)
(** ** Invariants of a running test *)

Module InvariantFacts.

Import Program Measures TestInterface TableFacts StatusModel ProgramFacts
       TimeFacts EntryFacts.

Lemma entryAfter_questionId (e : Event) (r : UserResponse) :
  questionId (entryAfter e r) = questionId r.
Proof. now destruct e. Qed.

Lemma visit_visited (r : UserResponse) : status (visit r) <> NOT_VISITED.
Proof. unfold visit. cbn [status]. now destruct (status r). Qed.

(** No event takes a status back to NOT_VISITED. *)
Lemma entryAfter_visited (e : Event) (r : UserResponse) :
  status r <> NOT_VISITED -> status (entryAfter e r) <> NOT_VISITED.
Proof.
  intros Hr. destruct e; cbn [entryAfter status with_status with_selection
                               with_timeSpent]; try assumption;
    try apply visit_visited.
  - now destruct (status r).
  - destruct (0 <? _); [now destruct (status r) | discriminate].
  - destruct (status r); cbn [QuestionStatus_eqb]; try discriminate;
      destruct (selectedOption r) as [sel|]; try discriminate;
      now destruct (truthy sel).
  - now destruct (status r).
Qed.

Lemma truthy_length (val : jsstring) :
  (0 <? Z.of_nat (List.length val)) = truthy val.
Proof. now destruct val. Qed.

(** An event from the controls keeps an entry coherent; for a tick the
    entry must be a visited one. *)
Lemma entryAfter_coherent (e : Event) (r : UserResponse) :
  fromControls e = true -> coherent r ->
  (isTick e = true -> status r <> NOT_VISITED) ->
  coherent (entryAfter e r).
Proof.
  intros He [Hshow Hnv] Htick. unfold coherent, hasSelection in *.
  destruct e; try discriminate;
    cbn [entryAfter status selectedOption timeSpentSeconds with_status
         with_selection with_timeSpent visit fromControls isTick] in *;
    try rewrite truthy_length; try rewrite He;
    try (specialize (Htick eq_refl));
    try (destruct (truthy val));
    destruct (status r) eqn:Hst;
    destruct (selectedOption r) as [sel|] eqn:Hsel;
    try (destruct (truthy sel));
    cbn [QuestionStatus_eqb showsAnswer] in *;
    try (split; [reflexivity || assumption || discriminate
                | try discriminate; try assumption;
                  intros _; try (now apply Hnv); now exfalso]);
    try discriminate; try (now destruct (Hnv eq_refl)).
Qed.

(** In a test that shows a question, an event either changes nothing or
    rewrites the entry of its target, which is then the current question. *)
Lemma sessionAfter_shape (qs : list Question) (e : Event) (s : State) :
  ready qs s ->
  sessionAfter e s = s
  \/ exists q r,
       target e s = Some q /\ In q qs
       /\ Table.lookup (id q) (responses s) = Some r
       /\ responses (sessionAfter e s)
          = Table.set (id q) (entryAfter e r) (responses s)
       /\ currentQuestion (sessionAfter e s) = Some q
       /\ ((stationary e = true /\ currentQuestion s = Some q)
           \/ entryAfter e r = visit r).
Proof.
  intros (Hqs & [q0 Hq0] & Hentries).
  assert (Hentry : forall q, In q qs ->
                     exists r, Table.lookup (id q) (responses s) = Some r).
  { intros q Hin. specialize (Hentries q Hin).
    destruct (Table.lookup (id q) (responses s)) as [r|]; [eauto|easy]. }
  assert (Hnav : forall index,
             destination e s = Some index ->
             (exists r, entryAfter e r = visit r) ->
             target e s = at_index (questions s) index ->
             sessionAfter e s = navigateTo index s ->
             sessionAfter e s = s
             \/ exists q r,
                  target e s = Some q /\ In q qs
                  /\ Table.lookup (id q) (responses s) = Some r
                  /\ responses (sessionAfter e s)
                     = Table.set (id q) (entryAfter e r) (responses s)
                  /\ currentQuestion (sessionAfter e s) = Some q
                  /\ ((stationary e = true /\ currentQuestion s = Some q)
                      \/ entryAfter e r = visit r)).
  { intros index Hd _ Ht Hs.
    destruct (at_index (questions s) index) as [q|] eqn:Hat.
    - right. assert (Hin : In q qs).
      { rewrite <- Hqs. now apply (at_index_In _ index). }
      destruct (Hentry q Hin) as [r Hr]. exists q, r.
      split; [exact Ht|]. split; [exact Hin|]. split; [exact Hr|].
      split; [now rewrite sessionAfter_responses, Ht, Hr|]. split.
      + unfold currentQuestion.
        rewrite sessionAfter_questions, sessionAfter_currentIndex, Hd, Hat.
        exact Hat.
      + right. destruct e; try discriminate; reflexivity.
    - left. rewrite Hs. unfold navigateTo. now rewrite Hat. }
  assert (Hstay : stationary e = true ->
             sessionAfter e s = s
             \/ exists q r,
                  target e s = Some q /\ In q qs
                  /\ Table.lookup (id q) (responses s) = Some r
                  /\ responses (sessionAfter e s)
                     = Table.set (id q) (entryAfter e r) (responses s)
                  /\ currentQuestion (sessionAfter e s) = Some q
                  /\ ((stationary e = true /\ currentQuestion s = Some q)
                      \/ entryAfter e r = visit r)).
  { intros Hst. right.
    assert (Hin : In q0 qs).
    { rewrite <- Hqs. now apply (at_index_In _ (currentIndex s)). }
    destruct (Hentry q0 Hin) as [r Hr]. exists q0, r.
    assert (Ht : target e s = Some q0) by (destruct e; try discriminate; exact Hq0).
    split; [exact Ht|]. split; [exact Hin|]. split; [exact Hr|].
    split; [now rewrite sessionAfter_responses, Ht, Hr|]. split.
    - unfold currentQuestion.
      rewrite sessionAfter_questions, sessionAfter_currentIndex.
      replace (destination e s) with (@None Z)
        by (destruct e; try discriminate; reflexivity).
      exact Hq0.
    - left. split; [exact Hst | exact Hq0]. }
  destruct e; try (apply Hstay; reflexivity); try (now left).
  - apply (Hnav index); try reflexivity. now exists (mkUserResponse [] None NOT_VISITED 0).
  - destruct key.
    + eapply Hnav; try reflexivity. now exists (mkUserResponse [] None NOT_VISITED 0).
    + eapply Hnav; try reflexivity. now exists (mkUserResponse [] None NOT_VISITED 0).
  - destruct (negb (findIndex (fun q => Subject_eqb (subject q) subject_)
                      (questions s) =? -1)) eqn:Hfound;
      [|left; cbn [sessionAfter]; unfold handleTabChange; now rewrite Hfound].
    apply (Hnav (findIndex (fun q => Subject_eqb (subject q) subject_)
                   (questions s))).
    + cbn [destination]. now rewrite Hfound.
    + now exists (mkUserResponse [] None NOT_VISITED 0).
    + cbn [target destination]. now rewrite Hfound.
    + cbn [sessionAfter]. unfold handleTabChange. now rewrite Hfound.
Qed.

Lemma lookup_keyed (k : jsstring) (r : UserResponse) (tbl : Table.t) :
  keyed tbl -> Table.lookup k tbl = Some r -> questionId r = k.
Proof.
  induction 1 as [|[k' v'] rest Hkv Hrest IH]; cbn [Table.lookup];
    [discriminate|].
  destruct (JS.eqb k k') eqn:E; [|exact IH].
  intros [= <-]. apply eqb_eq in E. now subst.
Qed.

Lemma set_keyed (k : jsstring) (v : UserResponse) (tbl : Table.t) :
  keyed tbl -> questionId v = k -> keyed (Table.set k v tbl).
Proof.
  intros Ht Hv. induction Ht as [|[k' v'] rest Hkv Hrest IH];
    cbn [Table.set].
  - now repeat constructor.
  - destruct (JS.eqb k k') eqn:E; constructor; auto.
    apply eqb_eq in E. now subst.
Qed.

(** On a keyed table, the [find] by [questionId] over its values is the
    lookup. *)
Lemma find_values (k : jsstring) (tbl : Table.t) :
  keyed tbl ->
  JS.find (fun r => JS.eqb (questionId r) k) (Table.values tbl)
  = Table.lookup k tbl.
Proof.
  unfold JS.find, Table.values.
  induction 1 as [|[k' v'] rest Hkv Hrest IH]; [reflexivity|].
  cbn [map snd List.find Table.lookup]. cbn [fst snd] in Hkv. rewrite Hkv.
  destruct (JS.eqb k k') eqn:E.
  - apply eqb_eq in E. subst. now rewrite eqb_refl.
  - apply eqb_neq in E.
    replace (JS.eqb k' k) with false
      by (symmetry; apply eqb_neq; congruence).
    exact IH.
Qed.

Lemma initialResponses_keyed (qs : list Question) :
  keyed (initialResponses qs).
Proof.
  unfold initialResponses. cbv zeta.
  assert (H : forall (l : list Question) (acc : Table.t),
             keyed acc ->
             keyed
               (fold_left
                  (fun initial q =>
                     Table.set (id q)
                       (mkUserResponse (id q) None NOT_VISITED 0) initial)
                  l acc)).
  { induction l as [|q l IH]; intros acc Hacc; cbn [fold_left]; [exact Hacc|].
    apply IH. now apply set_keyed. }
  specialize (H qs [] (Forall_nil _)).
  destruct qs as [|q0 rest]; [exact H|].
  destruct (Table.lookup (id q0) _) as [r|] eqn:Hl; [|exact H].
  apply set_keyed; [exact H|].
  cbn [with_status questionId]. now apply (lookup_keyed _ _ _ H Hl).
Qed.

Lemma sessionAfter_keyed (e : Event) (s : State) :
  keyed (responses s) -> keyed (responses (sessionAfter e s)).
Proof.
  intros Hk. rewrite sessionAfter_responses.
  destruct (target e s) as [q|]; [|exact Hk].
  destruct (Table.lookup (id q) (responses s)) as [r|] eqn:Hl; [|exact Hk].
  apply set_keyed; [exact Hk|].
  rewrite entryAfter_questionId. now apply (lookup_keyed _ _ _ Hk Hl).
Qed.

Lemma fold_sessionAfter_keyed (events : list Event) :
  forall s : State,
    keyed (responses s) ->
    keyed (responses (fold_left (fun s e => sessionAfter e s) events s)).
Proof.
  induction events as [|e rest IH]; intros s Hk; cbn [fold_left]; [exact Hk|].
  apply IH. now apply sessionAfter_keyed.
Qed.

End InvariantFacts.

Module RunFacts.

Import Program Measures TestInterface TableFacts StatusModel ProgramFacts
       TimeFacts EntryFacts InvariantFacts.

Lemma set_allEntries (P : UserResponse -> Prop) (k : jsstring)
    (v : UserResponse) (tbl : Table.t) :
  P v -> allEntries P tbl -> allEntries P (Table.set k v tbl).
Proof.
  intros Hv. induction 1 as [|[k' v'] rest Hkv Hrest IH]; cbn [Table.set].
  - now repeat constructor.
  - destruct (JS.eqb k k'); constructor; auto.
Qed.

Lemma lookup_allEntries (P : UserResponse -> Prop) (k : jsstring)
    (r : UserResponse) (tbl : Table.t) :
  allEntries P tbl -> Table.lookup k tbl = Some r -> P r.
Proof.
  induction 1 as [|[k' v'] rest Hkv Hrest IH]; cbn [Table.lookup];
    [discriminate|].
  destruct (JS.eqb k k'); [|exact IH]. intros [= <-]. exact Hkv.
Qed.

Lemma set_same (k : jsstring) (r : UserResponse) (tbl : Table.t) :
  Table.lookup k tbl = Some r -> Table.set k r tbl = tbl.
Proof.
  induction tbl as [|[k' v'] rest IH]; cbn [Table.lookup Table.set];
    [discriminate|].
  destruct (JS.eqb k k'); [now intros [= ->]|].
  intros H. now rewrite IH.
Qed.

Lemma set_set (k : jsstring) (v v' : UserResponse) (tbl : Table.t) :
  Table.set k v' (Table.set k v tbl) = Table.set k v' tbl.
Proof.
  induction tbl as [|[k' v0] rest IH]; cbn [Table.set].
  - now rewrite eqb_refl.
  - destruct (JS.eqb k k') eqn:E; cbn [Table.set]; rewrite E;
      [reflexivity | now rewrite IH].
Qed.

(** The question on display stays a visited one. *)
Lemma sessionAfter_currentVisited (qs : list Question) (e : Event) (s : State) :
  ready qs s -> currentVisited s -> currentVisited (sessionAfter e s).
Proof.
  intros Hready Hcur.
  destruct (sessionAfter_shape qs e s Hready)
    as [-> | (q & r & _ & _ & Hr & Hres & Hq & Hkind)]; [exact Hcur|].
  intros q' r' Hq' Hr'. rewrite Hq in Hq'. injection Hq' as <-.
  rewrite Hres, lookup_set_same in Hr'. injection Hr' as <-.
  destruct Hkind as [[_ Hsame] | ->]; [|apply visit_visited].
  apply entryAfter_visited. now apply (Hcur q r).
Qed.

Lemma mount_currentVisited (q0 : Question) (rest : list Question) (d : Z) :
  currentVisited (mount (q0 :: rest) d).
Proof.
  intros q r Hq Hr. cbn in Hq. injection Hq as <-.
  cbn [mount responses] in Hr.
  rewrite InitFacts.lookup_initialResponses, eqb_refl in Hr.
  now injection Hr as <-.
Qed.

Lemma initialResponses_coherent (qs : list Question) :
  allEntries coherent (initialResponses qs).
Proof.
  unfold initialResponses. cbv zeta.
  assert (H : forall (l : list Question) (acc : Table.t),
             allEntries coherent acc ->
             allEntries coherent
               (fold_left
                  (fun initial q =>
                     Table.set (id q)
                       (mkUserResponse (id q) None NOT_VISITED 0) initial)
                  l acc)).
  { induction l as [|q l IH]; intros acc Hacc; cbn [fold_left]; [exact Hacc|].
    apply IH. apply set_allEntries; [|exact Hacc]. now split. }
  specialize (H qs [] (Forall_nil _)).
  destruct qs as [|q0 rest]; [exact H|].
  destruct (Table.lookup (id q0) _) as [r|] eqn:Hl; [|exact H].
  apply set_allEntries; [|exact H].
  destruct (lookup_allEntries _ _ _ _ H Hl) as [Hshow Hnv].
  unfold coherent, hasSelection in *.
  cbn [with_status status selectedOption timeSpentSeconds].
  split; [|discriminate].
  pose proof (InitFacts.lookup_forEach (id q0) (q0 :: rest) []) as Hf.
  rewrite Hl in Hf.
  replace (InitFacts.hasId (id q0) (q0 :: rest)) with true in Hf
    by (unfold InitFacts.hasId; simpl existsb; now rewrite eqb_refl).
  injection Hf as ->. reflexivity.
Qed.

(** What holds of a test on [qs] from its mount and after every event from
    the controls. *)
Definition tidy (qs : list Question) (s : State) : Prop :=
  ready qs s /\ currentVisited s /\ allEntries coherent (responses s).

Lemma sessionAfter_tidy (qs : list Question) (e : Event) (s : State) :
  fromControls e = true -> tidy qs s -> tidy qs (sessionAfter e s).
Proof.
  intros He (Hready & Hcur & Hall).
  split; [now apply sessionAfter_ready|].
  split; [now apply (sessionAfter_currentVisited qs)|].
  destruct (sessionAfter_shape qs e s Hready)
    as [-> | (q & r & _ & _ & Hr & Hres & _ & Hkind)]; [exact Hall|].
  rewrite Hres. apply set_allEntries; [|exact Hall].
  apply entryAfter_coherent; [exact He | now apply (lookup_allEntries _ _ _ _ Hall Hr) |].
  intros Htick. destruct Hkind as [[_ Hsame] | Hvisit].
  - now apply (Hcur q r).
  - destruct e; try discriminate.
    unfold visit, with_status, with_timeSpent in Hvisit. cbn in Hvisit.
    injection Hvisit as _ Htime. lia.
Qed.

Lemma fold_sessionAfter_tidy (qs : list Question) (events : list Event) :
  forall s : State,
    forallb fromControls events = true -> tidy qs s ->
    tidy qs (fold_left (fun s e => sessionAfter e s) events s).
Proof.
  induction events as [|e rest IH]; intros s Hev Ht; cbn [fold_left];
    [exact Ht|].
  simpl in Hev. apply andb_prop in Hev as [He Hrest].
  apply IH; [exact Hrest | now apply sessionAfter_tidy].
Qed.

Lemma mount_tidy (q0 : Question) (rest : list Question) (d : Z) :
  tidy (q0 :: rest) (mount (q0 :: rest) d).
Proof.
  split; [apply mount_ready|]. split; [apply mount_currentVisited|].
  apply initialResponses_coherent.
Qed.

Lemma fromControls_sameTest (events : list Event) :
  forallb fromControls events = true -> forallb sameTest events = true.
Proof.
  intros H. apply forallb_forall. intros e He.
  assert (Hc : fromControls e = true)
    by (revert e He; now apply forallb_forall).
  now destruct e.
Qed.

(** A test that shows a question keeps doing so, on a visited entry. *)
Lemma fold_sessionAfter_visited (qs : list Question) (events : list Event) :
  forall s : State,
    ready qs s -> currentVisited s ->
    let s' := fold_left (fun s e => sessionAfter e s) events s in
    ready qs s' /\ currentVisited s'.
Proof.
  induction events as [|e rest IH]; intros s Hr Hc; cbn [fold_left];
    [now split|].
  apply IH; [now apply sessionAfter_ready|].
  now apply (sessionAfter_currentVisited qs).
Qed.

Lemma at_index_bounds {A : Type} (l : list A) (i : Z) (a : A) :
  at_index l i = Some a -> 0 <= i < Z.of_nat (List.length l).
Proof.
  unfold at_index. destruct (Z.ltb_spec i 0) as [Hneg | Hpos]; [discriminate|].
  intros Hs. assert (Hn : nth_error l (Z.to_nat i) <> None) by congruence.
  apply nth_error_Some in Hn. lia.
Qed.

Lemma at_index_outside {A : Type} (l : list A) (i : Z) :
  i < 0 \/ Z.of_nat (List.length l) <= i -> at_index l i = None.
Proof.
  unfold at_index. intros [H | H].
  - replace (i <? 0) with true by (symmetry; apply Z.ltb_lt; lia).
    reflexivity.
  - destruct (i <? 0); [reflexivity|]. apply nth_error_None. lia.
Qed.

Lemma at_index_inside {A : Type} (l : list A) (i : Z) :
  0 <= i < Z.of_nat (List.length l) -> exists a, at_index l i = Some a.
Proof.
  intros H. unfold at_index.
  replace (i <? 0) with false by (symmetry; apply Z.ltb_ge; lia).
  destruct (nth_error l (Z.to_nat i)) eqn:E; [eauto|].
  apply nth_error_None in E. lia.
Qed.

End RunFacts.

Module NavigationFacts.

Import Program Measures TestInterface TableFacts StatusModel RunFacts.

Lemma at_index_cons_succ {A : Type} (a : A) (l : list A) (i : Z) :
  0 <= i -> at_index (a :: l) (i + 1) = at_index l i.
Proof.
  intros Hi. unfold at_index.
  replace (i + 1 <? 0) with false by (symmetry; apply Z.ltb_ge; lia).
  replace (i <? 0) with false by (symmetry; apply Z.ltb_ge; lia).
  replace (Z.to_nat (i + 1)) with (S (Z.to_nat i)) by lia. reflexivity.
Qed.

(** [findIndex] returns -1 when nothing matches and the index of the first
    match otherwise. *)
Lemma findIndex_spec (p : Question -> bool) (l : list Question) :
  (findIndex p l = -1 /\ forall q, In q l -> p q = false)
  \/ (exists q,
        0 <= findIndex p l
        /\ at_index l (findIndex p l) = Some q /\ p q = true
        /\ forall j q', 0 <= j < findIndex p l -> at_index l j = Some q' ->
                        p q' = false).
Proof.
  induction l as [|a l IH]; cbn [findIndex].
  - left. split; [reflexivity | intros q []].
  - destruct (p a) eqn:Ha.
    + right. exists a. split; [lia|]. split; [reflexivity|].
      split; [exact Ha|]. intros j q' Hj. lia.
    + destruct IH as [[Hnone Hall] | (q & Hpos & Hat & Hq & Hbefore)].
      * left. rewrite Hnone. cbn. split; [reflexivity|].
        intros q [<- | Hin]; [exact Ha | now apply Hall].
      * right. exists q.
        replace (findIndex p l =? -1) with false
          by (symmetry; apply Z.eqb_neq; lia).
        split; [lia|]. split; [now rewrite at_index_cons_succ|].
        split; [exact Hq|]. intros j q' Hj Hat'.
        destruct (Z.eq_dec j 0) as [-> | Hj0].
        -- cbn in Hat'. now injection Hat' as <-.
        -- replace j with ((j - 1) + 1) in Hat' by lia.
           rewrite at_index_cons_succ in Hat' by lia.
           apply (Hbefore (j - 1) q'); [lia | exact Hat'].
Qed.

Lemma visit_of_visited (r : UserResponse) :
  status r <> NOT_VISITED -> visit r = r.
Proof. destruct r as [k sel st t]. unfold visit. cbn. now destruct st. Qed.

(** Going to the question on display changes nothing. *)
Lemma navigateTo_current (qs : list Question) (s : State) :
  ready qs s -> currentVisited s -> navigateTo (currentIndex s) s = s.
Proof.
  intros (Hqs & [q Hq] & Hentries) Hcur. unfold navigateTo.
  unfold currentQuestion in Hq. rewrite Hq.
  assert (Hin : In q qs).
  { rewrite <- Hqs. now apply (TimeFacts.at_index_In _ (currentIndex s)). }
  destruct (Table.lookup (id q) (responses s)) as [r|] eqn:Hr;
    [|now apply Hentries in Hin].
  fold (visit r). rewrite visit_of_visited by now apply (Hcur q r).
  rewrite (set_same _ _ _ Hr), Z.eqb_refl. now destruct s.
Qed.

End NavigationFacts.

Section SessionProperties.

Import Program Measures TestInterface TableFacts StatusModel ProgramFacts
       TimeFacts EntryFacts InvariantFacts RunFacts NavigationFacts.

Variable questions_ : list Question.
Variable durationMinutes_ : Z.
Variable sys : System.
Variable events : list Event.
Variable s' : State.
Hypothesis Hmounted : session sys = Some (mount questions_ durationMinutes_).
Hypothesis Hafter : session (fst (run sys events)) = Some s'.

(** X4.  The lookup that [ResultScreen] and [handleTestFinish] do in the submitted
    list, [responses.find(r => r.questionId === q.id)], returns the entry
    the table holds under the id of the question, at any moment of a test. *)
Theorem find_in_submitted_list_is_table_lookup
    (Hevents : forallb sameTest events = true) (q : Question) :
  ResultScreen.responseOf (handleFinishTest s') q
  = Table.lookup (id q) (responses s').
Proof.
  destruct (run_session events sys _ s' Hmounted Hevents Hafter) as [-> _].
  unfold ResultScreen.responseOf, handleFinishTest. apply find_values.
  apply fold_sessionAfter_keyed. apply initialResponses_keyed.
Qed.

(** X1.  Whatever the candidate does, every entry of the table shows an answer
    (ANSWERED or ANSWERED_AND_MARKED) exactly when it holds a non-empty
    selection, and an entry still NOT_VISITED has no selection and no time. *)
Theorem status_agrees_with_selection
    (Hquestions : questions_ <> [])
    (Hevents : forallb fromControls events = true)
    (k : jsstring) (r : UserResponse)
    (Hentry : Table.lookup k (responses s') = Some r) :
  showsAnswer (status r) = hasSelection r
  /\ (status r = NOT_VISITED ->
      selectedOption r = None /\ timeSpentSeconds r = 0).
Proof.
  destruct questions_ as [|q0 rest]; [contradiction|].
  destruct (run_session events sys _ s' Hmounted
              (fromControls_sameTest _ Hevents) Hafter) as [-> _].
  destruct (fold_sessionAfter_tidy (q0 :: rest) events _ Hevents
              (mount_tidy q0 rest durationMinutes_)) as (_ & _ & Hall).
  exact (lookup_allEntries _ _ _ _ Hall Hentry).
Qed.

(** X2.  In a test on a non-empty question set the current index is always
    inside the list, the question on display has an entry which is not
    NOT_VISITED, and none of the four answer handlers throws. *)
Theorem handlers_never_throw
    (Hquestions : questions_ <> [])
    (Hevents : forallb sameTest events = true) :
  0 <= currentIndex s' < Z.of_nat (List.length questions_)
  /\ exists q r,
       currentQuestion s' = Some q /\ In q questions_
       /\ Table.lookup (id q) (responses s') = Some r
       /\ status r <> NOT_VISITED
       /\ (forall v, handleOptionSelect v s' <> None)
       /\ (forall v, handleNumericalInput v s' <> None)
       /\ handleMarkForReview s' <> None
       /\ handleClearResponse s' <> None.
Proof.
  destruct questions_ as [|q0 rest] eqn:Hqs; [contradiction|].
  destruct (run_session events sys _ s' Hmounted Hevents Hafter) as [-> _].
  destruct (fold_sessionAfter_visited (q0 :: rest) events _
              (mount_ready q0 rest durationMinutes_)
              (mount_currentVisited q0 rest durationMinutes_))
    as [Hready Hcur].
  cbv zeta in Hready, Hcur.
  set (s1 := fold_left (fun s e => sessionAfter e s) events
               (mount (q0 :: rest) durationMinutes_)) in *.
  destruct Hready as (Hq & [q Hcq] & Hentries).
  assert (Hin : In q (q0 :: rest)).
  { rewrite <- Hq. now apply (at_index_In _ (currentIndex s1)). }
  destruct (Table.lookup (id q) (responses s1)) as [r|] eqn:Hr;
    [|now apply Hentries in Hin].
  split.
  - rewrite <- Hq. now apply (at_index_bounds _ _ q).
  - exists q, r. split; [exact Hcq|]. split; [exact Hin|].
    split; [exact Hr|]. split; [now apply (Hcur q r)|].
    unfold handleOptionSelect, handleNumericalInput, handleMarkForReview,
      handleClearResponse.
    rewrite Hcq, Hr. repeat split; discriminate.
Qed.

(** X6.  Going to the question already on display (a tap on its palette
    button, the left arrow on the first question, the right arrow on the
    last) changes neither the questions, the current index, the time left,
    the responses nor the table the timer holds, and it closes the palette
    drawer. *)
Theorem navigating_to_the_current_question_keeps_the_test
    (Hquestions : questions_ <> [])
    (Hevents : forallb sameTest events = true) :
  navigateTo (currentIndex s') s' = s'
  /\ (forall isPaletteOpen : bool,
        Palette.isPaletteOpenAfter (currentIndex s') s' isPaletteOpen = false)
  /\ (currentIndex s' = 0 -> handleKeyDown ArrowLeft s' = s')
  /\ (currentIndex s' = Z.of_nat (List.length questions_) - 1 ->
      handleKeyDown ArrowRight s' = s').
Proof.
  destruct questions_ as [|q0 rest] eqn:Hqs; [contradiction|].
  destruct (run_session events sys _ s' Hmounted Hevents Hafter) as [-> _].
  destruct (fold_sessionAfter_visited (q0 :: rest) events _
              (mount_ready q0 rest durationMinutes_)
              (mount_currentVisited q0 rest durationMinutes_))
    as [Hready Hcur].
  cbv zeta in Hready, Hcur.
  set (s1 := fold_left (fun s e => sessionAfter e s) events
               (mount (q0 :: rest) durationMinutes_)) in *.
  pose proof (navigateTo_current _ s1 Hready Hcur) as Hnav.
  split; [exact Hnav|]. split; [|split].
  - intros isPaletteOpen. unfold Palette.isPaletteOpenAfter.
    destruct Hready as (_ & [q Hq] & _). unfold currentQuestion in Hq.
    now rewrite Hq.
  - intros H0. cbn [handleKeyDown].
    replace (Z.max 0 (currentIndex s1 - 1)) with (currentIndex s1) by lia.
    exact Hnav.
  - intros Hlast. cbn [handleKeyDown].
    destruct Hready as (Hq & _ & _). rewrite Hq.
    replace (Z.min (Z.of_nat (List.length (q0 :: rest)) - 1)
               (currentIndex s1 + 1))
      with (currentIndex s1) by lia.
    exact Hnav.
Qed.

End SessionProperties.

Section SessionWitnesses.

Import Program Measures TestInterface StatusModel Walkthrough.

Lemma walkthrough_mounted :
  session started = Some (mount (Sample.paper 2) 1).
Proof. vm_compute. reflexivity. Qed.

Lemma walkthrough_after : session (fst (run started events)) = Some after.
Proof. vm_compute. reflexivity. Qed.

Lemma walkthrough_questions : questions after = Sample.paper 2.
Proof. vm_compute. reflexivity. Qed.

Lemma walkthrough_sameTest : forallb sameTest events = true.
Proof. reflexivity. Qed.

Lemma walkthrough_fromControls : forallb fromControls events = true.
Proof. reflexivity. Qed.

Lemma find_in_submitted_list_is_table_lookup_witness :
  ResultScreen.responseOf (handleFinishTest after) (Sample.question 1)
  = Table.lookup (id (Sample.question 1)) (responses after).
Proof.
  exact (find_in_submitted_list_is_table_lookup (Sample.paper 2) 1 started
           events after walkthrough_mounted walkthrough_after
           walkthrough_sameTest (Sample.question 1)).
Defined.

Lemma status_agrees_with_selection_witness :
  let r := mkUserResponse (id (Sample.question 1)) (Some []) NOT_ANSWERED 2 in
  showsAnswer (status r) = hasSelection r
  /\ (status r = NOT_VISITED ->
      selectedOption r = None /\ timeSpentSeconds r = 0).
Proof.
  intros r.
  assert (Hentry : Table.lookup (id (Sample.question 1)) (responses after)
                   = Some r) by (vm_compute; reflexivity).
  exact (status_agrees_with_selection (Sample.paper 2) 1 started events after
           walkthrough_mounted walkthrough_after ltac:(discriminate)
           walkthrough_fromControls (id (Sample.question 1)) r Hentry).
Defined.

Lemma handlers_never_throw_witness :
  0 <= currentIndex after < 2
  /\ exists q r,
       currentQuestion after = Some q /\ In q (Sample.paper 2)
       /\ Table.lookup (id q) (responses after) = Some r
       /\ status r <> NOT_VISITED
       /\ (forall v, handleOptionSelect v after <> None)
       /\ (forall v, handleNumericalInput v after <> None)
       /\ handleMarkForReview after <> None
       /\ handleClearResponse after <> None.
Proof.
  exact (handlers_never_throw (Sample.paper 2) 1 started events after
           walkthrough_mounted walkthrough_after ltac:(discriminate)
           walkthrough_sameTest).
Defined.

Lemma navigating_to_the_current_question_keeps_the_test_witness :
  navigateTo (currentIndex after) after = after
  /\ Palette.isPaletteOpenAfter (currentIndex after) after true = false
  /\ handleKeyDown ArrowRight after = after.
Proof.
  destruct (navigating_to_the_current_question_keeps_the_test
              (Sample.paper 2) 1 started events after
              walkthrough_mounted walkthrough_after ltac:(discriminate)
              walkthrough_sameTest)
    as (Hnav & Hpalette & _ & Hright).
  split; [exact Hnav|]. split; [exact (Hpalette true)|].
  apply Hright. vm_compute. reflexivity.
Defined.

End SessionWitnesses.

Module StatusFacts.

Import Program Measures TestInterface TableFacts StatusModel ProgramFacts
       TimeFacts EntryFacts InvariantFacts RunFacts.

(** An entry that is visited is still there, and visited, after an event. *)
Lemma sessionAfter_keeps_visited (e : Event) (s : State) (k : jsstring)
    (r : UserResponse) :
  Table.lookup k (responses s) = Some r -> status r <> NOT_VISITED ->
  exists r', Table.lookup k (responses (sessionAfter e s)) = Some r'
             /\ status r' <> NOT_VISITED.
Proof.
  intros Hr Hv. rewrite sessionAfter_responses.
  destruct (target e s) as [q|]; [|eauto].
  destruct (Table.lookup (id q) (responses s)) as [r0|] eqn:Hr0; [|eauto].
  rewrite lookup_set. destruct (JS.eqb k (id q)) eqn:E; [|eauto].
  apply eqb_eq in E. subst k. rewrite Hr in Hr0. injection Hr0 as <-.
  eexists. split; [reflexivity|]. now apply entryAfter_visited.
Qed.

Lemma fold_keeps_visited (events : list Event) :
  forall (s : State) (k : jsstring) (r : UserResponse),
    Table.lookup k (responses s) = Some r -> status r <> NOT_VISITED ->
    exists r',
      Table.lookup k
        (responses (fold_left (fun s e => sessionAfter e s) events s))
      = Some r'
      /\ status r' <> NOT_VISITED.
Proof.
  induction events as [|e rest IH]; intros s k r Hr Hv; cbn [fold_left];
    [eauto|].
  destruct (sessionAfter_keeps_visited e s k r Hr Hv) as (r1 & Hr1 & Hv1).
  now apply (IH _ k r1).
Qed.

(** Marking twice gives the entry back, when the entry is a coherent,
    visited one. *)
Lemma mark_twice (r : UserResponse) :
  coherent r -> status r <> NOT_VISITED ->
  entryAfter MarkForReview (entryAfter MarkForReview r) = r.
Proof.
  destruct r as [k sel st t]. unfold coherent, hasSelection.
  cbn [status selectedOption timeSpentSeconds]. intros [Hshow _] Hv.
  unfold entryAfter, with_status.
  cbn [status selectedOption questionId timeSpentSeconds].
  destruct st; try contradiction; cbn [QuestionStatus_eqb showsAnswer] in *;
    destruct sel as [sel|]; try discriminate;
    try (destruct (truthy sel); try discriminate); reflexivity.
Qed.

Lemma select_twice (v : jsstring) (r : UserResponse) :
  entryAfter (OptionSelect v) (entryAfter (OptionSelect v) r)
  = with_selection r (Some v) ANSWERED.
Proof. destruct r as [k sel st t]. now destruct st. Qed.

Lemma handler_on_entry (s : State) (q : Question) (r v : UserResponse) :
  currentQuestion s = Some q ->
  currentQuestion (setResponses s (Table.set (id q) v (responses s))) = Some q
  /\ Table.lookup (id q)
       (responses (setResponses s (Table.set (id q) v (responses s))))
     = Some v.
Proof.
  intros Hq. split; [exact Hq|]. cbn [setResponses responses].
  apply lookup_set_same.
Qed.

Lemma setResponses_same (s : State) : setResponses s (responses s) = s.
Proof. now destruct s. Qed.

Lemma sessionAfter_timerResponses (e : Event) (s : State) :
  stationary e = true ->
  timerResponses (sessionAfter e s) = timerResponses s.
Proof.
  intros He. destruct e; try discriminate; cbn [sessionAfter].
  - unfold tick. now destruct (timeLeftUpdater (timeLeft s)).
  - unfold handleOptionSelect. now destruct (currentQuestion s).
  - unfold handleNumericalInput. now destruct (currentQuestion s).
  - unfold handleMarkForReview. destruct (currentQuestion s); [|easy].
    now destruct (Table.lookup _ _).
  - unfold handleClearResponse. now destruct (currentQuestion s).
Qed.

Lemma stationary_inSession (e : Event) :
  stationary e = true -> inSession e = true.
Proof. now destruct e. Qed.

(** When the candidate stays on one question until the time is up, the
    timer submits the table its callback captured. *)
Lemma run_expires_captured (events : list Event) :
  forall (sys : System) (s : State),
    session sys = Some s ->
    forallb stationary events = true ->
    timeLeft s <= ticksOf events -> 1 <= ticksOf events ->
    snd (run sys events) = [Expired (Table.values (timerResponses s))]
    /\ App.responses (app (fst (run sys events)))
       = Table.values (timerResponses s).
Proof.
  induction events as [|e rest IH]; intros sys s Hs Hev Hle Hone.
  - unfold ticksOf in Hone. cbn in Hone. lia.
  - simpl in Hev. apply andb_prop in Hev as [He Hrest].
    rewrite ticksOf_cons in Hle, Hone. cbn [run].
    pose proof (stationary_inSession e He) as Hin.
    assert (Hsame : forallb sameTest rest = true).
    { apply FinishFacts.forallb_inSession_sameTest.
      apply forallb_forall. intros x Hx. apply stationary_inSession.
      revert x Hx. now apply forallb_forall. }
    assert (Hstep : forall s1,
              s1 = sessionAfter e s ->
              timeLeft s1 <= ticksOf rest -> 1 <= ticksOf rest ->
              step sys e = (withSession sys s1, []) ->
              snd (let (sys', out) := step sys e in
                   let (sys'', out') := run sys' rest in (sys'', out ++ out'))
              = [Expired (Table.values (timerResponses s))]
              /\ App.responses
                   (app (fst (let (sys', out) := step sys e in
                              let (sys'', out') := run sys' rest in
                              (sys'', out ++ out'))))
                 = Table.values (timerResponses s)).
    { intros s1 -> Hl H1 Hst. rewrite Hst.
      destruct (IH (withSession sys (sessionAfter e s)) (sessionAfter e s)
                  eq_refl Hrest Hl H1) as [Hout Happ].
      rewrite sessionAfter_timerResponses in Hout, Happ by exact He.
      destruct (run (withSession sys (sessionAfter e s)) rest) as [sys' out].
      cbn [fst snd List.app] in *. now split. }
    destruct (isTick e) eqn:Ht.
    + destruct (Z.leb_spec (timeLeft s) 1) as [Hlast | Hmore].
      * destruct e; try discriminate.
        rewrite (step_tick_expiring sys s clock Hs Hlast).
        rewrite run_unmounted; [| apply commit_handleTestFinish | exact Hsame].
        cbn [fst snd List.app]. split; [reflexivity|].
        apply commit_handleTestFinish.
      * apply (Hstep (sessionAfter e s) eq_refl).
        -- rewrite sessionAfter_timeLeft, Ht. unfold timeLeftUpdater.
           replace (timeLeft s <=? 1) with false
             by (symmetry; apply Z.leb_gt; lia).
           cbn [fst]. lia.
        -- lia.
        -- apply (step_mounted sys s e Hs Hin (fun _ => Hmore)).
    + apply (Hstep (sessionAfter e s) eq_refl).
      * rewrite sessionAfter_timeLeft, Ht. lia.
      * lia.
      * apply (step_mounted sys s e Hs Hin). rewrite Ht. discriminate.
Qed.

Lemma initialResponses_blank (qs : list Question) :
  allEntries (fun r => selectedOption r = None /\ timeSpentSeconds r = 0)
    (initialResponses qs).
Proof.
  unfold initialResponses. cbv zeta.
  assert (H : forall (l : list Question) (acc : Table.t),
             allEntries
               (fun r => selectedOption r = None /\ timeSpentSeconds r = 0) acc ->
             allEntries
               (fun r => selectedOption r = None /\ timeSpentSeconds r = 0)
               (fold_left
                  (fun initial q =>
                     Table.set (id q)
                       (mkUserResponse (id q) None NOT_VISITED 0) initial)
                  l acc)).
  { induction l as [|q l IH]; intros acc Hacc; cbn [fold_left]; [exact Hacc|].
    apply IH. apply set_allEntries; [now split | exact Hacc]. }
  specialize (H qs [] (Forall_nil _)).
  destruct qs as [|q0 rest]; [exact H|].
  destruct (Table.lookup (id q0) _) as [r|] eqn:Hl; [|exact H].
  apply set_allEntries; [|exact H].
  exact (lookup_allEntries _ _ _ _ H Hl).
Qed.

(** A table of entries without selection is scored as all skipped. *)
Lemma blank_is_skipped (tbl : Table.t) (q : Question) :
  keyed tbl ->
  allEntries (fun r => selectedOption r = None /\ timeSpentSeconds r = 0) tbl ->
  ResultScreen.outcome (Table.values tbl) q = ResultScreen.Skipped.
Proof.
  intros Hk Hb. unfold ResultScreen.outcome, ResultScreen.responseOf.
  rewrite (find_values _ _ Hk).
  destruct (Table.lookup (id q) tbl) as [r|] eqn:Hr; [|reflexivity].
  cbn [ResultScreen.selectionOf].
  now destruct (lookup_allEntries _ _ _ _ Hb Hr) as [-> _].
Qed.

Lemma countOutcome_blank (tbl : Table.t) (qs : list Question)
    (o : ResultScreen.Outcome) :
  keyed tbl ->
  allEntries (fun r => selectedOption r = None /\ timeSpentSeconds r = 0) tbl ->
  o <> ResultScreen.Skipped ->
  Scoring.countOutcome o (Table.values tbl) qs = 0.
Proof.
  intros Hk Hb Ho. induction qs as [|q rest IH]; [reflexivity|].
  cbn [Scoring.countOutcome]. rewrite IH, (blank_is_skipped tbl q Hk Hb).
  now destruct o.
Qed.

End StatusFacts.

Module TimeOnScreenFacts.

Import Program Measures TestInterface TableFacts StatusModel ProgramFacts
       TimeFacts EntryFacts InvariantFacts RunFacts.

Lemma keys_set_present (k : jsstring) (v old : UserResponse) (tbl : Table.t) :
  Table.lookup k tbl = Some old -> map fst (Table.set k v tbl) = map fst tbl.
Proof.
  induction tbl as [|[k' v'] rest IH]; cbn [Table.lookup Table.set map fst];
    [discriminate|].
  destruct (JS.eqb k k') eqn:E; cbn [map fst]; [reflexivity|].
  intros H. now rewrite IH.
Qed.

Lemma keys_set_absent (k : jsstring) (v : UserResponse) (tbl : Table.t) :
  Table.lookup k tbl = None -> map fst (Table.set k v tbl) = map fst tbl ++ [k].
Proof.
  induction tbl as [|[k' v'] rest IH]; cbn [Table.lookup Table.set map fst];
    [reflexivity|].
  destruct (JS.eqb k k') eqn:E; [discriminate|].
  intros H. cbn [map fst List.app]. now rewrite IH.
Qed.

Lemma keys_forEach (l : list Question) :
  forall acc : Table.t,
    NoDup (map id l) ->
    (forall q, In q l -> Table.lookup (id q) acc = None) ->
    map fst
      (fold_left
         (fun initial q =>
            Table.set (id q) (mkUserResponse (id q) None NOT_VISITED 0) initial)
         l acc)
    = map fst acc ++ map id l.
Proof.
  induction l as [|q l IH]; intros acc Hnd Hnew; cbn [fold_left map].
  - now rewrite app_nil_r.
  - inversion Hnd as [|? ? Hnotin Hnd']; subst.
    rewrite IH; [| exact Hnd' |].
    + rewrite keys_set_absent by (apply Hnew; now left).
      now rewrite <- app_assoc.
    + intros q' Hin'. rewrite lookup_set.
      destruct (JS.eqb (id q') (id q)) eqn:E.
      * apply eqb_eq in E. exfalso. apply Hnotin. rewrite <- E.
        now apply in_map.
      * apply Hnew. now right.
Qed.

(** With distinct ids the keys of the table are the ids of the questions, in
    the order of the questions. *)
Lemma keys_initialResponses (qs : list Question) :
  NoDup (map id qs) -> map fst (initialResponses qs) = map id qs.
Proof.
  intros Hnd. unfold initialResponses. cbv zeta.
  pose proof (keys_forEach qs [] Hnd (fun _ _ => eq_refl)) as Hkeys.
  cbn [map List.app] in Hkeys.
  destruct qs as [|q0 rest]; [exact Hkeys|].
  destruct (Table.lookup (id q0) _) as [r|] eqn:Hl; [|exact Hkeys].
  now rewrite (keys_set_present _ _ _ _ Hl).
Qed.

Lemma sessionAfter_keys (e : Event) (s : State) :
  map fst (responses (sessionAfter e s)) = map fst (responses s).
Proof.
  rewrite sessionAfter_responses.
  destruct (target e s) as [q|]; [|reflexivity].
  destruct (Table.lookup (id q) (responses s)) as [r|] eqn:Hl; [|reflexivity].
  now apply (keys_set_present _ _ r).
Qed.

Lemma fold_sessionAfter_keys (events : list Event) :
  forall s : State,
    map fst (responses (fold_left (fun s e => sessionAfter e s) events s))
    = map fst (responses s).
Proof.
  induction events as [|e rest IH]; intros s; cbn [fold_left]; [reflexivity|].
  now rewrite IH, sessionAfter_keys.
Qed.

(** The time of the entry under a key. *)
Definition timeAt (tbl : Table.t) (k : jsstring) : Z :=
  match Table.lookup k tbl with
  | Some r => timeSpentSeconds r
  | None => 0
  end.

Fixpoint sumZ (l : list Z) : Z :=
  match l with
  | [] => 0
  | x :: rest => x + sumZ rest
  end.

Lemma timeAt_tail (k0 : jsstring) (v0 : UserResponse) (rest : Table.t)
    (ks : list jsstring) :
  ~ In k0 ks ->
  map (timeAt ((k0, v0) :: rest)) ks = map (timeAt rest) ks.
Proof.
  induction ks as [|k ks IH]; intros Hnotin; [reflexivity|].
  cbn [map]. rewrite IH by (intros H; apply Hnotin; now right).
  f_equal. unfold timeAt. cbn [Table.lookup].
  replace (JS.eqb k k0) with false; [reflexivity|].
  symmetry. apply eqb_neq. intros ->. apply Hnotin. now left.
Qed.

Lemma sum_over_keys (tbl : Table.t) :
  NoDup (map fst tbl) ->
  sumZ (map (timeAt tbl) (map fst tbl)) = totalTimeSpent tbl.
Proof.
  induction tbl as [|[k0 v0] rest IH]; intros Hnd; [reflexivity|].
  inversion Hnd as [|? ? Hnotin Hnd']; subst.
  cbn [map fst sumZ totalTimeSpent].
  rewrite (timeAt_tail k0 v0 rest _ Hnotin), (IH Hnd').
  unfold timeAt. cbn [Table.lookup]. now rewrite eqb_refl.
Qed.

(** The [totalTime] of the loop of [ResultScreen]. *)
Lemma fold_analyze_totalTime (rs : list UserResponse) (qs : list Question) :
  forall c : ResultScreen.Counters,
    ResultScreen.totalTime (fold_left (ResultScreen.analyze rs) qs c)
    = ResultScreen.totalTime c
      + sumZ (map (fun q =>
                     match ResultScreen.responseOf rs q with
                     | Some r => timeSpentSeconds r
                     | None => 0
                     end) qs).
Proof.
  induction qs as [|q rest IH]; intros c; cbn [fold_left map sumZ]; [lia|].
  rewrite IH. unfold ResultScreen.analyze.
  destruct (ResultScreen.selectionOf (ResultScreen.responseOf rs q))
    as [selected|];
    [destruct (ResultScreen.isCorrect q selected)|];
    cbn [ResultScreen.totalTime]; lia.
Qed.

End TimeOnScreenFacts.

Section MoreSessionProperties.

Import Program Measures TestInterface TableFacts StatusModel ProgramFacts
       TimeFacts EntryFacts InvariantFacts RunFacts NavigationFacts
       StatusFacts TimeOnScreenFacts.

(** X3.  No event of a test takes a question back to NOT_VISITED: an entry that
    is visited at some moment is still in the table, and visited, at every
    later moment. *)
Theorem visited_entries_stay_visited (sys : System) (s s' : State)
    (events : list Event) (k : jsstring) (r : UserResponse)
    (Hmounted : session sys = Some s)
    (Hevents : forallb sameTest events = true)
    (Hafter : session (fst (run sys events)) = Some s')
    (Hentry : Table.lookup k (responses s) = Some r)
    (Hvisited : status r <> NOT_VISITED) :
  exists r', Table.lookup k (responses s') = Some r'
             /\ status r' <> NOT_VISITED.
Proof.
  destruct (run_session events sys s s' Hmounted Hevents Hafter) as [-> _].
  now apply (fold_keeps_visited events s k r).
Qed.

(** X5.  [navigateTo] ignores an index outside of the question list and moves to
    an index inside it without touching the clock; the arrow keys move by at
    most one question and never leave the list. *)
Theorem navigation_stays_in_range (s : State) (index : Z) :
  let n := Z.of_nat (List.length (questions s)) in
  (index < 0 \/ n <= index -> navigateTo index s = s)
  /\ (0 <= index < n ->
      currentIndex (navigateTo index s) = index
      /\ timeLeft (navigateTo index s) = timeLeft s)
  /\ (0 <= currentIndex s < n ->
      forall key,
        0 <= currentIndex (handleKeyDown key s) < n
        /\ currentIndex s - 1 <= currentIndex (handleKeyDown key s)
           <= currentIndex s + 1).
Proof.
  cbv zeta. split; [|split].
  - intros Hout. unfold navigateTo. now rewrite (at_index_outside _ _ Hout).
  - intros Hin. destruct (at_index_inside _ _ Hin) as [q Hq].
    rewrite navigateTo_currentIndex, navigateTo_timeLeft, Hq. now split.
  - intros Hcur key.
    assert (Hmove : forall i, 0 <= i < Z.of_nat (List.length (questions s)) ->
                      currentIndex (navigateTo i s) = i).
    { intros i Hi. destruct (at_index_inside _ _ Hi) as [q Hq].
      now rewrite navigateTo_currentIndex, Hq. }
    destruct key; cbn [handleKeyDown]; rewrite Hmove; lia.
Qed.

Lemma navigation_stays_in_range_witness :
  navigateTo 2 Walkthrough.after = Walkthrough.after
  /\ navigateTo (-1) Walkthrough.after = Walkthrough.after
  /\ currentIndex (navigateTo 0 Walkthrough.after) = 0
  /\ currentIndex (handleKeyDown ArrowLeft Walkthrough.after) = 0.
Proof.
  destruct (navigation_stays_in_range Walkthrough.after 2) as (Hout & _ & _).
  destruct (navigation_stays_in_range Walkthrough.after (-1)) as (Hneg & _ & _).
  destruct (navigation_stays_in_range Walkthrough.after 0) as (_ & Hin & Hkey).
  split; [apply Hout; right; vm_compute; discriminate|].
  split; [apply Hneg; left; lia|].
  split; [apply Hin; vm_compute; split; [discriminate | reflexivity]|].
  assert (Hcur : 0 <= currentIndex Walkthrough.after
                 < Z.of_nat (List.length (questions Walkthrough.after)))
    by (vm_compute; split; [discriminate | reflexivity]).
  destruct (Hkey Hcur ArrowLeft) as [_ Hnear].
  vm_compute. reflexivity.
Defined.

Lemma Subject_eqb_eq (a b : Subject) : Subject_eqb a b = true <-> a = b.
Proof. destruct a, b; cbn; split; congruence. Qed.

(** X7.  A subject tab goes to the first question of that subject, and does
    nothing when the paper has no question of that subject. *)
Theorem tab_change_goes_to_the_first_question_of_the_subject
    (s : State) (subject_ : Subject) :
  ((forall q, In q (questions s) -> subject q <> subject_) ->
   handleTabChange subject_ s = s)
  /\ (forall q0, In q0 (questions s) -> subject q0 = subject_ ->
      exists q,
        currentQuestion (handleTabChange subject_ s) = Some q
        /\ subject q = subject_
        /\ forall j q',
             0 <= j < currentIndex (handleTabChange subject_ s) ->
             at_index (questions s) j = Some q' -> subject q' <> subject_).
Proof.
  unfold handleTabChange.
  destruct (findIndex_spec (fun q => Subject_eqb (subject q) subject_)
              (questions s))
    as [[Hnone Hall] | (q & Hpos & Hat & Hq & Hbefore)].
  - rewrite Hnone. cbn [Z.eqb negb]. split; [reflexivity|].
    intros q0 Hin Hsub. specialize (Hall q0 Hin). cbv beta in Hall.
    apply Subject_eqb_eq in Hsub. congruence.
  - replace (negb (findIndex (fun q => Subject_eqb (subject q) subject_)
                     (questions s) =? -1)) with true
      by (symmetry; apply negb_true_iff, Z.eqb_neq; lia).
    split.
    + intros Hno. exfalso. apply (Hno q).
      * now apply (at_index_In _ _ _ Hat).
      * now apply Subject_eqb_eq.
    + intros _ _ _. exists q. unfold currentQuestion.
      rewrite navigateTo_questions, navigateTo_currentIndex, Hat.
      split; [exact Hat|]. split; [now apply Subject_eqb_eq|].
      intros j q' Hj Hq' Hsub. apply Subject_eqb_eq in Hsub.
      specialize (Hbefore j q' Hj Hq'). cbv beta in Hbefore. congruence.
Qed.

Lemma tab_change_goes_to_the_first_question_of_the_subject_witness :
  handleTabChange CHEMISTRY Walkthrough.after = Walkthrough.after
  /\ exists q, currentQuestion (handleTabChange PHYSICS Walkthrough.after)
               = Some q
               /\ subject q = PHYSICS.
Proof.
  destruct (tab_change_goes_to_the_first_question_of_the_subject
              Walkthrough.after CHEMISTRY) as [Hnone _].
  destruct (tab_change_goes_to_the_first_question_of_the_subject
              Walkthrough.after PHYSICS) as [_ Hsome].
  split.
  - apply Hnone. intros q Hin. rewrite walkthrough_questions in Hin.
    destruct Hin as [<- | [<- | []]]; discriminate.
  - destruct (Hsome (Sample.question 0)) as (q & Hq & Hsub & _);
      [rewrite walkthrough_questions; now left | reflexivity |].
    exists q. split; [exact Hq | exact Hsub].
Defined.

(** X8.  Marking the question on display twice in a row restores the test
    interface: status, selection and time are as before. *)
Theorem marking_twice_changes_nothing (questions_ : list Question)
    (durationMinutes_ : Z) (sys : System) (events : list Event) (s' : State)
    (Hquestions : questions_ <> [])
    (Hmounted : session sys = Some (mount questions_ durationMinutes_))
    (Hevents : forallb fromControls events = true)
    (Hafter : session (fst (run sys events)) = Some s') :
  exists s1,
    handleMarkForReview s' = Some s1 /\ handleMarkForReview s1 = Some s'.
Proof.
  destruct questions_ as [|q0 rest]; [contradiction|].
  destruct (run_session events sys _ s' Hmounted
              (fromControls_sameTest _ Hevents) Hafter) as [-> _].
  destruct (fold_sessionAfter_tidy (q0 :: rest) events _ Hevents
              (mount_tidy q0 rest durationMinutes_))
    as ((Hqs & [q Hq] & Hentries) & Hcur & Hall).
  set (s1 := fold_left (fun s e => sessionAfter e s) events
               (mount (q0 :: rest) durationMinutes_)) in *.
  assert (Hin : In q (q0 :: rest)).
  { rewrite <- Hqs. now apply (at_index_In _ (currentIndex s1)). }
  destruct (Table.lookup (id q) (responses s1)) as [r|] eqn:Hr;
    [|now apply Hentries in Hin].
  pose proof (sessionAfter_responses MarkForReview s1) as Hfirst.
  cbn [target] in Hfirst. rewrite Hq, Hr in Hfirst.
  assert (Hm1 : handleMarkForReview s1
                = Some (setResponses s1
                          (Table.set (id q) (entryAfter MarkForReview r)
                             (responses s1)))).
  { unfold handleMarkForReview. rewrite Hq, Hr. reflexivity. }
  eexists. split; [exact Hm1|].
  destruct (handler_on_entry s1 q r (entryAfter MarkForReview r) Hq)
    as [Hq2 Hr2].
  unfold handleMarkForReview. rewrite Hq2, Hr2.
  cbn [setResponses responses questions currentIndex timeLeft timerResponses].
  change (with_status (entryAfter MarkForReview r) _)
    with (entryAfter MarkForReview (entryAfter MarkForReview r)).
  rewrite mark_twice, set_set, (set_same _ _ _ Hr);
    [| exact (lookup_allEntries _ _ _ _ Hall Hr) | now apply (Hcur q r)].
  now destruct s1.
Qed.

Lemma marking_twice_changes_nothing_witness :
  exists s1,
    handleMarkForReview Walkthrough.after = Some s1
    /\ handleMarkForReview s1 = Some Walkthrough.after.
Proof.
  exact (marking_twice_changes_nothing (Sample.paper 2) 1 Walkthrough.started
           Walkthrough.events Walkthrough.after ltac:(discriminate)
           walkthrough_mounted walkthrough_fromControls walkthrough_after).
Defined.

(** X9.  Selecting an option twice in a row always ends in status ANSWERED with
    that selection; the second selection changes nothing unless the question
    was MARKED_FOR_REVIEW, in which case it removes the mark that the first
    one kept. *)
Theorem selecting_an_option_twice (s : State) (q : Question)
    (r : UserResponse) (v : jsstring)
    (Hcurrent : currentQuestion s = Some q)
    (Hentry : Table.lookup (id q) (responses s) = Some r) :
  exists s1 s2,
    handleOptionSelect v s = Some s1
    /\ handleOptionSelect v s1 = Some s2
    /\ Table.lookup (id q) (responses s2)
       = Some (with_selection r (Some v) ANSWERED)
    /\ (s2 = s1 <-> status r <> MARKED_FOR_REVIEW).
Proof.
  assert (H1 : handleOptionSelect v s
               = Some (setResponses s
                         (Table.set (id q) (entryAfter (OptionSelect v) r)
                            (responses s)))).
  { unfold handleOptionSelect. now rewrite Hcurrent, Hentry. }
  destruct (handler_on_entry s q r (entryAfter (OptionSelect v) r) Hcurrent)
    as [Hq1 Hr1].
  set (s1 := setResponses s
               (Table.set (id q) (entryAfter (OptionSelect v) r) (responses s)))
    in *.
  assert (H2 : handleOptionSelect v s1
               = Some (setResponses s1
                         (Table.set (id q)
                            (entryAfter (OptionSelect v)
                               (entryAfter (OptionSelect v) r))
                            (responses s1)))).
  { unfold handleOptionSelect. now rewrite Hq1, Hr1. }
  exists s1. eexists. split; [exact H1|]. split; [exact H2|].
  rewrite select_twice. cbn [setResponses responses]. split.
  - apply lookup_set_same.
  - split.
    + intros Heq Hmarked.
      assert (Hl : Table.lookup (id q)
                     (responses (setResponses s1
                        (Table.set (id q) (with_selection r (Some v) ANSWERED)
                           (responses s1))))
                   = Table.lookup (id q) (responses s1)) by now rewrite Heq.
      cbn [setResponses responses] in Hl. rewrite lookup_set_same in Hl.
      unfold s1 in Hl. cbn [setResponses responses] in Hl.
      rewrite lookup_set_same in Hl. injection Hl as Hst.
      rewrite Hmarked in Hst. discriminate.
    + intros Hnot.
      assert (He : entryAfter (OptionSelect v) r
                   = with_selection r (Some v) ANSWERED).
      { cbn [entryAfter]. now destruct (status r). }
      unfold s1. rewrite He. cbn [setResponses responses questions
                                   currentIndex timeLeft timerResponses].
      now rewrite set_set.
Qed.

Lemma selecting_an_option_twice_witness :
  exists s1 s2,
    handleOptionSelect (js "1") Walkthrough.after = Some s1
    /\ handleOptionSelect (js "1") s1 = Some s2
    /\ s2 = s1.
Proof.
  destruct (selecting_an_option_twice Walkthrough.after (Sample.question 1)
              (mkUserResponse (id (Sample.question 1)) (Some []) NOT_ANSWERED 2)
              (js "1"))
    as (s1 & s2 & H1 & H2 & _ & Hsame);
    [vm_compute; reflexivity | vm_compute; reflexivity |].
  exists s1, s2. split; [exact H1|]. split; [exact H2|].
  apply Hsame. discriminate.
Defined.

End MoreSessionProperties.

Section TimeAndExpiry.

Import Program Measures TestInterface TableFacts StatusModel ProgramFacts
       TimeFacts EntryFacts InvariantFacts RunFacts StatusFacts
       TimeOnScreenFacts.

Lemma visited_entries_stay_visited_witness :
  exists r',
    Table.lookup (id (Sample.question 0)) (responses Walkthrough.after)
    = Some r'
    /\ status r' <> NOT_VISITED.
Proof.
  apply (visited_entries_stay_visited Walkthrough.started
           (mount (Sample.paper 2) 1) Walkthrough.after Walkthrough.events
           (id (Sample.question 0))
           (mkUserResponse (id (Sample.question 0)) None NOT_ANSWERED 0)
           walkthrough_mounted walkthrough_sameTest walkthrough_after);
    [vm_compute; reflexivity | discriminate].
Defined.

(** X10.  With distinct question ids, the total time that the result screen adds
    up from the submitted responses is the number of ticks the test has
    seen. *)
Theorem total_time_on_result_screen_is_the_tick_count
    (questions_ : list Question) (durationMinutes_ : Z) (sys : System)
    (events : list Event) (s' : State)
    (Hquestions : questions_ <> [])
    (Hdistinct : NoDup (map id questions_))
    (Hmounted : session sys = Some (mount questions_ durationMinutes_))
    (Hevents : forallb sameTest events = true)
    (Hafter : session (fst (run sys events)) = Some s') :
  ResultScreen.totalTime
    (ResultScreen.counters questions_ (handleFinishTest s'))
  = ticksOf events.
Proof.
  destruct questions_ as [|q0 rest] eqn:Hqs; [contradiction|].
  rewrite <- Hqs in *.
  destruct (run_session events sys _ s' Hmounted Hevents Hafter) as [-> _].
  set (s1 := fold_left (fun s e => sessionAfter e s) events
               (mount questions_ durationMinutes_)).
  assert (Hkeyed : keyed (responses s1)).
  { apply fold_sessionAfter_keyed. apply initialResponses_keyed. }
  assert (Hkeys : map fst (responses s1) = map id questions_).
  { unfold s1. rewrite fold_sessionAfter_keys. cbn [mount responses].
    now apply keys_initialResponses. }
  assert (Htotal : totalTimeSpent (responses s1) = ticksOf events).
  { destruct (fold_sessionAfter_ready questions_ events
                (mount questions_ durationMinutes_)) as [_ Ht].
    - rewrite Hqs. apply mount_ready.
    - cbv zeta in Ht. fold s1 in Ht. rewrite Ht.
      cbn [mount responses].
      rewrite (untimed_total _ (initialResponses_untimed questions_)). lia. }
  unfold ResultScreen.counters. rewrite fold_analyze_totalTime.
  cbn [ResultScreen.zero ResultScreen.totalTime].
  rewrite <- Htotal, <- sum_over_keys by (rewrite Hkeys; exact Hdistinct).
  rewrite Hkeys, map_map. rewrite Z.add_0_l. f_equal.
  apply map_ext. intros q. unfold ResultScreen.responseOf, handleFinishTest.
  now rewrite (find_values _ _ Hkeyed).
Qed.

Lemma walkthrough_distinct : NoDup (map id (Sample.paper 2)).
Proof.
  vm_compute. repeat constructor; simpl; intuition discriminate.
Qed.

Lemma total_time_on_result_screen_is_the_tick_count_witness :
  ResultScreen.totalTime
    (ResultScreen.counters (Sample.paper 2)
       (handleFinishTest Walkthrough.after))
  = ticksOf Walkthrough.events.
Proof.
  exact (total_time_on_result_screen_is_the_tick_count (Sample.paper 2) 1
           Walkthrough.started Walkthrough.events Walkthrough.after
           ltac:(discriminate) walkthrough_distinct walkthrough_mounted
           walkthrough_sameTest walkthrough_after).
Defined.

(** X11.  When the time runs out on a candidate who never left the first
    question, the timer hands over the table of the mount, whatever was
    answered since: no response has a selection or any time, nothing counts
    as attempted and the score is 0. *)
Theorem expiry_without_navigation_submits_the_table_of_the_mount
    (questions_ : list Question) (durationMinutes_ : Z) (sys : System)
    (events : list Event)
    (Hmounted : session sys = Some (mount questions_ durationMinutes_))
    (Hevents : forallb stationary events = true)
    (Hticks : durationMinutes_ * 60 <= ticksOf events)
    (Hone : 1 <= ticksOf events) :
  let submitted := Table.values (initialResponses questions_) in
  snd (run sys events) = [Expired submitted]
  /\ App.responses (app (fst (run sys events))) = submitted
  /\ Forall (fun r => selectedOption r = None /\ timeSpentSeconds r = 0)
       submitted
  /\ ResultScreen.attempted (ResultScreen.report questions_ submitted) = 0
  /\ ResultScreen.r_score (ResultScreen.report questions_ submitted) = 0.
Proof.
  cbv zeta.
  destruct (run_expires_captured events sys _ Hmounted Hevents Hticks Hone)
    as [Hout Happ].
  cbn [mount timerResponses] in Hout, Happ.
  split; [exact Hout|]. split; [exact Happ|].
  pose proof (initialResponses_blank questions_) as Hblank.
  pose proof (initialResponses_keyed questions_) as Hkeyed.
  split.
  - unfold Table.values. apply Forall_map. exact Hblank.
  - destruct (ScoringFacts.fold_analyze
                (Table.values (initialResponses questions_)) questions_
                ResultScreen.zero) as (Hc & Hi & _ & Hs).
    cbv zeta in Hc, Hi, Hs.
    rewrite (countOutcome_blank _ questions_ ResultScreen.Correct Hkeyed Hblank)
      in Hc, Hs by discriminate.
    rewrite (countOutcome_blank _ questions_ ResultScreen.Wrong Hkeyed Hblank)
      in Hi, Hs by discriminate.
    cbn [ResultScreen.zero ResultScreen.correct ResultScreen.incorrect
         ResultScreen.score] in Hc, Hi, Hs.
    unfold ResultScreen.report.
    cbn [ResultScreen.attempted ResultScreen.r_score].
    unfold ResultScreen.counters. rewrite Hc, Hi, Hs. split; reflexivity.
Qed.

Lemma expiry_without_navigation_submits_the_table_of_the_mount_witness :
  let events := OptionSelect (js "2") :: repeat (Tick Sample.clock1) 60 in
  snd (run Walkthrough.started events)
  = [Expired (Table.values (initialResponses (Sample.paper 2)))].
Proof.
  intros events.
  destruct (expiry_without_navigation_submits_the_table_of_the_mount
              (Sample.paper 2) 1 Walkthrough.started events
              walkthrough_mounted)
    as [Hout _]; [reflexivity | vm_compute; discriminate
                 | vm_compute; discriminate | exact Hout].
Defined.

End TimeAndExpiry.

(* ================================================================== *)
(** ** The request plan *)

Module PlanFacts.

Import GeminiService.

Lemma sumList_app (l l' : list Z) :
  sumList (l ++ l') = sumList l + sumList l'.
Proof. induction l as [|x l IH]; cbn [List.app sumList]; lia. Qed.

(** The sum of [n] slots of which the first [r] hold one more. *)
Lemma sum_slots (b r : Z) (n : nat) :
  sumList (map (fun i => if Z.of_nat i <? r then b + 1 else b) (seq 0 n))
  = Z.of_nat n * b + Z.min (Z.of_nat n) (Z.max 0 r).
Proof.
  induction n as [|n IH]; [cbn; lia|].
  rewrite seq_S, map_app, sumList_app, IH. cbn [map sumList Nat.add].
  destruct (Z.ltb_spec (Z.of_nat n) r); lia.
Qed.

Lemma batchSizes_sum (total : Z) :
  sumList (batchSizes total) = Z.max 0 total.
Proof.
  functional induction (batchSizes total);
    [rename e into Hpos, IHl into IH | rename e into Hneg].
  - apply Z.ltb_lt in Hpos. cbn [sumList]. rewrite IH.
    unfold BATCH_SIZE in *. lia.
  - apply Z.ltb_ge in Hneg. cbn. lia.
Qed.

Lemma batchSizes_bounds (total : Z) :
  Forall (fun size => 1 <= size <= BATCH_SIZE) (batchSizes total).
Proof.
  functional induction (batchSizes total);
    [rename e into Hpos, IHl into IH | rename e into Hneg].
  - apply Z.ltb_lt in Hpos. constructor; [|exact IH].
    unfold BATCH_SIZE in *. lia.
  - constructor.
Qed.

Lemma batchSizes_length (total : Z) :
  Z.of_nat (List.length (batchSizes total)) = (Z.max 0 total + 9) / 10.
Proof.
  functional induction (batchSizes total);
    [rename e into Hpos, IHl into IH | rename e into Hneg].
  - apply Z.ltb_lt in Hpos. cbn [List.length]. rewrite Nat2Z.inj_succ, IH.
    unfold BATCH_SIZE in *.
    destruct (Z.le_gt_cases remaining 10) as [Hsmall | Hbig].
    + replace (Z.min remaining 10) with remaining by lia.
      replace (Z.max 0 (remaining - remaining)) with 0 by lia.
      replace (Z.max 0 remaining) with remaining by lia.
      change ((0 + 9) / 10) with 0.
      replace (remaining + 9) with ((remaining - 1) + 1 * 10) by lia.
      rewrite Z.div_add, Z.div_small by lia. lia.
    + replace (Z.min remaining 10) with 10 by lia.
      replace (Z.max 0 (remaining - 10)) with (remaining - 10) by lia.
      replace (Z.max 0 remaining) with remaining by lia.
      replace (remaining + 9) with ((remaining - 10 + 9) + 1 * 10) by lia.
      rewrite Z.div_add by lia. lia.
  - apply Z.ltb_ge in Hneg. replace (Z.max 0 remaining) with 0 by lia. reflexivity.
Qed.

(** The split of a share, checked on every share up to 1000. *)
Definition splitChecked (subTotal : Z) : bool :=
  (totalMcq subTotal =? Z.max 1 (4 * subTotal / 5))
  && (totalMcq subTotal + totalNum subTotal =? subTotal).

Lemma split_checked_to_1000 :
  forallb (fun n => splitChecked (Z.of_nat n)) (seq 1 1000) = true.
Proof. vm_compute. reflexivity. Qed.

Lemma split_spec (subTotal : Z) :
  1 <= subTotal <= 1000 ->
  totalMcq subTotal = Z.max 1 (4 * subTotal / 5)
  /\ totalMcq subTotal + totalNum subTotal = subTotal.
Proof.
  intros Hs.
  assert (Hin : In (Z.to_nat subTotal) (seq 1 1000)) by (apply in_seq; lia).
  pose proof (proj1 (forallb_forall _ _) split_checked_to_1000 _ Hin) as Hc.
  cbv beta in Hc. rewrite Z2Nat.id in Hc by lia.
  unfold splitChecked in Hc. apply andb_prop in Hc as [H1 H2].
  apply Z.eqb_eq in H1, H2. now split.
Qed.

Definition asked (r : Request) : Z := mcqCount r + numCount r.

Lemma sum_asked_mcq (sub : Subject) (l : list Z) :
  sumList (map asked (map (fun size => mkRequest sub size 0) l)) = sumList l.
Proof.
  induction l as [|x l IH]; [reflexivity|].
  cbn [map sumList]. rewrite IH. unfold asked. cbn [mcqCount numCount]. lia.
Qed.

Lemma sum_asked_num (sub : Subject) (l : list Z) :
  sumList (map asked (map (fun size => mkRequest sub 0 size) l)) = sumList l.
Proof.
  induction l as [|x l IH]; [reflexivity|].
  cbn [map sumList]. rewrite IH. unfold asked. cbn [mcqCount numCount]. lia.
Qed.

Lemma subjectRequests_sum (sub : Subject) (subTotal : Z) :
  1 <= subTotal <= 1000 ->
  sumList (map asked (subjectRequests sub subTotal)) = subTotal.
Proof.
  intros Hs. destruct (split_spec subTotal Hs) as [Hm Hsum].
  unfold subjectRequests.
  rewrite map_app, sumList_app, sum_asked_mcq, sum_asked_num, !batchSizes_sum.
  unfold totalNum in *. lia.
Qed.

Lemma subjectRequests_shape (sub : Subject) (subTotal : Z) :
  Forall (fun r => req_subject r = sub
                   /\ 1 <= asked r <= BATCH_SIZE
                   /\ (mcqCount r = 0 \/ numCount r = 0)
                   /\ 0 <= mcqCount r /\ 0 <= numCount r)
    (subjectRequests sub subTotal).
Proof.
  unfold subjectRequests. apply Forall_app. split; apply Forall_map.
  - eapply Forall_impl; [|apply batchSizes_bounds].
    intros size Hsize. cbv beta in Hsize. unfold asked.
    cbn [req_subject mcqCount numCount].
    split; [reflexivity | lia].
  - eapply Forall_impl; [|apply batchSizes_bounds].
    intros size Hsize. cbv beta in Hsize. unfold asked.
    cbn [req_subject mcqCount numCount].
    split; [reflexivity | lia].
Qed.

Lemma distributeCount_length (total : Z) (parts : nat) :
  List.length (distributeCount total parts) = parts.
Proof. unfold distributeCount. now rewrite length_map, length_seq. Qed.

Lemma distributeCount_sum (total : Z) (parts : nat) :
  0 <= total -> (0 < parts)%nat ->
  sumList (distributeCount total parts) = total.
Proof.
  intros Ht Hp. unfold distributeCount. cbv zeta. rewrite sum_slots.
  rewrite Z.rem_mod_nonneg by lia.
  pose proof (Z.mod_pos_bound total (Z.of_nat parts)).
  pose proof (Z.div_mod total (Z.of_nat parts)). lia.
Qed.

Lemma distributeCount_entries (total : Z) (parts : nat) :
  0 <= total -> (0 < parts)%nat ->
  Forall (fun x => 0 <= x <= total
                   /\ (x = total / Z.of_nat parts
                       \/ x = total / Z.of_nat parts + 1))
    (distributeCount total parts).
Proof.
  intros Ht Hp. unfold distributeCount. cbv zeta. apply Forall_map.
  apply Forall_forall. intros i Hi. apply in_seq in Hi.
  rewrite Z.rem_mod_nonneg by lia.
  pose proof (Z.mod_pos_bound total (Z.of_nat parts)).
  pose proof (Z.div_mod total (Z.of_nat parts)).
  assert (0 <= total / Z.of_nat parts) by (apply Z.div_pos; lia).
  destruct (Z.ltb_spec (Z.of_nat i) (total mod Z.of_nat parts)); nia.
Qed.

End PlanFacts.

Module AssemblyFacts.

Import GeminiService PlanFacts.

Lemma js_cons (c : ascii) (s : string) :
  js (String c s) = N_of_ascii c :: js s.
Proof. reflexivity. Qed.

Lemma js_injective (s s' : string) : js s = js s' -> s = s'.
Proof.
  revert s'. induction s as [|c s IH]; intros [|c' s'] H;
    try discriminate; [reflexivity|].
  rewrite !js_cons in H. injection H as Hc Hs.
  f_equal; [|now apply IH].
  rewrite <- (ascii_N_embedding c), <- (ascii_N_embedding c'). now rewrite Hc.
Qed.

Lemma digits_have_no_dash (d : Decimal.uint) :
  ~ In 45%N (js (NilEmpty.string_of_uint d)).
Proof.
  induction d; cbn [NilEmpty.string_of_uint]; [intros [] | ..];
    rewrite js_cons; intros [H | H]; try discriminate; contradiction.
Qed.

Lemma toString_nat_has_no_dash (i : nat) :
  ~ In 45%N (toString (Z.of_nat i)).
Proof.
  unfold toString. destruct (Z.of_nat i) as [|p|p] eqn:E; [| |lia].
  - cbn. intros [H | []]. discriminate.
  - cbn [Z.to_int NilZero.string_of_int NilZero.string_of_uint].
    pose proof (DecimalPos.Unsigned.to_uint_nonnil p) as Hnn.
    replace (NilZero.string_of_uint (Pos.to_uint p))
      with (NilEmpty.string_of_uint (Pos.to_uint p))
      by (destruct (Pos.to_uint p); [contradiction | reflexivity ..]).
    apply digits_have_no_dash.
Qed.

Lemma toString_injective (a b : Z) : toString a = toString b -> a = b.
Proof.
  unfold toString. intros H. apply js_injective in H.
  assert (Hnn : forall z, Z.to_int z <> Decimal.Pos Decimal.Nil
                          /\ Z.to_int z <> Decimal.Neg Decimal.Nil).
  { intros [|p|p]; cbn; split; try discriminate;
      intros [= Hp]; now apply (DecimalPos.Unsigned.to_uint_nonnil p). }
  assert (Hi : Some (Z.to_int a) = Some (Z.to_int b)).
  { rewrite <- (NilZero.isi (Z.to_int a)), <- (NilZero.isi (Z.to_int b));
      try apply Hnn. now rewrite H. }
  injection Hi as Hi. rewrite <- (DecimalZ.of_to a), <- (DecimalZ.of_to b).
  now rewrite Hi.
Qed.

(** Two strings that end in a dash and a dash-free tail have equal tails
    when they are equal. *)
Lemma same_tail (x : N) (p p' d d' : jsstring) :
  ~ In x d -> ~ In x d' -> p ++ x :: d = p' ++ x :: d' -> d = d'.
Proof.
  revert p'. induction p as [|c p IH]; intros [|c' p'] Hd Hd' H.
  - now injection H.
  - cbn in H. injection H as _ H. exfalso. apply Hd. rewrite H.
    apply in_or_app. right. now left.
  - cbn in H. injection H as _ H. exfalso. apply Hd'. rewrite <- H.
    apply in_or_app. right. now left.
  - cbn in H. injection H as _ H. now apply (IH p').
Qed.

Lemma complete_id_injective (first : Subject) (now : nat -> Z) (i j : nat)
    (q q' : PartialQuestion) :
  id (complete first now i q) = id (complete first now j q') -> i = j.
Proof.
  unfold complete. cbn [id]. intros H.
  change (js "-") with [45%N] in H.
  rewrite !app_assoc in H. cbn [List.app] in H.
  rewrite <- !app_assoc in H.
  assert (Ht : toString (Z.of_nat i) = toString (Z.of_nat j)).
  { apply (same_tail 45%N (js "q-" ++ toString (now i))
             (js "q-" ++ toString (now j)));
      try apply toString_nat_has_no_dash.
    rewrite <- !app_assoc. exact H. }
  apply toString_injective in Ht. lia.
Qed.

Lemma ids_from (first : Subject) (now : nat -> Z) (flat : list PartialQuestion) :
  forall start : nat,
    NoDup
      (map id
         (map (fun '(idx, q) => complete first now idx q)
            (combine (seq start (List.length flat)) flat)))
    /\ forall k, In k
         (map id
            (map (fun '(idx, q) => complete first now idx q)
               (combine (seq start (List.length flat)) flat))) ->
       exists i q, (start <= i)%nat /\ k = id (complete first now i q).
Proof.
  induction flat as [|q flat IH]; intros start; cbn [List.length seq combine map].
  - split; [constructor | intros k []].
  - destruct (IH (S start)) as [Hnd Hin]. split.
    + constructor; [|exact Hnd]. intros Hk.
      destruct (Hin _ Hk) as (i & q' & Hi & Heq).
      apply complete_id_injective in Heq. lia.
    + intros k [<- | Hk]; [exists start, q; split; [lia | reflexivity]|].
      destruct (Hin _ Hk) as (i & q' & Hi & Heq). exists i, q'. split; [lia|].
      exact Heq.
Qed.

Lemma assemble_length (first : Subject) (now : nat -> Z)
    (results : list (list PartialQuestion)) :
  List.length (assemble first now results)
  = List.length (List.concat results).
Proof.
  unfold assemble. cbv zeta.
  now rewrite length_map, length_combine, length_seq, Nat.min_id.
Qed.

Lemma slice0_length {A : Type} (n : Z) (l : list A) :
  0 <= n ->
  Z.of_nat (List.length (slice0 n l)) = Z.min n (Z.of_nat (List.length l)).
Proof.
  intros Hn. unfold slice0.
  replace (0 <=? n) with true by (symmetry; apply Z.leb_le; lia).
  rewrite length_firstn. lia.
Qed.

Lemma firstn_Forall {A : Type} (P : A -> Prop) (l : list A) :
  Forall P l -> forall n, Forall P (firstn n l).
Proof.
  induction 1 as [|x l Hx Hl IH]; intros [|n]; cbn [firstn];
    constructor; auto.
Qed.

Lemma slice0_Forall {A : Type} (P : A -> Prop) (n : Z) (l : list A) :
  Forall P l -> Forall P (slice0 n l).
Proof.
  intros H. unfold slice0. destruct (0 <=? n); now apply firstn_Forall.
Qed.

Lemma filter_hasType (t : QuestionType) (l : list PartialQuestion) :
  Forall (fun q => p_type q = Some t) (filter (hasType t) l).
Proof.
  apply Forall_forall. intros q Hq. apply filter_In in Hq as [_ Hq].
  unfold hasType in Hq. destruct (p_type q) as [[|]|], t; congruence.
Qed.

Lemma generateBatch_length (reply : option (list PartialQuestion))
    (request : Request) :
  0 <= mcqCount request -> 0 <= numCount request ->
  Z.of_nat (List.length (generateBatch reply request)) <= asked request.
Proof.
  intros Hm Hn. unfold generateBatch, asked.
  destruct reply as [questions|]; [|cbn; lia].
  rewrite length_app, Nat2Z.inj_add, !slice0_length by lia. lia.
Qed.

End AssemblyFacts.

Module RequestFacts.

Import GeminiService PlanFacts AssemblyFacts.

Lemma sum_flat_map {A : Type} (f : A -> list Request) (l : list A) :
  sumList (map asked (flat_map f l))
  = sumList (map (fun x => sumList (map asked (f x))) l).
Proof.
  induction l as [|x l IH]; [reflexivity|].
  cbn [flat_map map sumList]. now rewrite map_app, sumList_app, IH.
Qed.

Lemma sum_le {A : Type} (f g : A -> Z) (l : list A) :
  (forall x, In x l -> f x <= g x) ->
  sumList (map f l) <= sumList (map g l).
Proof.
  induction l as [|x l IH]; intros H; cbn [map sumList]; [lia|].
  pose proof (H x (or_introl eq_refl)).
  assert (sumList (map f l) <= sumList (map g l))
    by (apply IH; intros y Hy; apply H; now right).
  lia.
Qed.

Lemma snd_combine {A B : Type} (l : list A) (c : list B) :
  List.length l = List.length c -> map snd (combine l c) = c.
Proof.
  revert c. induction l as [|x l IH]; intros [|y c] H; try discriminate;
    [reflexivity|].
  cbn [combine map snd]. f_equal. apply IH. now injection H.
Qed.

Lemma in_combine_snd {A B : Type} (l : list A) (c : list B) (x : A) (y : B) :
  In (x, y) (combine l c) -> In y c.
Proof. apply in_combine_r. Qed.

Section Plan.

Variable SYLLABUS : Subject -> list jsstring.
Variable config : TestConfig.
Hypothesis Hsubjects : subjects config <> [].
Hypothesis Hcount : 0 <= questionCount config <= 1000.

Let counts :=
  distributeCount (questionCount config) (List.length (subjects config)).

(** What one subject asks for, as [requests] decides it. *)
Let forSubject (p : Subject * Z) : list Request :=
  let '(sub, subTotal) := p in
  if subTotal =? 0 then []
  else
    let subChapters :=
      filter (fun c => existsb (JS.eqb c) (SYLLABUS sub)) (chapters config) in
    if (0 <? Z.of_nat (List.length (chapters config)))
       && (Z.of_nat (List.length subChapters) =? 0)
    then []
    else subjectRequests sub subTotal.

Lemma requests_unfold :
  requests SYLLABUS config
  = flat_map forSubject (combine (subjects config) counts).
Proof.
  unfold requests. cbv zeta.
  destruct (subjects config) as [|s0 l] eqn:Hs; [contradiction|].
  cbn [List.length]. rewrite Nat2Z.inj_succ.
  replace (Z.succ (Z.of_nat (List.length l)) =? 0) with false
    by (symmetry; apply Z.eqb_neq; lia).
  reflexivity.
Qed.

Lemma parts_positive : (0 < List.length (subjects config))%nat.
Proof. destruct (subjects config); [contradiction | cbn; lia]. Qed.

Lemma share_bounds (sub : Subject) (subTotal : Z) :
  In (sub, subTotal) (combine (subjects config) counts) ->
  0 <= subTotal <= 1000.
Proof.
  intros Hin. apply in_combine_r in Hin.
  pose proof (distributeCount_entries (questionCount config)
                (List.length (subjects config)) (proj1 Hcount) parts_positive)
    as Hall.
  rewrite Forall_forall in Hall. specialize (Hall _ Hin). cbv beta in Hall.
  lia.
Qed.

Lemma forSubject_sum (p : Subject * Z) :
  In p (combine (subjects config) counts) ->
  sumList (map asked (forSubject p)) <= snd p
  /\ (chapters config = [] -> sumList (map asked (forSubject p)) = snd p).
Proof.
  destruct p as [sub subTotal]. intros Hin.
  pose proof (share_bounds sub subTotal Hin) as Hb.
  cbn [forSubject snd]. unfold forSubject.
  destruct (Z.eqb_spec subTotal 0) as [-> | Hnz]; [cbn; split; [lia | reflexivity]|].
  assert (Hs : sumList (map asked (subjectRequests sub subTotal)) = subTotal)
    by (apply subjectRequests_sum; lia).
  split.
  - destruct (_ && _); [cbn; lia | lia].
  - intros ->. cbn [List.length filter]. cbn [Z.of_nat Z.ltb Z.compare andb].
    exact Hs.
Qed.

Lemma requests_sum :
  sumList (map asked (requests SYLLABUS config)) <= questionCount config
  /\ (chapters config = [] ->
      sumList (map asked (requests SYLLABUS config)) = questionCount config).
Proof.
  rewrite requests_unfold, sum_flat_map.
  assert (Hsum : sumList (map snd (combine (subjects config) counts))
                 = questionCount config).
  { rewrite snd_combine
      by (unfold counts; now rewrite distributeCount_length).
    apply distributeCount_sum; [lia | apply parts_positive]. }
  split.
  - rewrite <- Hsum. apply sum_le. intros p Hp. now apply forSubject_sum.
  - intros Hfull. rewrite <- Hsum. f_equal. apply map_ext_in.
    intros p Hp. now apply forSubject_sum.
Qed.

Lemma requests_shape :
  Forall (fun r => 1 <= asked r <= BATCH_SIZE
                   /\ (mcqCount r = 0 \/ numCount r = 0)
                   /\ 0 <= mcqCount r /\ 0 <= numCount r)
    (requests SYLLABUS config).
Proof.
  rewrite requests_unfold. apply Forall_flat_map. apply Forall_forall.
  intros [sub subTotal] _. unfold forSubject.
  destruct (subTotal =? 0); [constructor|].
  destruct (_ && _); [constructor|].
  eapply Forall_impl; [|apply subjectRequests_shape].
  intros r Hr. cbv beta in Hr. tauto.
Qed.

End Plan.

(** The batches cannot return more than was asked of them. *)
Lemma batches_length (rs : list Request) :
  Forall (fun r => 0 <= mcqCount r /\ 0 <= numCount r) rs ->
  forall replies : list (option (list PartialQuestion)),
    Z.of_nat
      (List.length
         (List.concat
            (map (fun '(request, reply) => generateBatch reply request)
               (combine rs replies))))
    <= sumList (map asked rs).
Proof.
  induction 1 as [|r rs [Hm Hn] Hrs IH]; intros replies.
  - cbn. lia.
  - assert (Hnonneg : 0 <= sumList (map asked rs)).
    { clear IH. induction Hrs as [|r' rs' [Hm' Hn'] _ IH']; cbn [map sumList];
        [lia | unfold asked at 1; lia]. }
    destruct replies as [|reply replies]; cbn [combine map List.concat sumList].
    + cbn. unfold asked at 1. lia.
    + rewrite length_app, Nat2Z.inj_add.
      pose proof (generateBatch_length reply r Hm Hn).
      specialize (IH replies). lia.
Qed.

Lemma all_failed (rs : list Request)
    (replies : list (option (list PartialQuestion))) :
  Forall (fun reply => reply = None) replies ->
  List.concat
    (map (fun '(request, reply) => generateBatch reply request)
       (combine rs replies)) = [].
Proof.
  intros Hall. revert rs.
  induction Hall as [|reply replies -> _ IH]; intros [|r rs];
    cbn [combine map List.concat]; try reflexivity.
  now rewrite IH.
Qed.

End RequestFacts.

(* ================================================================== *)
(** ** [geminiService.ts]: what the request plan and the assembly guarantee *)

Section ServiceProperties.

Import GeminiService PlanFacts AssemblyFacts RequestFacts.

(** X12.  [distributeCount] shares a non-negative total among the parts: one share
    per part, the shares add up to the total, and every share is the floored
    quotient or one more, the larger shares first. *)
Theorem distributeCount_shares_the_total (total : Z) (parts : nat)
    (Htotal : 0 <= total) (Hparts : (0 < parts)%nat) :
  List.length (distributeCount total parts) = parts
  /\ sumList (distributeCount total parts) = total
  /\ Forall (fun share => share = total / Z.of_nat parts
                          \/ share = total / Z.of_nat parts + 1)
       (distributeCount total parts)
  /\ forall i j : nat,
       (i <= j < parts)%nat ->
       nth j (distributeCount total parts) 0
       <= nth i (distributeCount total parts) 0.
Proof.
  split; [apply distributeCount_length|].
  split; [now apply distributeCount_sum|].
  split.
  - eapply Forall_impl; [|apply (distributeCount_entries total parts Htotal Hparts)].
    intros share H. cbv beta in H. tauto.
  - intros i j Hij. unfold distributeCount. cbv zeta.
    set (f := fun i0 : nat =>
                if Z.of_nat i0 <? Z.rem total (Z.of_nat parts)
                then total / Z.of_nat parts + 1 else total / Z.of_nat parts).
    rewrite (nth_indep _ 0 (f 0%nat) (n := j))
      by (rewrite length_map, length_seq; lia).
    rewrite (nth_indep _ 0 (f 0%nat) (n := i))
      by (rewrite length_map, length_seq; lia).
    rewrite !map_nth, !seq_nth by lia. cbn [Nat.add]. unfold f.
    destruct (Z.ltb_spec (Z.of_nat j) (Z.rem total (Z.of_nat parts)));
      destruct (Z.ltb_spec (Z.of_nat i) (Z.rem total (Z.of_nat parts))); lia.
Qed.

Lemma distributeCount_shares_the_total_witness :
  List.length (distributeCount 16 3) = 3%nat
  /\ sumList (distributeCount 16 3) = 16.
Proof.
  destruct (distributeCount_shares_the_total 16 3) as (Hlen & Hsum & _);
    [lia | lia | split; [exact Hlen | exact Hsum]].
Defined.

(** X13.  The loop that cuts a count into batches asks for the whole count and no
    more (nothing for a count that is not positive), in batches of 1 to 10
    questions, and makes no more requests than needed. *)
Theorem batches_cover_the_count (total : Z) :
  sumList (batchSizes total) = Z.max 0 total
  /\ Forall (fun size => 1 <= size <= BATCH_SIZE) (batchSizes total)
  /\ Z.of_nat (List.length (batchSizes total))
     = (Z.max 0 total + (BATCH_SIZE - 1)) / BATCH_SIZE.
Proof.
  split; [apply batchSizes_sum|].
  split; [apply batchSizes_bounds | apply batchSizes_length].
Qed.

(** X14.  Of a subject's share of 1 to 1000 questions, four fifths rounded down
    are MCQs, but at least one; the rest are numerical, and the two parts
    add up to the share. *)
Theorem share_is_split_four_to_one (subTotal : Z)
    (Hshare : 1 <= subTotal <= 1000) :
  totalMcq subTotal = Z.max 1 (4 * subTotal / 5)
  /\ totalMcq subTotal + totalNum subTotal = subTotal.
Proof.
  assert (Hin : In (Z.to_nat subTotal) (seq 1 1000)) by (apply in_seq; lia).
  pose proof (proj1 (forallb_forall _ _) split_checked_to_1000 _ Hin)
    as Hchecked.
  cbv beta in Hchecked. rewrite Z2Nat.id in Hchecked by lia.
  unfold splitChecked in Hchecked.
  apply andb_prop in Hchecked as [Hmcq Hsum].
  apply Z.eqb_eq in Hmcq, Hsum. split; [exact Hmcq | exact Hsum].
Qed.

Lemma share_is_split_four_to_one_witness :
  totalMcq 7 = Z.max 1 (4 * 7 / 5) /\ totalMcq 7 + totalNum 7 = 7.
Proof.
  apply (share_is_split_four_to_one 7). lia.
Defined.

(** X15.  For up to 1000 questions and at least one subject, the batch requests of
    [generateQuestions] never ask for more questions than the configured
    count, and ask for exactly that count when no chapter is selected. *)
Theorem requests_add_up_to_the_question_count
    (SYLLABUS : Subject -> list jsstring) (config : TestConfig)
    (Hsubjects : subjects config <> [])
    (Hcount : 0 <= questionCount config <= 1000) :
  sumList (map (fun r => mcqCount r + numCount r) (requests SYLLABUS config))
  <= questionCount config
  /\ (chapters config = [] ->
      sumList (map (fun r => mcqCount r + numCount r)
                 (requests SYLLABUS config))
      = questionCount config).
Proof.
  destruct (requests_sum SYLLABUS config Hsubjects Hcount) as [Hle Hfull].
  split; [exact Hle | exact Hfull].
Qed.

Lemma requests_add_up_to_the_question_count_witness :
  sumList (map (fun r => mcqCount r + numCount r)
             (requests (fun _ => [])
                (mkTestConfig [PHYSICS; CHEMISTRY; MATHS] [] 75 180 Mixed)))
  = 75.
Proof.
  apply (requests_add_up_to_the_question_count (fun _ => [])
           (mkTestConfig [PHYSICS; CHEMISTRY; MATHS] [] 75 180 Mixed));
    [discriminate | cbn; lia | reflexivity].
Defined.

(** X16.  Every batch request of [generateQuestions] asks for one type of
    question only, and for 1 to 10 questions. *)
Theorem every_request_is_of_one_type
    (SYLLABUS : Subject -> list jsstring) (config : TestConfig)
    (Hsubjects : subjects config <> [])
    (Hcount : 0 <= questionCount config <= 1000) :
  Forall (fun r => (mcqCount r = 0 \/ numCount r = 0)
                   /\ 1 <= mcqCount r + numCount r <= BATCH_SIZE)
    (requests SYLLABUS config).
Proof.
  eapply Forall_impl;
    [|apply (requests_shape SYLLABUS config Hsubjects Hcount)].
  intros r H. cbv beta in H. unfold asked in H. tauto.
Qed.

Lemma every_request_is_of_one_type_witness :
  Forall (fun r => (mcqCount r = 0 \/ numCount r = 0)
                   /\ 1 <= mcqCount r + numCount r <= BATCH_SIZE)
    (requests (fun _ => [])
       (mkTestConfig [PHYSICS; MATHS] [] 25 60 Hard)).
Proof.
  apply (every_request_is_of_one_type (fun _ => [])
           (mkTestConfig [PHYSICS; MATHS] [] 25 60 Hard));
    [discriminate | cbn; lia].
Defined.

(** X17.  Whatever the model answers to a batch request, [generateBatch] returns
    questions of the answer only: first the leading MCQs of the answer, in
    the order of the answer, then its leading numericals; of each type as
    many as were requested or, if the answer holds fewer, all that the
    answer holds; questions of any other type are dropped. *)
Theorem a_batch_keeps_the_requested_types
    (questions : list PartialQuestion) (request : Request)
    (Hmcq : 0 <= mcqCount request) (Hnum : 0 <= numCount request) :
  exists mcqs nums,
    generateBatch (Some questions) request = mcqs ++ nums
    /\ (exists later, filter (hasType MCQ) questions = mcqs ++ later)
    /\ (exists later, filter (hasType NUMERICAL) questions = nums ++ later)
    /\ Z.of_nat (List.length mcqs)
       = Z.min (mcqCount request)
           (Z.of_nat (List.length (filter (hasType MCQ) questions)))
    /\ Z.of_nat (List.length nums)
       = Z.min (numCount request)
           (Z.of_nat (List.length (filter (hasType NUMERICAL) questions)))
    /\ Forall (fun q => p_type q = Some MCQ /\ In q questions) mcqs
    /\ Forall (fun q => p_type q = Some NUMERICAL /\ In q questions) nums.
Proof.
  assert (Hprefix :
            forall (n : Z) (l : list PartialQuestion),
              0 <= n -> exists later, l = slice0 n l ++ later).
  { intros n l Hn. exists (skipn (Z.to_nat n) l). unfold slice0.
    replace (0 <=? n) with true by (symmetry; apply Z.leb_le; lia).
    symmetry. apply firstn_skipn. }
  assert (Hfrom :
            forall (t : QuestionType) (n : Z),
              0 <= n ->
              Forall (fun q => p_type q = Some t /\ In q questions)
                (slice0 n (filter (hasType t) questions))).
  { intros t n Hn. apply Forall_forall. intros q Hq.
    destruct (Hprefix n (filter (hasType t) questions) Hn) as [later Hl].
    assert (Hin : In q (filter (hasType t) questions))
      by (rewrite Hl; apply in_or_app; now left).
    split.
    - pose proof (filter_hasType t questions) as Hall.
      rewrite Forall_forall in Hall. now apply Hall.
    - now apply filter_In in Hin. }
  exists (slice0 (mcqCount request) (filter (hasType MCQ) questions)),
         (slice0 (numCount request) (filter (hasType NUMERICAL) questions)).
  split; [reflexivity|].
  split; [now apply Hprefix|]. split; [now apply Hprefix|].
  split; [now apply slice0_length|]. split; [now apply slice0_length|].
  split; now apply Hfrom.
Qed.

Lemma a_batch_keeps_the_requested_types_witness :
  exists mcqs nums,
    generateBatch
      (Some [mkPartial None (Some NUMERICAL) None;
             mkPartial (Some (js "1")) (Some MCQ) None;
             mkPartial None None None;
             mkPartial (Some (js "3")) (Some MCQ) None])
      (mkRequest PHYSICS 1 0)
    = mcqs ++ nums
    /\ Z.of_nat (List.length mcqs) = 1
    /\ Z.of_nat (List.length nums) = 0.
Proof.
  destruct (a_batch_keeps_the_requested_types
              [mkPartial None (Some NUMERICAL) None;
               mkPartial (Some (js "1")) (Some MCQ) None;
               mkPartial None None None;
               mkPartial (Some (js "3")) (Some MCQ) None]
              (mkRequest PHYSICS 1 0))
    as (mcqs & nums & Heq & _ & _ & Hm & Hn & _); [cbn; lia | cbn; lia |].
  exists mcqs, nums. split; [exact Heq|]. split; [exact Hm | exact Hn].
Defined.

(** X18.  The questions that [generateQuestions] returns have pairwise distinct
    ids, whatever the clock and the answers of the model, and none has an
    empty correct answer. *)
Theorem generated_questions_have_distinct_ids
    (SYLLABUS : Subject -> list jsstring) (config : TestConfig)
    (now : nat -> Z) (replies : list (option (list PartialQuestion))) :
  NoDup (map id (generateQuestions SYLLABUS config now replies))
  /\ Forall (fun q => truthy (correctAnswer q) = true)
       (generateQuestions SYLLABUS config now replies).
Proof.
  unfold generateQuestions.
  destruct (subjects config) as [|firstSubject rest];
    [split; constructor|].
  unfold assemble. cbv zeta. split.
  - apply (ids_from firstSubject now _ 0%nat).
  - apply Forall_forall. intros q Hq. apply in_map_iff in Hq.
    destruct Hq as ([idx p] & <- & _). unfold complete. cbn [correctAnswer].
    destruct (p_correctAnswer p) as [a|]; [|reflexivity].
    destruct (truthy a) eqn:E; [exact E | reflexivity].
Qed.

(** X19.  For up to 1000 questions, [generateQuestions] never returns more
    questions than the configured count. *)
Theorem no_more_questions_than_configured
    (SYLLABUS : Subject -> list jsstring) (config : TestConfig)
    (now : nat -> Z) (replies : list (option (list PartialQuestion)))
    (Hcount : 0 <= questionCount config <= 1000) :
  Z.of_nat (List.length (generateQuestions SYLLABUS config now replies))
  <= questionCount config.
Proof.
  unfold generateQuestions.
  destruct (subjects config) as [|firstSubject rest] eqn:Hs; [cbn; lia|].
  rewrite assemble_length.
  assert (Hsubjects : subjects config <> []) by (rewrite Hs; discriminate).
  pose proof (requests_sum SYLLABUS config Hsubjects Hcount) as [Hle _].
  pose proof (requests_shape SYLLABUS config Hsubjects Hcount) as Hshape.
  pose proof (batches_length (requests SYLLABUS config)) as Hlen.
  etransitivity; [apply Hlen | exact Hle].
  eapply Forall_impl; [|exact Hshape].
  intros r H. cbv beta in H. tauto.
Qed.

Lemma no_more_questions_than_configured_witness :
  Z.of_nat
    (List.length
       (generateQuestions (fun _ => [])
          (mkTestConfig [PHYSICS] [] 2 5 Easy) (fun _ => 1762117200000)
          [Some [mkPartial (Some (js "3")) (Some MCQ) (Some PHYSICS);
                 mkPartial (Some (js "1")) (Some MCQ) (Some PHYSICS);
                 mkPartial (Some (js "2")) (Some MCQ) (Some PHYSICS)];
           Some [mkPartial (Some (js "12")) (Some NUMERICAL) None;
                 mkPartial (Some (js "7")) (Some NUMERICAL) None]]))
  <= 2.
Proof.
  apply (no_more_questions_than_configured (fun _ => [])
           (mkTestConfig [PHYSICS] [] 2 5 Easy)).
  cbn. lia.
Defined.

End ServiceProperties.

(* ================================================================== *)
(** ** [App.tsx]: the history over a run of the program *)

Module HistoryFacts.

Import App Program Measures TestInterface ProgramFacts.

Lemma firstn_app_firstn {A : Type} (l l' : list A) :
  forall n m : nat,
    (n <= m)%nat -> firstn n (l ++ firstn m l') = firstn n (l ++ l').
Proof.
  induction l as [|x l IH]; intros n m Hnm; cbn [List.app].
  - rewrite firstn_firstn. f_equal. lia.
  - destruct n as [|n]; [reflexivity|]. cbn [firstn]. f_equal.
    apply IH. lia.
Qed.

Definition keepsHistory (e : Effect) : Prop :=
  match e with
  | setTestHistory _ | localStorage_setItem _ => False
  | _ => True
  end.

Lemma perform_keeps_history (effects : list Effect) :
  Forall keepsHistory effects ->
  forall (st : App.State) (stored : option (list TestHistoryItem.t)),
    testHistory (fst (fold_left perform effects (st, stored)))
    = testHistory st
    /\ snd (fold_left perform effects (st, stored)) = stored.
Proof.
  induction 1 as [|e rest He _ IH]; intros st stored; cbn [fold_left].
  - split; reflexivity.
  - destruct e; try contradiction; cbn [perform];
      match goal with
      | |- context [fold_left perform rest (?st', _)] =>
          destruct (IH st' stored) as [H1 H2]
      end;
      rewrite H1, H2; split; reflexivity.
Qed.

Lemma commit_keeps_history (effects : list Effect) (sys : System) :
  Forall keepsHistory effects ->
  testHistory (app (commit effects sys)) = testHistory (app sys)
  /\ localStorage (commit effects sys) = localStorage sys.
Proof.
  intros Hall. unfold commit.
  destruct (perform_keeps_history effects Hall (app sys) (localStorage sys))
    as [H1 H2].
  destruct (fold_left perform effects (app sys, localStorage sys))
    as [st stored].
  cbn [fst snd] in H1, H2. cbn [app localStorage]. split; assumption.
Qed.

(** One event either leaves the history and the storage alone, or signals
    once, puts one entry in front of the history, cuts it at 50 and stores
    it. *)
Lemma step_history (sys : System) (e : Event) :
  (snd (step sys e) = []
   /\ testHistory (app (fst (step sys e))) = testHistory (app sys)
   /\ localStorage (fst (step sys e)) = localStorage sys)
  \/ (exists sg item,
        snd (step sys e) = [sg]
        /\ testHistory (app (fst (step sys e)))
           = firstn 50 (item :: testHistory (app sys))
        /\ localStorage (fst (step sys e))
           = Some (testHistory (app (fst (step sys e))))).
Proof.
  assert (Hfinish :
            forall clock userResponses sys0 (sg : Signal),
              exists sg' item,
                [sg] = [sg']
                /\ testHistory
                     (app (commit (handleTestFinish (app sys) clock
                                     userResponses) sys0))
                   = firstn 50 (item :: testHistory (app sys))
                /\ localStorage
                     (commit (handleTestFinish (app sys) clock userResponses)
                        sys0)
                   = Some (testHistory
                             (app (commit (handleTestFinish (app sys) clock
                                             userResponses) sys0)))).
  { intros clock userResponses sys0 sg.
    destruct (commit_handleTestFinish (app sys) clock userResponses sys0)
      as (_ & _ & _ & Hh & Hl & _). cbv zeta in Hh, Hl.
    exists sg, (historyItem (app sys) clock userResponses).
    split; [reflexivity|]. split; [exact Hh|]. now rewrite Hl, Hh. }
  destruct e;
    try (unfold step; destruct (session sys) as [s|];
         [|left; repeat split; reflexivity]).
  - (* StartTest *)
    left. unfold step.
    destruct (startTest (app sys) testConfig generated) as [before after]
      eqn:Hst.
    cbn [fst snd]. split; [reflexivity|].
    unfold startTest in Hst. cbv zeta in Hst.
    injection Hst as <- <-.
    match goal with
    | |- context [commit ?after (commit ?before sys)] =>
        assert (Hafter : Forall keepsHistory after)
    end.
    { destruct generated as [generatedQuestions | err];
        [destruct (Z.of_nat (List.length generatedQuestions) =? 0)|];
        repeat constructor. }
    destruct (commit_keeps_history _
                (commit [setView ViewLoading; setError None] sys) Hafter)
      as [H1 H2].
    destruct (commit_keeps_history [setView ViewLoading; setError None] sys)
      as [H3 H4]; [repeat constructor|].
    rewrite H1, H2, H3, H4. split; reflexivity.
  - (* Tick *)
    destruct (tick s) as [s' [userResponses|]].
    + right. cbn [fst snd]. apply Hfinish.
    + left. repeat split; reflexivity.
  - left. repeat split; reflexivity.
  - left. repeat split; reflexivity.
  - left. repeat split; reflexivity.
  - left. repeat split; reflexivity.
  - left. repeat split; reflexivity.
  - left. repeat split; reflexivity.
  - left. repeat split; reflexivity.
  - right. cbv zeta. cbn [fst snd]. apply Hfinish.
Qed.

Lemma run_history (events : list Event) :
  forall sys : System,
    (snd (run sys events) = []
     /\ testHistory (app (fst (run sys events))) = testHistory (app sys)
     /\ localStorage (fst (run sys events)) = localStorage sys)
    \/ (snd (run sys events) <> []
        /\ exists items,
             List.length items = List.length (snd (run sys events))
             /\ testHistory (app (fst (run sys events)))
                = firstn 50 (items ++ testHistory (app sys))
             /\ localStorage (fst (run sys events))
                = Some (testHistory (app (fst (run sys events))))).
Proof.
  induction events as [|e rest IH]; intros sys; cbn [run].
  - left. repeat split; reflexivity.
  - pose proof (step_history sys e) as Hstep.
    destruct (step sys e) as [sys1 out1]. cbn [fst snd] in Hstep.
    specialize (IH sys1).
    destruct (run sys1 rest) as [sys2 out2]. cbn [fst snd] in IH |- *.
    destruct Hstep as [(-> & Hh1 & Hl1) | (sg & item & -> & Hh1 & Hl1)];
      destruct IH as [(-> & Hh2 & Hl2) | (Hne & items & Hlen & Hh2 & Hl2)].
    + left. cbn [List.app]. split; [reflexivity|].
      split; [now rewrite Hh2 | now rewrite Hl2].
    + right. cbn [List.app]. split; [exact Hne|]. exists items.
      split; [exact Hlen|]. split; [now rewrite Hh2, Hh1 | exact Hl2].
    + right. cbn [List.app]. split; [discriminate|]. exists [item].
      split; [reflexivity|]. split; [rewrite Hh2; exact Hh1|].
      rewrite Hl2, Hh2. exact Hl1.
    + right. split; [discriminate|]. exists (items ++ [item]).
      split; [|split; [|exact Hl2]].
      * rewrite length_app. cbn [List.length List.app]. lia.
      * rewrite Hh2, Hh1, firstn_app_firstn by lia.
        now rewrite <- app_assoc.
Qed.

End HistoryFacts.

Section HistoryProperties.

Import App Program Measures TestInterface ProgramFacts HistoryFacts
       GeminiService RequestFacts.

(** X22.  Over any run of the program in which a test is finished, each finish
    puts one entry in front of the history; what is kept are the 50 newest
    entries, older ones behind newer ones, and [localStorage] holds exactly
    the history that [App] shows. *)
Theorem history_keeps_the_newest_fifty (sys : System) (events : list Event)
    (Hfinished : snd (run sys events) <> []) :
  let sys' := fst (run sys events) in
  (exists items,
      List.length items = List.length (snd (run sys events))
      /\ testHistory (app sys')
         = firstn 50 (items ++ testHistory (app sys)))
  /\ (List.length (testHistory (app sys')) <= 50)%nat
  /\ localStorage sys' = Some (testHistory (app sys')).
Proof.
  cbv zeta.
  destruct (run_history events sys)
    as [(Hnil & _) | (_ & items & Hlen & Hh & Hl)]; [contradiction|].
  split; [exists items; split; assumption|].
  split; [|exact Hl]. rewrite Hh. apply firstn_le_length.
Qed.

(** X23.  As long as no test is finished, starting a test, the timer and the
    controls of the test leave the history and [localStorage] as they
    are. *)
Theorem taking_a_test_leaves_the_history_alone (sys : System)
    (events : list Event) (Hquiet : snd (run sys events) = []) :
  testHistory (app (fst (run sys events))) = testHistory (app sys)
  /\ localStorage (fst (run sys events)) = localStorage sys.
Proof.
  destruct (run_history events sys)
    as [(_ & Hh & Hl) | (Hne & _)]; [split; assumption | contradiction].
Qed.

End HistoryProperties.

Section StartProperties.

Import App Program Measures TestInterface ProgramFacts HistoryFacts
       GeminiService AssemblyFacts RequestFacts TableFacts StatusModel
       InvariantFacts TimeOnScreenFacts.

Lemma history_keeps_the_newest_fifty_witness :
  let sys' := fst (run Walkthrough.started [SubmitTest Sample.clock1]) in
  localStorage sys' = Some (testHistory (app sys')).
Proof.
  destruct (history_keeps_the_newest_fifty Walkthrough.started
              [SubmitTest Sample.clock1]) as (_ & _ & Hstored);
    [vm_compute; discriminate | exact Hstored].
Defined.

Lemma walkthrough_quiet : snd (run Walkthrough.started Walkthrough.events) = [].
Proof. vm_compute. reflexivity. Qed.

Lemma taking_a_test_leaves_the_history_alone_witness :
  testHistory (app (fst (run Walkthrough.started Walkthrough.events)))
  = testHistory (app Walkthrough.started).
Proof.
  destruct (taking_a_test_leaves_the_history_alone Walkthrough.started
              Walkthrough.events walkthrough_quiet) as [Hh _].
  exact Hh.
Defined.

Lemma generateQuestions_all_failed (SYLLABUS : Subject -> list jsstring)
    (config : TestConfig) (now : nat -> Z)
    (replies : list (option (list PartialQuestion))) :
  Forall (fun reply => reply = None) replies ->
  generateQuestions SYLLABUS config now replies = [].
Proof.
  intros Hall. unfold generateQuestions.
  destruct (subjects config) as [|firstSubject rest]; [reflexivity|].
  unfold assemble. cbv zeta. now rewrite (all_failed _ _ Hall).
Qed.

Lemma step_start_empty (sys : System) (testConfig : TestConfig) :
  let sys' := fst (step sys (StartTest testConfig (Resolved []))) in
  view (app sys') = ViewConfig
  /\ error (app sys')
     = Some (js "No questions were generated. Please try again.")
  /\ session sys' = None
  /\ App.questions (app sys') = App.questions (app sys)
  /\ config (app sys') = config (app sys).
Proof.
  destruct sys as [[v full cfg qs rs err hist] stored mounted].
  cbv zeta. repeat split.
Qed.

(** X21.  When every call of the model fails, [generateQuestions] returns no
    question and [startTest] does not start a test: the application is back
    on the configuration view with the error "No questions were generated.
    Please try again.", no test interface is mounted, and the questions and
    the configuration of the application are untouched. *)
Theorem a_start_without_questions_returns_to_the_configuration
    (SYLLABUS : Subject -> list jsstring) (sys : System)
    (testConfig : TestConfig) (now : nat -> Z)
    (replies : list (option (list PartialQuestion)))
    (Hfailed : Forall (fun reply => reply = None) replies) :
  let finalConfig :=
    mkTestConfig (subjects testConfig)
      (if isFullSyllabus (app sys) then [] else chapters testConfig)
      (questionCount testConfig) (durationMinutes testConfig)
      (difficulty testConfig) in
  let generated := generateQuestions SYLLABUS finalConfig now replies in
  let sys' := fst (step sys (StartTest testConfig (Resolved generated))) in
  generated = []
  /\ view (app sys') = ViewConfig
  /\ error (app sys')
     = Some (js "No questions were generated. Please try again.")
  /\ session sys' = None
  /\ App.questions (app sys') = App.questions (app sys)
  /\ config (app sys') = config (app sys).
Proof.
  cbv zeta. rewrite (generateQuestions_all_failed _ _ _ _ Hfailed).
  split; [reflexivity|]. exact (step_start_empty sys testConfig).
Qed.

Lemma a_start_without_questions_returns_to_the_configuration_witness :
  view
    (app
       (fst
          (step Sample.boot
             (StartTest Walkthrough.cfg
                (Resolved
                   (generateQuestions (fun _ => [])
                      (mkTestConfig [PHYSICS] [] 2 1 Mixed)
                      (fun _ => 1762117200000) [None; None]))))))
  = ViewConfig.
Proof.
  destruct (a_start_without_questions_returns_to_the_configuration
              (fun _ => []) Sample.boot Walkthrough.cfg
              (fun _ => 1762117200000) [None; None])
    as (_ & Hview & _); [repeat constructor | exact Hview].
Defined.

(** X20.  A paper from [generateQuestions] mounts with exactly one response per
    question, in the order of the questions: what a test on it submits has
    the ids of the paper. *)
Theorem a_generated_paper_gets_one_response_per_question
    (SYLLABUS : Subject -> list jsstring) (config : TestConfig)
    (now : nat -> Z) (replies : list (option (list PartialQuestion)))
    (durationMinutes_ : Z) :
  let paper := generateQuestions SYLLABUS config now replies in
  map questionId (handleFinishTest (mount paper durationMinutes_))
  = map id paper.
Proof.
  cbv zeta. unfold handleFinishTest, Table.values. cbn [mount responses].
  assert (Hnd : NoDup (map id (generateQuestions SYLLABUS config now replies))).
  { unfold generateQuestions.
    destruct (subjects config) as [|firstSubject rest]; [constructor|].
    unfold assemble. cbv zeta. apply (ids_from firstSubject now _ 0%nat). }
  rewrite <- (keys_initialResponses _ Hnd).
  pose proof (initialResponses_keyed
                (generateQuestions SYLLABUS config now replies)) as Hkeyed.
  induction Hkeyed as [|kv tbl Hkv _ IH]; [reflexivity|].
  cbn [map]. now rewrite Hkv, IH.
Qed.

End StartProperties.

(* ================================================================== *)
(** ** [ResultScreen.tsx]: the bounds of the score and the charts *)

Module ChartFacts.

Import ResultScreen Scoring ScoringFacts Charts.

Lemma countOutcome_le (o : Outcome) (responses : list UserResponse)
    (questions : list Question) :
  countOutcome o responses questions <= Z.of_nat (List.length questions).
Proof.
  pose proof (countOutcome_total responses questions).
  pose proof (countOutcome_nonneg Correct responses questions).
  pose proof (countOutcome_nonneg Wrong responses questions).
  pose proof (countOutcome_nonneg Skipped responses questions).
  destruct o; lia.
Qed.

Lemma Outcome_eqb_eq (a b : Outcome) : Outcome_eqb a b = true <-> a = b.
Proof. destruct a, b; cbn; split; congruence. Qed.

Lemma countOutcome_all (o : Outcome) (responses : list UserResponse)
    (questions : list Question) :
  countOutcome o responses questions = Z.of_nat (List.length questions)
  <-> Forall (fun q => outcome responses q = o) questions.
Proof.
  induction questions as [|q rest IH]; cbn [countOutcome List.length].
  - split; [constructor | reflexivity].
  - rewrite Nat2Z.inj_succ.
    pose proof (countOutcome_le o responses rest) as Hle.
    destruct (Outcome_eqb (outcome responses q) o) eqn:E.
    + apply Outcome_eqb_eq in E. split.
      * intros H. constructor; [exact E | apply IH; lia].
      * intros H. apply Forall_inv_tail in H. apply IH in H. lia.
    + split; [lia|]. intros H. apply Forall_inv in H.
      apply Outcome_eqb_eq in H. congruence.
Qed.

(** The number of questions of a subject with a given outcome. *)
Definition tally (o : Outcome) (sub : Subject)
    (responses : list UserResponse) (questions : list Question) : Z :=
  count o (subQs (analyzedQuestions questions responses) sub).

Lemma tally_cons (o : Outcome) (sub : Subject)
    (responses : list UserResponse) (q : Question) (rest : list Question) :
  tally o sub responses (q :: rest)
  = (if Subject_eqb (subject q) sub && Outcome_eqb (outcome responses q) o
     then 1 else 0)
    + tally o sub responses rest.
Proof.
  unfold tally, count, subQs, analyzedQuestions. cbn [map filter fst].
  destruct (Subject_eqb (subject q) sub); cbn [andb]; [|lia].
  cbn [filter]. unfold hasOutcome at 1. cbn [snd].
  destruct (outcome responses q), o; cbn [Outcome_eqb List.length];
    try rewrite Nat2Z.inj_succ; lia.
Qed.

Lemma tally_subjects (o : Outcome) (responses : list UserResponse)
    (questions : list Question) :
  tally o PHYSICS responses questions
  + tally o CHEMISTRY responses questions
  + tally o MATHS responses questions
  = countOutcome o responses questions.
Proof.
  induction questions as [|q rest IH]; [reflexivity|].
  rewrite !tally_cons. cbn [countOutcome]. rewrite <- IH.
  destruct (subject q), (Outcome_eqb (outcome responses q) o);
    cbn [Subject_eqb andb]; lia.
Qed.

Lemma tally_outcomes (sub : Subject) (responses : list UserResponse)
    (questions : list Question) :
  tally Correct sub responses questions
  + tally Wrong sub responses questions
  + tally Skipped sub responses questions
  = Z.of_nat
      (List.length (filter (fun q => Subject_eqb (subject q) sub) questions)).
Proof.
  induction questions as [|q rest IH]; [reflexivity|].
  rewrite !tally_cons. cbn [filter].
  destruct (Subject_eqb (subject q) sub); cbn [andb List.length];
    [rewrite Nat2Z.inj_succ|];
    destruct (outcome responses q); cbn [Outcome_eqb]; lia.
Qed.

Lemma attempted_of_subject (l : list (Question * Outcome)) :
  Z.of_nat (List.length (filter (fun a => negb (hasOutcome Skipped a)) l))
  = count Correct l + count Wrong l.
Proof.
  unfold count. induction l as [|[q o] rest IH]; [reflexivity|].
  destruct o; cbn [filter];
    repeat match goal with
           | |- context [hasOutcome ?a (q, ?b)] =>
               first [ change (hasOutcome a (q, b)) with true
                     | change (hasOutcome a (q, b)) with false ]
           end;
    cbn [negb List.length]; rewrite ?Nat2Z.inj_succ; lia.
Qed.

End ChartFacts.

Section ResultProperties.

Import ResultScreen Scoring ScoringFacts Charts ChartFacts.

(** X24.  The score lies between minus the number of questions and the maximum
    score, and the verdict is "Godlike!" exactly when every question of the
    paper was answered correctly (which an empty paper satisfies). *)
Theorem godlike_means_every_question_is_correct (questions : list Question)
    (responses : list UserResponse) :
  let r := report questions responses in
  - totalQuestions r <= r_score r <= maxScore r
  /\ (getVerdict r = Godlike
      <-> Forall (fun q => outcome responses q = Correct) questions).
Proof.
  cbv zeta.
  destruct (fold_analyze responses questions zero) as (_ & _ & _ & Hs).
  cbv zeta in Hs. cbn [zero score] in Hs.
  pose proof (countOutcome_total responses questions) as Htot.
  pose proof (countOutcome_nonneg Correct responses questions) as Hc.
  pose proof (countOutcome_nonneg Wrong responses questions) as Hw.
  pose proof (countOutcome_nonneg Skipped responses questions) as Hk.
  assert (Hscore : r_score (report questions responses)
                   = 4 * countOutcome Correct responses questions
                     - countOutcome Wrong responses questions).
  { unfold report. cbn [r_score]. unfold counters. rewrite Hs. lia. }
  assert (Hmax : maxScore (report questions responses)
                 = Z.of_nat (List.length questions) * 4) by reflexivity.
  assert (Htotal : totalQuestions (report questions responses)
                   = Z.of_nat (List.length questions)) by reflexivity.
  split; [rewrite Hscore, Hmax, Htotal; lia|].
  rewrite <- countOutcome_all.
  assert (Hverdict : getVerdict (report questions responses) = Godlike
                     <-> r_score (report questions responses)
                         = maxScore (report questions responses)).
  { unfold getVerdict.
    destruct (Z.eqb_spec (r_score (report questions responses))
                (maxScore (report questions responses))) as [Heq | Hne].
    - split; intros _; [exact Heq | reflexivity].
    - split; [|contradiction].
      repeat match goal with
             | |- context [if ?c then _ else _] => destruct c
             end; discriminate. }
  rewrite Hverdict, Hscore, Hmax. lia.
Qed.

(** X25.  The bar chart splits the report by subject: over the three bars the
    Correct, Wrong and Skipped counts add up to the correct, incorrect and
    unattempted counts of the report, and the three counts of a bar add up
    to the number of questions of its subject. *)
Theorem bar_chart_adds_up_to_the_report (questions : list Question)
    (responses : list UserResponse) :
  let bars := barData questions responses in
  let r := report questions responses in
  sumList (map bar_Correct bars) = r_correct r
  /\ sumList (map bar_Wrong bars) = r_incorrect r
  /\ sumList (map bar_Skipped bars) = r_unattempted r
  /\ map (fun b => bar_Correct b + bar_Wrong b + bar_Skipped b) bars
     = map (fun sub =>
              Z.of_nat
                (List.length
                   (filter (fun q => Subject_eqb (subject q) sub) questions)))
         [PHYSICS; CHEMISTRY; MATHS].
Proof.
  cbv zeta.
  destruct (fold_analyze responses questions zero) as (Hc & Hi & Hu & _).
  cbv zeta in Hc, Hi, Hu. cbn [zero correct incorrect unattempted] in Hc, Hi, Hu.
  unfold report. cbn [r_correct r_incorrect r_unattempted].
  unfold counters. rewrite Hc, Hi, Hu.
  unfold barData, subjects_.
  cbn [map sumList bar_Correct bar_Wrong bar_Skipped].
  fold (tally Correct PHYSICS responses questions).
  fold (tally Correct CHEMISTRY responses questions).
  fold (tally Correct MATHS responses questions).
  fold (tally Wrong PHYSICS responses questions).
  fold (tally Wrong CHEMISTRY responses questions).
  fold (tally Wrong MATHS responses questions).
  fold (tally Skipped PHYSICS responses questions).
  fold (tally Skipped CHEMISTRY responses questions).
  fold (tally Skipped MATHS responses questions).
  rewrite <- (tally_subjects Correct), <- (tally_subjects Wrong),
    <- (tally_subjects Skipped), !tally_outcomes.
  repeat split; lia.
Qed.

(** X26.  The radar chart shows, for each subject, the accuracy formula of the
    report applied to the counts of the subject's bar: 0 for a subject in
    which nothing was attempted, else [Math.round] of correct over correct
    plus wrong, times 100. *)
Theorem radar_accuracy_is_the_accuracy_of_the_bar (questions : list Question)
    (responses : list UserResponse) :
  map spoke_accuracy (radarData questions responses)
  = map (fun b =>
           let subAttempted := bar_Correct b + bar_Wrong b in
           if subAttempted =? 0 then of_Z 0
           else Math_round
                  (mul (div (of_Z (bar_Correct b)) (of_Z subAttempted))
                     (of_Z 100)))
      (barData questions responses)
  /\ map spoke_subject (radarData questions responses)
     = [PHYSICS; CHEMISTRY; MATHS].
Proof.
  assert (Hformula :
            forall l : list (Question * Outcome),
              accuracyOf (count Correct l) (count Correct l + count Wrong l)
              = if count Correct l + count Wrong l =? 0 then of_Z 0
                else Math_round
                       (mul (div (of_Z (count Correct l))
                               (of_Z (count Correct l + count Wrong l)))
                          (of_Z 100))).
  { intros l. unfold accuracyOf.
    assert (0 <= count Correct l + count Wrong l) by (unfold count; lia).
    destruct (Z.eqb_spec (count Correct l + count Wrong l) 0) as [-> | Hne];
      [reflexivity|].
    replace (0 <? count Correct l + count Wrong l) with true
      by (symmetry; apply Z.ltb_lt; lia).
    reflexivity. }
  unfold radarData, barData, subjects_.
  cbn [map spoke_accuracy spoke_subject bar_Correct bar_Wrong].
  rewrite !attempted_of_subject, !Hformula. split; reflexivity.
Qed.

Lemma sample_all_correct :
  Forall (fun q => outcome (Sample.sheet 3 0 0) q = Correct) (Sample.paper 3).
Proof.
  apply Forall_forall. intros q Hq. apply Outcome_eqb_eq.
  assert (Hall : forallb
                   (fun q => Outcome_eqb (outcome (Sample.sheet 3 0 0) q)
                               Correct)
                   (Sample.paper 3) = true)
    by (vm_compute; reflexivity).
  rewrite forallb_forall in Hall. now apply Hall.
Qed.

Lemma godlike_means_every_question_is_correct_witness :
  getVerdict (report (Sample.paper 3) (Sample.sheet 3 0 0)) = Godlike.
Proof.
  destruct (godlike_means_every_question_is_correct (Sample.paper 3)
              (Sample.sheet 3 0 0)) as [_ [_ Hall]].
  apply Hall. exact sample_all_correct.
Defined.

End ResultProperties.

(* ================================================================== *)
(** ** [App.tsx]: the chapter controls of the configuration view *)

Module ConfigFacts.

Import ConfigView.

Lemma includes_In (l : list jsstring) (c : jsstring) :
  includes l c = true <-> In c l.
Proof.
  unfold includes. rewrite existsb_exists. split.
  - intros (x & Hin & Heq). apply eqb_eq in Heq. now subst.
  - intros Hin. exists c. split; [exact Hin | apply eqb_refl].
Qed.

Lemma includes_app (l l' : list jsstring) (c : jsstring) :
  includes (l ++ l') c = includes l c || includes l' c.
Proof. apply existsb_app. Qed.

Lemma includes_filter (f : jsstring -> bool) (l : list jsstring)
    (c : jsstring) :
  includes (filter f l) c = includes l c && f c.
Proof.
  unfold includes. induction l as [|x l IH]; [reflexivity|].
  cbn [filter existsb]. destruct (JS.eqb c x) eqn:E.
  - apply eqb_eq in E. subst x. destruct (f c) eqn:Ef; cbn [existsb orb andb].
    + now rewrite eqb_refl.
    + rewrite IH, ?Ef, !andb_false_r. reflexivity.
  - destruct (f x); cbn [existsb orb]; [rewrite E|]; exact IH.
Qed.

Lemma filter_twice {A : Type} (f : A -> bool) (l : list A) :
  filter f (filter f l) = filter f l.
Proof.
  induction l as [|x l IH]; [reflexivity|]. cbn [filter].
  destruct (f x) eqn:E; [cbn [filter]; rewrite E; f_equal|]; exact IH.
Qed.

Lemma filter_none {A : Type} (f : A -> bool) (l : list A) :
  (forall x, In x l -> f x = false) -> filter f l = [].
Proof.
  induction l as [|x l IH]; intros H; [reflexivity|]. cbn [filter].
  rewrite (H x (or_introl eq_refl)). apply IH. intros y Hy. apply H.
  now right.
Qed.

Lemma filter_all {A : Type} (f : A -> bool) (l : list A) :
  (forall x, In x l -> f x = true) -> filter f l = l.
Proof.
  induction l as [|x l IH]; intros H; [reflexivity|]. cbn [filter].
  rewrite (H x (or_introl eq_refl)). f_equal. apply IH. intros y Hy.
  apply H. now right.
Qed.

Lemma withChapters_same (prev : TestConfig) :
  withChapters prev (chapters prev) = prev.
Proof. now destruct prev. Qed.

Lemma withChapters_twice (prev : TestConfig) (l l' : list jsstring) :
  withChapters (withChapters prev l) l' = withChapters prev l'.
Proof. reflexivity. Qed.

Lemma chapters_withChapters (prev : TestConfig) (l : list jsstring) :
  chapters (withChapters prev l) = l.
Proof. reflexivity. Qed.

End ConfigFacts.

Section ConfigProperties.

Import ConfigView ConfigFacts GeminiService PlanFacts.

(** X27.  Outside the full-syllabus mode, [toggleChapter] flips the selection of
    its chapter and of no other, keeps a selection free of duplicates free
    of duplicates, and ticking a chapter that was not selected and then
    unticking it gives back the configuration as it was; in full-syllabus
    mode it does nothing. *)
Theorem toggling_a_chapter_flips_its_selection (ch : jsstring)
    (prev : TestConfig) :
  let next := toggleChapter false ch prev in
  includes (chapters next) ch = negb (includes (chapters prev) ch)
  /\ (forall c, c <> ch ->
        includes (chapters next) c = includes (chapters prev) c)
  /\ (NoDup (chapters prev) -> NoDup (chapters next))
  /\ (includes (chapters prev) ch = false ->
      toggleChapter false ch next = prev)
  /\ toggleChapter true ch prev = prev.
Proof.
  cbv zeta. unfold toggleChapter. cbv zeta.
  destruct (includes (chapters prev) ch) eqn:Hin;
    rewrite ?chapters_withChapters.
  - split; [rewrite includes_filter, eqb_refl; apply andb_false_r|].
    split.
    { intros c Hc. rewrite includes_filter.
      replace (JS.eqb c ch) with false by (symmetry; now apply eqb_neq).
      apply andb_true_r. }
    split; [apply NoDup_filter|]. split; [discriminate | reflexivity].
  - assert (Hnew : includes (chapters prev ++ [ch]) ch = true).
    { rewrite includes_app. unfold includes at 2. cbn [existsb].
      rewrite eqb_refl. apply orb_true_r. }
    split; [exact Hnew|]. split.
    { intros c Hc. rewrite includes_app. unfold includes at 2.
      cbn [existsb].
      replace (JS.eqb c ch) with false by (symmetry; now apply eqb_neq).
      cbn [orb]. apply orb_false_r. }
    split.
    { intros Hnd. apply NoDup_app; [exact Hnd | repeat constructor; intros [] |].
      intros c Hc [<- | []]. apply includes_In in Hc. congruence. }
    split; [|reflexivity]. intros _. rewrite Hnew, withChapters_twice.
    rewrite filter_app. cbn [filter]. rewrite eqb_refl. cbn [negb].
    rewrite app_nil_r, filter_all; [apply withChapters_same|].
    intros c Hc. apply negb_true_iff, eqb_neq. intros ->.
    apply includes_In in Hc. congruence.
Qed.

Lemma toggling_a_chapter_flips_its_selection_witness :
  let prev := mkTestConfig [PHYSICS] [js "Optics"] 15 45 Mixed in
  toggleChapter false (js "Waves")
    (toggleChapter false (js "Waves") prev) = prev.
Proof.
  intros prev.
  destruct (toggling_a_chapter_flips_its_selection (js "Waves") prev)
    as (_ & _ & _ & Hback & _).
  apply Hback. reflexivity.
Defined.

(** X28.  Outside the full-syllabus mode, "Select all" and "Clear" of a subject
    set the selection of every chapter of the subject and leave the chapters
    of the other subjects as they are; doing either twice is the same as
    once, and "Clear" after "Select all" is the same as "Clear" alone. *)
Theorem selecting_all_of_a_subject (SYLLABUS : Subject -> list jsstring)
    (sub : Subject) (select : bool) (prev : TestConfig) :
  let next := handleSubjectAll SYLLABUS false sub select prev in
  (forall c,
      includes (chapters next) c
      = if includes (SYLLABUS sub) c then select
        else includes (chapters prev) c)
  /\ handleSubjectAll SYLLABUS false sub select next = next
  /\ handleSubjectAll SYLLABUS false sub false
       (handleSubjectAll SYLLABUS false sub true prev)
     = handleSubjectAll SYLLABUS false sub false prev.
Proof.
  cbv zeta. unfold handleSubjectAll. cbv zeta.
  rewrite !chapters_withChapters, !withChapters_twice.
  set (other := fun c : jsstring => negb (includes (SYLLABUS sub) c)).
  assert (Hsub : filter other (SYLLABUS sub) = []).
  { apply filter_none. intros c Hc. unfold other.
    apply includes_In in Hc. now rewrite Hc. }
  split; [|split].
  - intros c. destruct select.
    + rewrite includes_app, includes_filter. unfold other.
      destruct (includes (SYLLABUS sub) c); cbn [negb];
        [apply orb_true_r | rewrite orb_false_r; apply andb_true_r].
    + rewrite includes_filter. unfold other.
      destruct (includes (SYLLABUS sub) c); cbn [negb];
        [apply andb_false_r | apply andb_true_r].
  - destruct select.
    + now rewrite filter_app, filter_twice, Hsub, app_nil_r.
    + now rewrite filter_twice.
  - now rewrite filter_app, filter_twice, Hsub, app_nil_r.
Qed.

Lemma fullSyllabus_step (SYLLABUS : Subject -> list jsstring) (a : Action)
    (st : State) :
  (isFullSyllabus st = true -> chapters (config st) = []) ->
  isFullSyllabus (act SYLLABUS a st) = true ->
  chapters (config (act SYLLABUS a st)) = [].
Proof.
  intros Hinv. destruct a; cbn [act isFullSyllabus config];
    unfold toggleChapter, handleSubjectAll, handleSetFullSyllabus,
      handleRandomSelect, handleCustomStart, questionsPerSubjectEffect;
    cbn [isFullSyllabus config chapters].
  - intros Hfull. rewrite Hfull. now apply Hinv.
  - intros Hfull. rewrite Hfull. now apply Hinv.
  - intros ->. reflexivity.
  - discriminate.
  - discriminate.
  - exact Hinv.
Qed.

(** X29.  Whatever the candidate does with the chapter controls, the full-syllabus
    mode never holds a selection of chapters. *)
Theorem full_syllabus_mode_has_no_chapters
    (SYLLABUS : Subject -> list jsstring) (actions : list Action) (st : State)
    (Hstart : isFullSyllabus st = true -> chapters (config st) = []) :
  let st' := fold_left (fun s a => act SYLLABUS a s) actions st in
  isFullSyllabus st' = true -> chapters (config st') = [].
Proof.
  cbv zeta. revert st Hstart.
  induction actions as [|a rest IH]; intros st Hstart; cbn [fold_left];
    [exact Hstart|].
  apply IH. now apply fullSyllabus_step.
Qed.

Lemma full_syllabus_mode_has_no_chapters_witness :
  chapters
    (config
       (fold_left (fun s a => act (fun _ => [js "Optics"]) a s)
          [ToggleChapter (js "Waves"); SubjectAll PHYSICS true;
           SetFullSyllabus true; ToggleChapter (js "Optics")]
          initial))
  = [].
Proof.
  apply (full_syllabus_mode_has_no_chapters (fun _ => [js "Optics"])
           [ToggleChapter (js "Waves"); SubjectAll PHYSICS true;
            SetFullSyllabus true; ToggleChapter (js "Optics")] initial);
    [discriminate | reflexivity].
Defined.

Lemma distributeCount_even (n : Z) (parts : nat) :
  0 <= n -> (0 < parts)%nat ->
  distributeCount (n * Z.of_nat parts) parts = repeat n parts.
Proof.
  intros Hn Hparts. unfold distributeCount. cbv zeta.
  rewrite Z.div_mul, Z.rem_mul by lia.
  assert (H : forall start len,
             map (fun i : nat => if Z.of_nat i <? 0 then n + 1 else n)
               (seq start len) = repeat n len).
  { intros start len. revert start.
    induction len as [|len IH]; intros start; [reflexivity|].
    cbn [seq map repeat]. rewrite IH.
    replace (Z.of_nat start <? 0) with false
      by (symmetry; apply Z.ltb_ge; lia).
    reflexivity. }
  apply H.
Qed.

(** X30.  With the three subjects of the application, choosing a number of
    questions per subject makes [generateQuestions] plan exactly that
    number of questions for each subject, and leaves the subjects, the
    chapters and the difficulty as they were. *)
Theorem questions_per_subject_is_the_share_of_each_subject
    (questionsPerSubject : Z) (prev : TestConfig)
    (Hnonneg : 0 <= questionsPerSubject)
    (Hsubjects : List.length (subjects prev) = 3%nat) :
  let next := questionsPerSubjectEffect questionsPerSubject prev in
  distributeCount (questionCount next) (List.length (subjects next))
  = [questionsPerSubject; questionsPerSubject; questionsPerSubject]
  /\ subjects next = subjects prev
  /\ chapters next = chapters prev
  /\ difficulty next = difficulty prev.
Proof.
  cbv zeta. unfold questionsPerSubjectEffect. cbv zeta.
  cbn [questionCount subjects chapters difficulty]. rewrite Hsubjects.
  split; [|repeat split].
  exact (distributeCount_even questionsPerSubject 3 Hnonneg ltac:(lia)).
Qed.

Lemma questions_per_subject_is_the_share_of_each_subject_witness :
  distributeCount
    (questionCount (questionsPerSubjectEffect 25 (config initial)))
    (List.length (subjects (questionsPerSubjectEffect 25 (config initial))))
  = [25; 25; 25].
Proof.
  apply (questions_per_subject_is_the_share_of_each_subject 25
           (config initial)); [lia | reflexivity].
Defined.

End ConfigProperties.
